(** * Surgical Vision: the Express routes, the risk-assessment generator,
      the client-side login and the 2D slice viewer, embedded and verified.

    Sources embedded here:
    - [server/controllers/scanController.js]   (module [ScanController])
    - [server/index.js], [server/routes/index.js], [server/config/db.js]
      (module [Server])
    - [src/context/AuthContext.tsx]            (module [AuthContext])
    - [src/components/MedicalSliceViewer.tsx]  (module [MedicalSliceViewer])

    JavaScript numbers that are not integers by construction are IEEE 754
    binary64 values: Rocq's primitive [float], whose operations are the
    same ones the JavaScript engine performs.  Integers that the code only
    counts with (sizes, indices, ids, slice numbers) are [Z].  Strings
    are kept as the bytes of their UTF-8 form. *)

From Stdlib Require Import ZArith List String Ascii Bool Lia DecimalString.
From Stdlib Require Import Floats.PrimFloat Floats.FloatOps Floats.SpecFloat.
From Stdlib Require Import Permutation Sorted.
Import ListNotations.

Set Warnings "-inexact-float,-register-all".

(* ================================================================= *)
(** * The JavaScript fragments the sources rely on *)

Module Js.

Local Open Scope float_scope.

(** [Math.PI], the binary64 value nearest to pi. *)
Definition Math_PI : float := 0x1.921fb54442d18p+1.

(** [Math.min(a, b)] of ECMAScript: NaN if either is NaN, and -0 below +0. *)
Definition Math_min (a b : float) : float :=
  if is_nan a || is_nan b then nan
  else if a <? b then a
  else if b <? a then b
  else if get_sign a then a else b.

(** [Math.max(a, b)] of ECMAScript: NaN if either is NaN, and +0 above -0. *)
Definition Math_max (a b : float) : float :=
  if is_nan a || is_nan b then nan
  else if b <? a then a
  else if a <? b then b
  else if get_sign a then b else a.

(** The number a (small) integer denotes. *)
Definition number_of_Z (z : Z) : float :=
  SF2Prim (binary_normalize prec emax z 0 false).

(** [Math.floor(x)] of a finite number, as the integer it denotes
    (an arithmetic shift right is the floor of the quotient). *)
Definition Math_floor_int (x : float) : Z :=
  match Prim2SF x with
  | S754_finite s m e =>
      let v := if s then Z.neg m else Z.pos m in
      if (0 <=? e)%Z then (v * 2 ^ e)%Z else Z.shiftr v (- e)
  | _ => 0%Z
  end.

Local Open Scope string_scope.

(** [String.prototype.toLowerCase] on ASCII letters; other bytes stay. *)
Definition lower_ascii (c : ascii) : ascii :=
  let n := nat_of_ascii c in
  if (65 <=? n)%nat && (n <=? 90)%nat then ascii_of_nat (n + 32) else c.

Fixpoint toLowerCase (s : string) : string :=
  match s with
  | EmptyString => EmptyString
  | String c t => String (lower_ascii c) (toLowerCase t)
  end.

(** [s.includes(sub)]: [sub] occurs in [s] at some position. *)
Fixpoint includes (s sub : string) : bool :=
  prefix sub s ||
  match s with
  | EmptyString => false
  | String _ t => includes t sub
  end.

(** [s.endsWith(suffix)]. *)
Definition endsWith (s suffix : string) : bool :=
  let n := String.length s in
  let m := String.length suffix in
  (m <=? n)%nat && String.eqb (substring (n - m) m s) suffix.

(** [array.includes(x)] on an array of strings. *)
Definition array_includes (l : list string) (x : string) : bool :=
  existsb (String.eqb x) l.

(** Decimal rendering of an integer inside a template literal. *)
Definition string_of_Z (z : Z) : string :=
  DecimalString.NilZero.string_of_int (Z.to_int z).

End Js.

(* ================================================================= *)
(** * server/controllers/scanController.js *)

Module ScanController.

Import Js.
Local Open Scope string_scope.

(** One value of [Math.random()]: a binary64 number in [0, 1). *)
Record Draw := {
  draw_value : float;
  draw_unit : (0 <=? draw_value)%float && (draw_value <? 1)%float = true
}.

(** The generator behind [Math.random()]: the draws still to come. *)
Definition Rng := nat -> Draw.

(** Computations that call [Math.random()]. *)
Definition Rand (A : Type) : Type := Rng -> A * Rng.

Definition ret {A} (a : A) : Rand A := fun g => (a, g).

Definition bind {A B} (m : Rand A) (k : A -> Rand B) : Rand B :=
  fun g => let (a, g') := m g in k a g'.

Definition Math_random : Rand float :=
  fun g => (draw_value (g 0%nat), fun n => g (S n)).

Notation "x <- m ;; k" := (bind m (fun x => k))
  (at level 61, m at next level, right associativity).

(** The file object multer hands to the route ([req.file]). *)
Record File := {
  fieldname : string;
  originalname : string;
  mimetype : string;
  size : Z
}.

(** An element of [riskFactors]; [None] is [undefined], what an array
    read outside its bounds yields. *)
Definition Factor := option string.

(** The function's local variables [riskFactors], [riskLevel], [confidence]. *)
Record Locals := {
  riskFactors : list Factor;
  riskLevel : string;
  l_confidence : float
}.

Definition push (f : string) (l : Locals) : Locals :=
  {| riskFactors := riskFactors l ++ [Some f];
     riskLevel := riskLevel l;
     l_confidence := l_confidence l |}.

Definition set_level (v : string) (l : Locals) : Locals :=
  {| riskFactors := riskFactors l;
     riskLevel := v;
     l_confidence := l_confidence l |}.

Definition add_confidence (d : float) (l : Locals) : Locals :=
  {| riskFactors := riskFactors l;
     riskLevel := riskLevel l;
     l_confidence := (l_confidence l + d)%float |}.

Definition sub_confidence (d : float) (l : Locals) : Locals :=
  {| riskFactors := riskFactors l;
     riskLevel := riskLevel l;
     l_confidence := (l_confidence l - d)%float |}.

Definition initial_locals : Locals :=
  {| riskFactors := []; riskLevel := "low"; l_confidence := 0.85%float |}.

Definition fileSize_of (file : option File) : Z :=
  match file with Some f => size f | None => 0%Z end.

Definition fileName_of (file : option File) : string :=
  match file with Some f => toLowerCase (originalname f) | None => "" end.

Definition cranial_name (fileName : string) : bool :=
  includes fileName "brain" || includes fileName "head" ||
  includes fileName "cranial".

(** The [if (scanType === "CT") ... else if "MRI" ... else if "X-Ray"] chain. *)
Definition by_scan_type (scanType : string) (fileSize : Z) (fileName : string)
    (l : Locals) : Rand Locals :=
  if scanType =? "CT" then
    let l := if (fileSize >? 10 * 1024 * 1024)%Z
             then add_confidence 0.05%float (push "High resolution CT detected" l)
             else l in
    if cranial_name fileName then
      let l := push "Cranial region detected" l in
      r1 <- Math_random ;;
      if (0.6 <? r1)%float then
        ret (push "Tumor within 2mm of major blood vessel"
               (push "Critical vessel proximity detected" (set_level "high" l)))
      else
        r2 <- Math_random ;;
        if (0.4 <? r2)%float then
          ret (push "Moderate vessel proximity" (set_level "medium" l))
        else ret l
    else ret l
  else if scanType =? "MRI" then
    let l := push "Soft tissue analysis completed" l in
    r <- Math_random ;;
    let l := if (0.7 <? r)%float
             then push "Tissue density variations detected" (set_level "medium" l)
             else l in
    ret (add_confidence 0.1%float l)
  else if scanType =? "X-Ray" then
    ret (set_level "low" (push "Bone structure analysis completed" l))
  else ret l.

(** [if (fileSize < 1024 * 1024)]. *)
Definition small_file (fileSize : Z) (l : Locals) : Locals :=
  if (fileSize <? 1024 * 1024)%Z
  then push "Lower resolution may affect accuracy" (sub_confidence 0.15%float l)
  else l.

Definition additionalFactors : list string :=
  [ "Anatomical variants detected";
    "Surgical approach complexity: moderate";
    "Patient age factor considered";
    "Previous surgical history noted";
    "Instrument accessibility evaluated" ].

(** [additionalFactors[i]]. *)
Definition array_get (a : list string) (i : Z) : Factor :=
  if (i <? 0)%Z then None else nth_error a (Z.to_nat i).

Definition factor_eqb (a b : Factor) : bool :=
  match a, b with
  | Some x, Some y => x =? y
  | None, None => true
  | _, _ => false
  end.

(** One turn of the [for] loop: pick a factor, push it unless present. *)
Definition add_random_factor (l : Locals) : Rand Locals :=
  r <- Math_random ;;
  let factor :=
    array_get additionalFactors
      (Math_floor_int (r * number_of_Z (Z.of_nat (List.length additionalFactors)))%float) in
  if existsb (factor_eqb factor) (riskFactors l) then ret l
  else ret {| riskFactors := riskFactors l ++ [factor];
              riskLevel := riskLevel l;
              l_confidence := l_confidence l |}.

(** [for (let i = 0; i < numFactors; i++)]: [n] turns. *)
Fixpoint add_random_factors (n : nat) (l : Locals) : Rand Locals :=
  match n with
  | O => ret l
  | S k => l' <- add_random_factor l ;; add_random_factors k l'
  end.

(** The [switch (riskLevel)]: [(details, recommendations)]. *)
Definition assessment_text (riskLevel : string) : string * list string :=
  if riskLevel =? "high" then
    ("Critical risk factors identified requiring immediate attention. " ++
     "Major blood vessels detected within surgical corridor. " ++
     "Recommend specialized surgical team and advanced monitoring.",
     [ "Schedule pre-operative consultation";
       "Consider minimally invasive approach";
       "Prepare for potential complications";
       "Ensure emergency protocols are ready" ])
  else if riskLevel =? "medium" then
    ("Moderate risk factors present requiring careful planning. " ++
     "Standard surgical precautions recommended with enhanced monitoring.",
     [ "Review surgical approach options";
       "Prepare backup procedures";
       "Standard monitoring protocols" ])
  else if riskLevel =? "low" then
    ("No significant risk factors detected. " ++
     "Proceed with standard surgical protocols and routine monitoring.",
     [ "Follow standard surgical procedures";
       "Routine post-operative care";
       "Regular follow-up scheduling" ])
  else ("", []).

Record AiInfo := {
  processingTime : Z;
  ai_confidence : Z;
  modelVersion : string;
  analysisDate : string
}.

Record ScanInfo := {
  info_type : string;
  info_fileSize : Z;
  info_fileName : string
}.

Record RiskAssessment := {
  level : string;
  details : string;
  factors : list Factor;
  recommendations : list string;
  confidence : Z;
  aiInfo : AiInfo;
  scanInfo : ScanInfo
}.

(** The local variables as they stand when the result object is built. *)
Definition analysis (scanType : string) (file : option File) : Rand Locals :=
  let fileSize := fileSize_of file in
  let fileName := fileName_of file in
  l <- by_scan_type scanType fileSize fileName initial_locals ;;
  let l := small_file fileSize l in
  r <- Math_random ;;
  let numFactors := (Math_floor_int (r * 2)%float + 1)%Z in
  add_random_factors (Z.to_nat numFactors) l.

(** [getRiskAssessment(scanType, file)]; [isoNow] is what
    [new Date().toISOString()] returns. *)
Definition getRiskAssessment (isoNow : string) (scanType : string)
    (file : option File) : Rand RiskAssessment :=
  l <- analysis scanType file ;;
  let (details, recommendations) := assessment_text (riskLevel l) in
  r <- Math_random ;;
  let aiInfo :=
    {| processingTime := (Math_floor_int (r * 3000)%float + 500)%Z;
       ai_confidence := 50;
       modelVersion := "SurgicalAI v2.1.0";
       analysisDate := isoNow |} in
  ret {| level := riskLevel l;
         details := details;
         factors := riskFactors l;
         recommendations := recommendations;
         confidence := ai_confidence aiInfo;
         aiInfo := aiInfo;
         scanInfo := {| info_type := scanType;
                        info_fileSize := fileSize_of file;
                        info_fileName := fileName_of file |} |}.

(** Generators for concrete runs: the listed draws, then [0] for ever. *)
Definition draw_zero : Draw := {| draw_value := 0%float; draw_unit := eq_refl |}.
Definition draw_0_9 : Draw := {| draw_value := 0.9%float; draw_unit := eq_refl |}.
Definition draw_0_5 : Draw := {| draw_value := 0.5%float; draw_unit := eq_refl |}.

Definition rng_of_list (l : list Draw) : Rng := fun n => nth n l draw_zero.

End ScanController.

(* ================================================================= *)
(** * server/index.js, server/routes/index.js and server/config/db.js *)

Module Server.

Import Js ScanController.
Local Open Scope string_scope.
Local Open Scope Z_scope.

(** ** server/config/db.js: the tables *)

(** A row of [scans], with the columns of its [CREATE TABLE].  Every
    [INSERT INTO scans] of the program (the sample data of db.js and
    the upload route) gives the row a risk level and a status, and its
    date is a text of the form 'YYYY-MM-DD HH:MM:SS', given or the
    default [CURRENT_TIMESTAMP]: these columns are strings here.
    [uploaded_by] (default 'Dr. Smith'), [notes] and [file_path] keep
    their NULL. *)
Record ScanRow := {
  id : Z;
  patient_name : string;
  scan_type : string;
  risk_level : string;
  status : string;
  date : string;
  uploaded_by : option string;
  notes : option string;
  file_path : option string
}.

(** A row of [scan_annotations], with the columns of its
    [CREATE TABLE]. *)
Record AnnotationRow := {
  annotation_id : Z;
  scan_id : Z;
  position_x : float;
  position_y : float;
  position_z : float;
  annotation_note : string;
  annotation_type : string;
  created_by : string;
  created_at : string;
  updated_at : string
}.

(** The tables the routes' statements name.  [scans_seq] is the entry
    of [sqlite_sequence] that [AUTOINCREMENT] keeps for [scans]: the
    largest id a row of the table was ever given.  [scan_annotations]
    declares [FOREIGN KEY (scan_id) REFERENCES scans (id) ON DELETE
    CASCADE], but db.js opens the connection and runs no
    [PRAGMA foreign_keys = ON], without which SQLite does not enforce
    the clause. *)
Record Db := {
  scans : list ScanRow;
  scans_seq : Z;
  scan_annotations : list AnnotationRow
}.

(** The rows [insertSampleData] puts into an empty database: patient
    name, scan type, risk level, status, date and notes of the six
    scans, and scan id, position, note, type and author of the four
    annotations. *)
Definition sample_scans
    : list (string * string * string * string * string * string) :=
  [ ("John Doe", "CT", "high", "completed", "2024-01-15 10:30:00",
     "Cranial CT showing concerning mass near temporal lobe");
    ("Jane Smith", "MRI", "low", "completed", "2024-01-14 14:20:00",
     "Routine MRI scan, no abnormalities detected");
    ("Robert Johnson", "CT", "medium", "pending", "2024-01-13 09:15:00",
     "Chest CT with possible nodule requiring follow-up");
    ("Maria Garcia", "X-Ray", "low", "completed", "2024-01-12 16:45:00",
     "Standard X-ray, normal findings");
    ("John Doe", "MRI", "high", "pending", "2024-01-11 11:00:00",
     "Follow-up MRI for surgical planning");
    ("Jane Smith", "CT", "medium", "completed", "2024-01-10 13:30:00",
     "Abdominal CT with minor findings") ].

Definition sampleAnnotations
    : list (Z * float * float * float * string * string * string) :=
  [ (1, 0.8%float, 0.2%float, 0.5%float,
     "Critical vessel proximity - exercise extreme caution", "critical",
     "Dr. Smith");
    (1, (-0.5)%float, 0.8%float, 0.3%float,
     "Tumor boundary clearly defined", "info", "Dr. Smith");
    (2, 0.2%float, (-0.3)%float, 0.7%float, "Normal tissue structure",
     "info", "Dr. Johnson");
    (3, 1.1%float, 0.5%float, (-0.2)%float,
     "Potential surgical approach point", "warning", "Dr. Smith") ].

(** What a promise of the helpers settles to. *)
Inductive Outcome (A : Type) : Type :=
| Resolved (a : A)
| Rejected (message : string).
Arguments Resolved {A} a.
Arguments Rejected {A} message.

(** [runQuery], [getQuery] and [allQuery] of db.js wrap one call of the
    driver ([db.run], [db.get], [db.all]) in a promise: it rejects with
    the error [err] the driver reports, if it reports one for whatever
    reason (a locked or full database, a failed constraint, a lost
    file), and otherwise resolves with what the statement yields
    ([{ id: this.lastID, changes: this.changes }], the first row or
    [undefined], all rows). *)
Definition runQuery {A} (err : option string) (result : A) : Outcome A :=
  match err with
  | Some message => Rejected message
  | None => Resolved result
  end.

Definition getQuery {A} (err : option string) (row : A) : Outcome A :=
  match err with
  | Some message => Rejected message
  | None => Resolved row
  end.

Definition allQuery {A} (err : option string) (rows : list A)
    : Outcome (list A) :=
  match err with
  | Some message => Rejected message
  | None => Resolved rows
  end.

(** ** The clock and the environment of one request *)
Record Env := {
  Date_now : Z;                  (* Date.now() *)
  toISOString : string;          (* new Date().toISOString() *)
  CURRENT_TIMESTAMP : string;    (* the default of scans.date *)
  start_of_month : string;       (* date('now', 'start of month') *)
  development : bool;            (* NODE_ENV === "development" *)
  driver_error : nat -> option string
    (* the error the SQLite driver reports for the n-th statement the
       request runs, if it reports one *)
}.

(** The driver reports no error to the request. *)
Definition driver_ok (env : Env) : Prop :=
  forall n : nat, driver_error env n = None.

(** ** The SQL statements of the routes, over the tables *)

Section Statements.

(** [WHERE id = ?] with the route parameter (a string) bound: SQLite's
    comparison of the bound text with the integer column. *)
Variable id_matches : string -> Z -> bool.

(** The eight columns [GET /scans] selects. *)
Record ScanSummary := {
  s_id : Z;
  s_patient_name : string;
  s_scan_type : string;
  s_risk_level : string;
  s_status : string;
  s_date : string;
  s_uploaded_by : option string;
  s_notes : option string
}.

Definition summary (r : ScanRow) : ScanSummary :=
  {| s_id := id r; s_patient_name := patient_name r;
     s_scan_type := scan_type r; s_risk_level := risk_level r;
     s_status := status r; s_date := date r;
     s_uploaded_by := uploaded_by r; s_notes := notes r |}.

(** [ORDER BY date DESC]; rows of the same date stay in the order of
    the table, one of the orders SQLite may give them. *)
Fixpoint insert_by_date (r : ScanRow) (l : list ScanRow) : list ScanRow :=
  match l with
  | [] => [r]
  | h :: t => if String.leb (date h) (date r) then r :: l
              else h :: insert_by_date r t
  end.

Definition order_by_date_desc (l : list ScanRow) : list ScanRow :=
  fold_right insert_by_date [] l.

(** [SELECT id, ..., notes FROM scans ORDER BY date DESC]. *)
Definition select_scans (db : Db) : list ScanSummary :=
  map summary (order_by_date_desc (scans db)).

(** [SELECT id, ..., file_path FROM scans WHERE id = ?]: the first row,
    or [undefined]. *)
Definition select_scan (db : Db) (param : string) : option ScanRow :=
  find (fun r => id_matches param (id r)) (scans db).

(** The id [INTEGER PRIMARY KEY AUTOINCREMENT] gives the next inserted
    row: one more than the largest id the table holds or ever held. *)
Definition next_id (db : Db) : Z :=
  1 + Z.max (scans_seq db) (fold_right Z.max 0 (map id (scans db))).

(** [INSERT INTO scans (patient_name, scan_type, risk_level, status,
    file_path, notes) VALUES (?, ?, ?, ?, ?, ?)]: the new tables and
    [lastID].  [date] and [uploaded_by] take their defaults. *)
Definition insert_scan (env : Env) (db : Db)
    (patient type_ risk status_ path notes_ : string) : Db * Z :=
  let row := {| id := next_id db; patient_name := patient;
                scan_type := type_; risk_level := risk;
                status := status_; date := CURRENT_TIMESTAMP env;
                uploaded_by := Some "Dr. Smith"; notes := Some notes_;
                file_path := Some path |} in
  ({| scans := scans db ++ [row]; scans_seq := id row;
      scan_annotations := scan_annotations db |},
   id row).

(** [SELECT COUNT( * ) as count FROM scans]. *)
Definition count_scans (db : Db) : Z :=
  Z.of_nat (List.length (scans db)).

(** [... WHERE risk_level = ?] bound to ['high']. *)
Definition count_risk (db : Db) (risk : string) : Z :=
  Z.of_nat (List.length
    (filter (fun r => String.eqb (risk_level r) risk) (scans db))).

(** [... WHERE date >= date('now', 'start of month')]. *)
Definition count_recent (env : Env) (db : Db) : Z :=
  Z.of_nat (List.length
    (filter (fun r => String.leb (start_of_month env) (date r)) (scans db))).

(** [SELECT COUNT(DISTINCT patient_name) as count FROM scans]. *)
Definition count_patients (db : Db) : Z :=
  Z.of_nat (List.length (nodup string_dec (map patient_name (scans db)))).

Definition with_status (v : string) (r : ScanRow) : ScanRow :=
  {| id := id r; patient_name := patient_name r;
     scan_type := scan_type r; risk_level := risk_level r;
     status := v; date := date r; uploaded_by := uploaded_by r;
     notes := notes r; file_path := file_path r |}.

(** [UPDATE scans SET status = ? WHERE id = ?]. *)
Definition update_status (db : Db) (v : string) (param : string) : Db :=
  {| scans := map (fun r => if id_matches param (id r)
                            then with_status v r else r) (scans db);
     scans_seq := scans_seq db;
     scan_annotations := scan_annotations db |}.

(** [DELETE FROM scans WHERE id = ?]: the new tables and [changes].
    The sequence is kept, and so are the annotations (the foreign key
    is not enforced). *)
Definition delete_scan (db : Db) (param : string) : Db * Z :=
  let kept := filter (fun r => negb (id_matches param (id r))) (scans db) in
  ({| scans := kept; scans_seq := scans_seq db;
      scan_annotations := scan_annotations db |},
   Z.of_nat (List.length (scans db)) - Z.of_nat (List.length kept)).

End Statements.

(** [INSERT INTO scans (patient_name, scan_type, risk_level, status,
    date, notes) VALUES (?, ?, ?, ?, ?, ?)] of [insertSampleData]: the
    id is the next of the sequence, [uploaded_by] takes its default and
    [file_path] stays NULL. *)
Definition insert_sample_scan (db : Db)
    (scan : string * string * string * string * string * string) : Db :=
  let '(patient, type_, risk, status_, date_, notes_) := scan in
  {| scans := scans db ++
              [ {| id := next_id db; patient_name := patient;
                   scan_type := type_; risk_level := risk;
                   status := status_; date := date_;
                   uploaded_by := Some "Dr. Smith"; notes := Some notes_;
                   file_path := None |} ];
     scans_seq := next_id db;
     scan_annotations := scan_annotations db |}.

(** ** Requests and responses *)

(** A JSON value of a parsed request body. *)
Inductive Json : Type :=
| JNull
| JBool (b : bool)
| JNumber (x : float)
| JString (s : string)
| JArray (items : list Json)
| JObject (fields : list (string * Json)).

(** The text fields of the multipart body of an upload, each sent at
    most once; [None] is a field that was not sent. *)
Record UploadBody := {
  patientName : option string;
  scanType : option string
}.

(** The members the annotation route reads from [req.body]. *)
Record AnnotationBody := {
  a_scanId : option Json;
  a_position : option Json;
  a_note : option Json;
  a_type : option Json
}.

(** The requests: an upload is a multipart request with the two text
    fields and at most one file part. *)
Inductive Request : Type :=
| GET_scans
| GET_scans_id (param : string)
| POST_scans (body : UploadBody) (part : option File)
| GET_stats
| POST_scans_id_status (param : string) (status_ : option Json)
| DELETE_scans_id (param : string)
| POST_annotations (body : AnnotationBody)
| GET_annotations_scanId (param : string).

(** The [scan] member of the upload response. *)
Record UploadedScan := {
  u_id : Z;
  u_patient_name : string;
  u_scan_type : string;
  u_risk_level : string;
  u_status : string;
  u_date : string
}.

Inductive Body : Type :=
| ScanList (rows : list ScanSummary)
| ScanRecord (row : ScanRow)
| Error (error : string)
| ErrorDetails (error details : string)
| ErrorMessage (error message : string)
| Uploaded (message : string) (scanId : Z)
    (riskAssessment : RiskAssessment) (scan : UploadedScan)
| Statistics (totalScans highRiskCases recentScans activePatients : Z)
| Message (message : string)
| AnnotationSaved (message id_ : string)
    (scanId position note type_ : option Json)
| AnnotationList (items : list Json).

Record Response := {
  statusCode : Z;
  body : Body
}.

(** [res.status(code).json(b)]; [res.json(b)] alone answers 200. *)
Definition respond (code : Z) (b : Body) : Response :=
  {| statusCode := code; body := b |}.

(** What the server holds between requests. *)
Record State := {
  db : Db;
  rng : Rng
}.

(** ** The upload middleware configured in server/index.js *)

Definition fileSize_limit : Z := 50 * 1024 * 1024.

Definition allowedTypes : list string :=
  ["image/jpeg"; "image/png"; "image/gif"].

(** The [fileFilter] option: [None] is [cb(null, true)], [Some m] is
    [cb(new Error(m), false)]. *)
Definition fileFilter (file : File) : option string :=
  let isDicom := endsWith (toLowerCase (originalname file)) ".dcm" in
  if array_includes allowedTypes (mimetype file) || isDicom then None
  else Some "Invalid file type. Please upload JPEG, PNG, GIF, or DICOM files.".

(** How the middleware hands over: [next()] with [req.file] set or left
    undefined, or [next(err)]. *)
Inductive Handover : Type :=
| Next (file : option File)
| NextMulterError (code message : string)
| NextError (message : string).

(** What [upload.single(field)] of multer, with the options above, does
    with the file part of the request (if any): a part without a file
    name is passed over; a part under another field name is unexpected;
    then the filter is asked; then the size limit applies while the part
    is read, and a part that reaches the limit is refused. *)
Definition upload_file (field : string) (part : option File) : Handover :=
  match part with
  | None => Next None
  | Some file =>
      if String.eqb (originalname file) "" then Next None
      else if negb (String.eqb (fieldname file) field) then
        NextMulterError "LIMIT_UNEXPECTED_FILE" "Unexpected field"
      else
        match fileFilter file with
        | Some m => NextError m
        | None =>
            if fileSize_limit <=? size file then
              NextMulterError "LIMIT_FILE_SIZE" "File too large"
            else Next (Some file)
        end
  end.

(** The options set no limit for the text fields, which leaves the
    parser's own: a value that reaches 1MB is refused. *)
Definition fieldSize_limit : Z := 1024 * 1024.

Definition field_fits (v : option string) : bool :=
  match v with
  | Some s => Z.of_nat (String.length s) <? fieldSize_limit
  | None => true
  end.

(** [upload.single(field)] on a request whose file part precedes its
    text fields, the order in which the upload page sends them: the
    first refusal ends the request. *)
Definition upload_single (field : string) (b : UploadBody)
    (part : option File) : Handover :=
  match upload_file field part with
  | Next file =>
      if field_fits (patientName b) && field_fits (scanType b) then Next file
      else NextMulterError "LIMIT_FIELD_VALUE" "Field value too long"
  | refusal => refusal
  end.

(** The error-handling middleware of server/index.js. *)
Definition error_middleware (env : Env) (multer : bool)
    (code message : string) : Response :=
  if multer then
    if String.eqb code "LIMIT_FILE_SIZE" then
      respond 400 (Error "File too large. Maximum size is 50MB.")
    else respond 400 (Error ("File upload error: " ++ message))
  else
    respond 500 (ErrorMessage "Internal server error"
                   (if development env then message
                    else "Something went wrong")).

(** ** The routes *)

Section Routes.

Variable id_matches : string -> Z -> bool.

(** JavaScript's [!s] on a body field is [negb (truthy s)]. *)
Definition truthy (s : option string) : bool :=
  match s with
  | Some v => negb (String.eqb v "")
  | None => false
  end.

Definition field_value (s : option string) : string :=
  match s with Some v => v | None => "" end.

(** [router.get('/scans')]. *)
Definition get_scans (env : Env) (st : State) : Response * State :=
  match allQuery (driver_error env 0%nat) (select_scans (db st)) with
  | Resolved scans_ => (respond 200 (ScanList scans_), st)
  | Rejected _ => (respond 500 (Error "Failed to fetch scans"), st)
  end.

(** [router.get('/scans/:id')]. *)
Definition get_scan (env : Env) (param : string) (st : State)
    : Response * State :=
  match getQuery (driver_error env 0%nat)
          (select_scan id_matches (db st) param) with
  | Resolved None => (respond 404 (Error "Scan not found"), st)
  | Resolved (Some scan) => (respond 200 (ScanRecord scan), st)
  | Rejected _ => (respond 500 (Error "Failed to fetch scan"), st)
  end.

(** The handler of [router.post('/scans', upload.single('scan'), ...)],
    entered with [req.file] as the middleware left it. *)
Definition post_scans_handler (env : Env) (b : UploadBody)
    (file : option File) (st : State) : Response * State :=
  if negb (truthy (patientName b)) || negb (truthy (scanType b)) then
    (respond 400 (Error "Patient name and scan type are required"), st)
  else
    match file with
    | None => (respond 400 (Error "Scan file is required"), st)
    | Some f =>
        let patient := field_value (patientName b) in
        let type_ := field_value (scanType b) in
        let (riskAssessment, rng') :=
          getRiskAssessment (toISOString env) type_ file (rng st) in
        let filePath :=
          "uploads/" ++ string_of_Z (Date_now env) ++ "_" ++ originalname f in
        match runQuery (driver_error env 0%nat)
                (insert_scan env (db st) patient type_
                   (level riskAssessment) "completed" filePath
                   (details riskAssessment)) with
        | Resolved (db', lastID) =>
            (respond 201
               (Uploaded "Scan uploaded successfully" lastID riskAssessment
                  {| u_id := lastID; u_patient_name := patient;
                     u_scan_type := type_;
                     u_risk_level := level riskAssessment;
                     u_status := "completed";
                     u_date := toISOString env |}),
             {| db := db'; rng := rng' |})
        | Rejected m =>
            (respond 500 (ErrorDetails "Failed to upload scan" m),
             {| db := db st; rng := rng' |})
        end
    end.

(** [POST /api/scans]: the middleware, then the handler or the error
    middleware. *)
Definition post_scans (env : Env) (b : UploadBody) (part : option File)
    (st : State) : Response * State :=
  match upload_single "scan" b part with
  | Next file => post_scans_handler env b file st
  | NextMulterError code m => (error_middleware env true code m, st)
  | NextError m => (error_middleware env false "" m, st)
  end.

(** [router.get('/stats')] awaits four statements one after the other,
    and the server can serve other requests in between: [db1], [db2],
    [db3] and [db4] are the tables as the four statements find them. *)
Definition get_stats_over (env : Env) (db1 db2 db3 db4 : Db) : Response :=
  match getQuery (driver_error env 0%nat) (count_scans db1) with
  | Rejected _ => respond 500 (Error "Failed to fetch statistics")
  | Resolved totalScans =>
  match getQuery (driver_error env 1%nat) (count_risk db2 "high") with
  | Rejected _ => respond 500 (Error "Failed to fetch statistics")
  | Resolved highRiskCases =>
  match getQuery (driver_error env 2%nat) (count_recent env db3) with
  | Rejected _ => respond 500 (Error "Failed to fetch statistics")
  | Resolved recentScans =>
  match getQuery (driver_error env 3%nat) (count_patients db4) with
  | Rejected _ => respond 500 (Error "Failed to fetch statistics")
  | Resolved activePatients =>
      respond 200
        (Statistics totalScans highRiskCases recentScans activePatients)
  end end end end.

(** The route served with no other request in between. *)
Definition get_stats (env : Env) (st : State) : Response * State :=
  (get_stats_over env (db st) (db st) (db st) (db st), st).

(** [['pending', 'completed', 'failed'].includes(status)]: only a
    string can be a member. *)
Definition statuses : list string := ["pending"; "completed"; "failed"].

Definition statuses_include (v : option Json) : option string :=
  match v with
  | Some (JString s) => if array_includes statuses s then Some s else None
  | _ => None
  end.

(** [router.post('/scans/:id/status')]. *)
Definition post_scan_status (env : Env) (param : string) (v : option Json)
    (st : State) : Response * State :=
  match statuses_include v with
  | None => (respond 400 (Error "Invalid status"), st)
  | Some s =>
      match runQuery (driver_error env 0%nat)
              (update_status id_matches (db st) s param) with
      | Resolved db' =>
          (respond 200 (Message "Status updated successfully"),
           {| db := db'; rng := rng st |})
      | Rejected _ => (respond 500 (Error "Failed to update status"), st)
      end
  end.

(** [router.delete('/scans/:id')]. *)
Definition delete_scan_route (env : Env) (param : string) (st : State)
    : Response * State :=
  match runQuery (driver_error env 0%nat)
          (delete_scan id_matches (db st) param) with
  | Resolved (db', changes) =>
      if changes =? 0 then
        (respond 404 (Error "Scan not found"),
         {| db := db'; rng := rng st |})
      else
        (respond 200 (Message "Scan deleted successfully"),
         {| db := db'; rng := rng st |})
  | Rejected _ => (respond 500 (Error "Failed to delete scan"), st)
  end.

(** [router.post('/annotations')]. *)
Definition post_annotations (env : Env) (b : AnnotationBody)
    (st : State) : Response * State :=
  (respond 201
     (AnnotationSaved "Annotation saved successfully"
        ("ann-" ++ string_of_Z (Date_now env))
        (a_scanId b) (a_position b) (a_note b) (a_type b)),
   st).

(** [router.get('/annotations/:scanId')]. *)
Definition get_annotations (param : string) (st : State)
    : Response * State :=
  (respond 200 (AnnotationList []), st).

(** The router: one request served at the instant [env], with no other
    request in between. *)
Definition serve (env : Env) (req : Request) (st : State)
    : Response * State :=
  match req with
  | GET_scans => get_scans env st
  | GET_scans_id param => get_scan env param st
  | POST_scans b part => post_scans env b part st
  | GET_stats => get_stats env st
  | POST_scans_id_status param v => post_scan_status env param v st
  | DELETE_scans_id param => delete_scan_route env param st
  | POST_annotations b => post_annotations env b st
  | GET_annotations_scanId param => get_annotations param st
  end.

(** A run of the server: the requests in arrival order, each with the
    instant it is served at; the responses and the final state. *)
Fixpoint serve_all (reqs : list (Env * Request)) (st : State)
    : list Response * State :=
  match reqs with
  | [] => ([], st)
  | (env, req) :: rest =>
      let (r, st') := serve env req st in
      let (rs, st'') := serve_all rest st' in
      (r :: rs, st'')
  end.

End Routes.

End Server.

(* ================================================================= *)
(** * src/context/AuthContext.tsx *)

Module AuthContext.

Local Open Scope string_scope.

Inductive Role : Type := surgeon | nurse | admin.

Record User := {
  id : string;
  name : string;
  role : Role;
  email : string
}.

(** The two [useState] cells of [AuthProvider]. *)
Record AuthState := {
  user : option User;
  loading : bool
}.

Definition initial : AuthState := {| user := None; loading := true |}.

Definition setUser (u : option User) (s : AuthState) : AuthState :=
  {| user := u; loading := loading s |}.

Definition setLoading (b : bool) (s : AuthState) : AuthState :=
  {| user := user s; loading := b |}.


(** The [demoUser] object [login(email, password)] builds. *)
Definition login_user (email_ password : string) : User :=
  {| id := "1"; name := "Dr. Smith"; role := surgeon; email := email_ |}.


(** [login(email, password)], once its timer has fired. *)
Definition login (email_ password : string) (s : AuthState) : AuthState :=
  setLoading false
    (setUser (Some (login_user email_ password)) (setLoading true s)).


End AuthContext.

(* ================================================================= *)
(** * src/components/MedicalSliceViewer.tsx *)

Module MedicalSliceViewer.

Import Js.
Local Open Scope string_scope.

Inductive AnnotationType : Type := info | warning | critical.

Record Annotation := {
  slice : Z;
  x : float;
  y : float;
  note : string;
  type : AnnotationType
}.

Record Overlays := {
  ventricles : bool;
  vessels : bool;
  contours : bool
}.

(** [const [totalSlices] = useState(12)]: a cell with no setter. *)
Definition totalSlices : Z := 12.

(** The [useState] cells of the component that have a setter. *)
Record State := {
  currentSlice : Z;
  zoom : float;
  annotations : list Annotation;
  showAnnotations : bool;
  annotationMode : bool;
  overlays : Overlays
}.

Definition initial : State :=
  {| currentSlice := 0; zoom := 1;
     annotations := []; showAnnotations := true; annotationMode := false;
     overlays := {| ventricles := true; vessels := true; contours := true |} |}.

(** ** The setters *)

Definition setCurrentSlice (f : Z -> Z) (s : State) : State :=
  {| currentSlice := f (currentSlice s);
     zoom := zoom s; annotations := annotations s;
     showAnnotations := showAnnotations s;
     annotationMode := annotationMode s; overlays := overlays s |}.

Definition setZoom (f : float -> float) (s : State) : State :=
  {| currentSlice := currentSlice s;
     zoom := f (zoom s); annotations := annotations s;
     showAnnotations := showAnnotations s;
     annotationMode := annotationMode s; overlays := overlays s |}.

Definition setAnnotations (f : list Annotation -> list Annotation)
    (s : State) : State :=
  {| currentSlice := currentSlice s;
     zoom := zoom s; annotations := f (annotations s);
     showAnnotations := showAnnotations s;
     annotationMode := annotationMode s; overlays := overlays s |}.

Definition setShowAnnotations (b : bool) (s : State) : State :=
  {| currentSlice := currentSlice s;
     zoom := zoom s; annotations := annotations s;
     showAnnotations := b;
     annotationMode := annotationMode s; overlays := overlays s |}.

Definition setAnnotationMode (b : bool) (s : State) : State :=
  {| currentSlice := currentSlice s;
     zoom := zoom s; annotations := annotations s;
     showAnnotations := showAnnotations s;
     annotationMode := b; overlays := overlays s |}.

Definition setOverlays (f : Overlays -> Overlays) (s : State) : State :=
  {| currentSlice := currentSlice s;
     zoom := zoom s; annotations := annotations s;
     showAnnotations := showAnnotations s;
     annotationMode := annotationMode s; overlays := f (overlays s) |}.

(** ** The user operations *)

Definition nextSlice (s : State) : State :=
  setCurrentSlice (fun prev => Z.min (prev + 1) (totalSlices - 1)) s.

Definition prevSlice (s : State) : State :=
  setCurrentSlice (fun prev => Z.max (prev - 1) 0) s.

Definition zoomIn (s : State) : State :=
  setZoom (fun prev => Math_min (prev * 1.2) 3) s.

Definition zoomOut (s : State) : State :=
  setZoom (fun prev => Math_max (prev / 1.2) 0.5) s.

(** [Math.floor(totalSlices / 2)] is the integer quotient. *)
Definition resetView (s : State) : State :=
  setCurrentSlice (fun _ => (totalSlices / 2)%Z) (setZoom (fun _ => 1%float) s).

Definition toggleAnnotationMode (s : State) : State :=
  setAnnotationMode (negb (annotationMode s)) s.

Definition toggleShowAnnotations (s : State) : State :=
  setShowAnnotations (negb (showAnnotations s)) s.

Definition toggleVentricles (s : State) : State :=
  setOverlays (fun prev => {| ventricles := negb (ventricles prev);
                              vessels := vessels prev;
                              contours := contours prev |}) s.

Definition toggleVessels (s : State) : State :=
  setOverlays (fun prev => {| ventricles := ventricles prev;
                              vessels := negb (vessels prev);
                              contours := contours prev |}) s.

Definition toggleContours (s : State) : State :=
  setOverlays (fun prev => {| ventricles := ventricles prev;
                              vessels := vessels prev;
                              contours := negb (contours prev) |}) s.

(** The "Go to Slice" button of a listed annotation. *)
Definition goToSlice (a : Annotation) (s : State) : State :=
  setCurrentSlice (fun _ => slice a) s.

(** [note.trim()]: white space and line terminators removed at both
    ends.  On the UTF-8 form of a string these are the bytes 9 to 13 and
    32, and the encodings of U+00A0, U+1680, U+2000 to U+200A, U+2028,
    U+2029, U+202F, U+205F, U+3000 and U+FEFF. *)
Definition is_space (c : ascii) : bool :=
  let n := nat_of_ascii c in
  (n =? 32)%nat || ((9 <=? n)%nat && (n <=? 13)%nat).

Definition wide_spaces : list string :=
  map (fun l => string_of_list_ascii (map ascii_of_nat l))
    [ [194; 160]; [225; 154; 128];
      [226; 128; 128]; [226; 128; 129]; [226; 128; 130]; [226; 128; 131];
      [226; 128; 132]; [226; 128; 133]; [226; 128; 134]; [226; 128; 135];
      [226; 128; 136]; [226; 128; 137]; [226; 128; 138];
      [226; 128; 168]; [226; 128; 169]; [226; 128; 175];
      [226; 129; 159]; [227; 128; 128]; [239; 187; 191] ]%nat.

Fixpoint reverse (s : string) : string :=
  match s with
  | EmptyString => EmptyString
  | String c t => reverse t ++ String c EmptyString
  end.

(** The white space at the start of [s] dropped, [wide] being the
    encodings of more than one byte; at most [fuel] characters. *)
Fixpoint drop_spaces (wide : list string) (fuel : nat) (s : string)
    : string :=
  match fuel with
  | O => s
  | S k =>
      match s with
      | EmptyString => s
      | String c t =>
          if is_space c then drop_spaces wide k t
          else
            match find (fun w => prefix w s) wide with
            | Some w =>
                drop_spaces wide k
                  (substring (String.length w)
                     (String.length s - String.length w) s)
            | None => s
            end
      end
  end.

Definition trim_start (s : string) : string :=
  drop_spaces wide_spaces (String.length s) s.

Definition trim_end (s : string) : string :=
  reverse (drop_spaces (map reverse wide_spaces) (String.length s)
             (reverse s)).

Definition trim (s : string) : string := trim_end (trim_start s).

(** The canvas element behind [canvasRef]. *)
Record Canvas := {
  width : float;
  height : float;
  has_2d_context : bool
}.

(** What [handleCanvasClick] reads: the click position, the corner of
    [canvas.getBoundingClientRect()], and what [prompt] returns ([None]
    when cancelled). *)
Record Click := {
  clientX : float;
  clientY : float;
  rect_left : float;
  rect_top : float;
  prompted : option string
}.

Definition handleCanvasClick (canvasRef : option Canvas) (event : Click)
    (s : State) : State :=
  if negb (annotationMode s) then s
  else match canvasRef with
  | None => s
  | Some canvas =>
      match prompted event with
      | None => s
      | Some note_ =>
          if (String.eqb note_ "") || (String.eqb (trim note_) "") then s
          else
            let newAnnotation :=
              {| slice := currentSlice s;
                 x := ((clientX event - rect_left event) / width canvas)%float;
                 y := ((clientY event - rect_top event) / height canvas)%float;
                 note := trim note_; type := info |} in
            setAnnotations (fun prev => (prev ++ [newAnnotation])%list) s
      end
  end.

(** ** The 2D context *)

Inductive Call : Type :=
| set_fillStyle (v : string)
| set_strokeStyle (v : string)
| set_lineWidth (v : float)
| setLineDash (segments : list float)
| fillRect (x_ y_ w h : float)
| beginPath
| ellipse (x_ y_ radiusX radiusY rotation startAngle endAngle : float)
| arc (x_ y_ radius startAngle endAngle : float)
| moveTo (x_ y_ : float)
| lineTo (x_ y_ : float)
| fill
| stroke.

(** The context: its canvas, the properties the code sets, and every
    call and assignment made on it, oldest first. *)
Record Ctx := {
  ctx_canvas : Canvas;
  fillStyle : string;
  strokeStyle : string;
  lineWidth : float;
  lineDash : list float;
  calls : list Call
}.

Definition Paint : Type := Ctx -> Ctx.

Definition log (c : Call) (k : Ctx) : list Call := calls k ++ [c].

Definition assign_fillStyle (v : string) : Paint := fun k =>
  {| ctx_canvas := ctx_canvas k; fillStyle := v; strokeStyle := strokeStyle k;
     lineWidth := lineWidth k; lineDash := lineDash k;
     calls := log (set_fillStyle v) k |}.

Definition assign_strokeStyle (v : string) : Paint := fun k =>
  {| ctx_canvas := ctx_canvas k; fillStyle := fillStyle k; strokeStyle := v;
     lineWidth := lineWidth k; lineDash := lineDash k;
     calls := log (set_strokeStyle v) k |}.

Definition assign_lineWidth (v : float) : Paint := fun k =>
  {| ctx_canvas := ctx_canvas k; fillStyle := fillStyle k;
     strokeStyle := strokeStyle k;
     lineWidth := v; lineDash := lineDash k;
     calls := log (set_lineWidth v) k |}.

Definition call_setLineDash (v : list float) : Paint := fun k =>
  {| ctx_canvas := ctx_canvas k; fillStyle := fillStyle k;
     strokeStyle := strokeStyle k;
     lineWidth := lineWidth k; lineDash := v;
     calls := log (setLineDash v) k |}.

(** A drawing call: only the log grows. *)
Definition call (c : Call) : Paint := fun k =>
  {| ctx_canvas := ctx_canvas k; fillStyle := fillStyle k;
     strokeStyle := strokeStyle k;
     lineWidth := lineWidth k; lineDash := lineDash k;
     calls := log c k |}.

Definition seq (p q : Paint) : Paint := fun k => q (p k).

Definition skip : Paint := fun k => k.

Notation "p ;; q" := (seq p q) (at level 61, right associativity).

(** [list.forEach(f)]. *)
Definition forEach {A} (l : list A) (f : A -> Paint) : Paint :=
  fun k => fold_left (fun k' a => f a k') l k.

Definition when (b : bool) (p : Paint) : Paint := if b then p else skip.

(** ** The drawing routines *)

Section Drawing.

(** [Math.sin] and [Math.cos]: ECMAScript leaves their results to the
    engine, so the routines are given for any pair of them. *)
Variables Math_sin Math_cos : float -> float.

Local Open Scope float_scope.

Definition drawBrainSlice (s : State) (slice_ : Z) : Paint := fun k =>
  let centerX := width (ctx_canvas k) / 2 in
  let centerY := height (ctx_canvas k) / 2 in
  let baseRadius := 120 * zoom s in
  let radiusVariation :=
    Math_sin ((number_of_Z slice_ / number_of_Z totalSlices) * Math_PI) * 0.3 + 0.7 in
  let radius := baseRadius * radiusVariation in
  ( assign_fillStyle "#4a4a4a" ;;
    call beginPath ;;
    call (ellipse centerX centerY radius (radius * 0.9) 0 0 (2 * Math_PI)) ;;
    call fill ;;
    assign_fillStyle "#6a6a6a" ;;
    call beginPath ;;
    call (ellipse centerX centerY (radius * 0.85) (radius * 0.75) 0 0 (2 * Math_PI)) ;;
    call fill ;;
    assign_fillStyle "#8a8a8a" ;;
    call beginPath ;;
    call (ellipse centerX centerY (radius * 0.7) (radius * 0.6) 0 0 (2 * Math_PI)) ;;
    call fill ) k.

Definition drawVentricles (s : State) (slice_ : Z) : Paint := fun k =>
  let centerX := width (ctx_canvas k) / 2 in
  let centerY := height (ctx_canvas k) / 2 in
  let baseSize := 30 * zoom s in
  ( assign_strokeStyle "#3b82f6" ;;
    assign_lineWidth 2 ;;
    assign_fillStyle "rgba(59, 130, 246, 0.3)" ;;
    when ((3 <=? slice_)%Z && (slice_ <=? 9)%Z)
      (let ventricleSize :=
         baseSize * (1 - number_of_Z (Z.abs (slice_ - 6)) / 6) in
       call beginPath ;;
       call (ellipse (centerX - 25 * zoom s) (centerY - 10 * zoom s)
               (ventricleSize * 0.6) (ventricleSize * 0.4) 0 0 (2 * Math_PI)) ;;
       call fill ;;
       call stroke ;;
       call beginPath ;;
       call (ellipse (centerX + 25 * zoom s) (centerY - 10 * zoom s)
               (ventricleSize * 0.6) (ventricleSize * 0.4) 0 0 (2 * Math_PI)) ;;
       call fill ;;
       call stroke) ;;
    when ((4 <=? slice_)%Z && (slice_ <=? 8)%Z)
      (call beginPath ;;
       call (ellipse centerX centerY (baseSize * 0.3) (baseSize * 0.8)
               0 0 (2 * Math_PI)) ;;
       call fill ;;
       call stroke) ) k.

(** The body of the [for (let i = 0; i < 6; i++)] loop. *)
Definition drawVessel (s : State) (centerX centerY : float) (i : Z) : Paint :=
  let angle := (number_of_Z i / 6) * Math_PI * 2 in
  let radius := 80 * zoom s in
  let x_ := centerX + Math_cos angle * radius in
  let y_ := centerY + Math_sin angle * radius in
  call beginPath ;;
  call (moveTo centerX centerY) ;;
  call (lineTo x_ y_) ;;
  call stroke.

Definition drawVessels (s : State) (slice_ : Z) : Paint := fun k =>
  let centerX := width (ctx_canvas k) / 2 in
  let centerY := height (ctx_canvas k) / 2 in
  ( assign_strokeStyle "#ef4444" ;;
    assign_lineWidth 2 ;;
    forEach [0; 1; 2; 3; 4; 5]%Z (drawVessel s centerX centerY) ) k.

Definition drawContours (s : State) (slice_ : Z) : Paint := fun k =>
  let centerX := width (ctx_canvas k) / 2 in
  let centerY := height (ctx_canvas k) / 2 in
  ( assign_strokeStyle "#10b981" ;;
    assign_lineWidth 1 ;;
    call_setLineDash [5; 5] ;;
    call beginPath ;;
    call (ellipse centerX centerY (140 * zoom s) (130 * zoom s) 0 0 (2 * Math_PI)) ;;
    call stroke ;;
    call_setLineDash [] ) k.

Definition marker_colour (t : AnnotationType) : string :=
  match t with
  | critical => "#ef4444"
  | warning => "#f59e0b"
  | info => "#3b82f6"
  end.

(** The body of the [forEach] of [drawAnnotations]; the ring takes its
    colour by reading [ctx.fillStyle] back. *)
Definition drawAnnotation (annotation : Annotation) : Paint := fun k =>
  let x_ := x annotation * width (ctx_canvas k) in
  let y_ := y annotation * height (ctx_canvas k) in
  ( assign_fillStyle (marker_colour (type annotation)) ;;
    call beginPath ;;
    call (arc x_ y_ 6 0 (2 * Math_PI)) ;;
    call fill ;;
    (fun k' => assign_strokeStyle (fillStyle k') k') ;;
    assign_lineWidth 2 ;;
    call beginPath ;;
    call (arc x_ y_ 12 0 (2 * Math_PI)) ;;
    call stroke ) k.

Definition drawAnnotations (s : State) : Paint :=
  forEach (filter (fun ann => (slice ann =? currentSlice s)%Z) (annotations s))
    drawAnnotation.

(** What [drawSlice] does once it holds a context. *)
Definition paintSlice (s : State) : Paint := fun k =>
  ( assign_fillStyle "#1a1a1a" ;;
    call (fillRect 0 0 (width (ctx_canvas k)) (height (ctx_canvas k))) ;;
    drawBrainSlice s (currentSlice s) ;;
    when (ventricles (overlays s)) (drawVentricles s (currentSlice s)) ;;
    when (vessels (overlays s)) (drawVessels s (currentSlice s)) ;;
    when (contours (overlays s)) (drawContours s (currentSlice s)) ;;
    when (showAnnotations s) (drawAnnotations s) ) k.

(** [drawSlice]: [canvasRef] is [None] while the canvas is not mounted,
    else the canvas with the state of its 2D context; nothing is drawn
    when [getContext('2d')] gives no context. *)
Definition drawSlice (s : State) (canvasRef : option Ctx) : option Ctx :=
  match canvasRef with
  | None => None
  | Some k => if has_2d_context (ctx_canvas k) then Some (paintSlice s k)
              else Some k
  end.

(** ** The frame, layer by layer

    The calls one redraw makes, written out per layer in the order the
    layers are stacked. *)

Definition background_calls (c : Canvas) : list Call :=
  [ set_fillStyle "#1a1a1a"; fillRect 0 0 (width c) (height c) ].

(** One filled tissue ellipse around the canvas centre. *)
Definition tissue_ellipse (c : Canvas) (colour : string) (rx ry : float)
    : list Call :=
  [ set_fillStyle colour; beginPath;
    ellipse (width c / 2) (height c / 2) rx ry 0 0 (2 * Math_PI); fill ].

(** The tissue radius of a slice: the base radius modulated by
    [sin(slice / total * pi)]. *)
Definition tissue_radius (zoom_ : float) (slice_ : Z) : float :=
  (120 * zoom_) *
  (Math_sin ((number_of_Z slice_ / number_of_Z totalSlices) * Math_PI) * 0.3 + 0.7).

Definition tissue_calls (c : Canvas) (zoom_ : float) (slice_ : Z) : list Call :=
  let r := tissue_radius zoom_ slice_ in
  tissue_ellipse c "#4a4a4a" r (r * 0.9) ++
  tissue_ellipse c "#6a6a6a" (r * 0.85) (r * 0.75) ++
  tissue_ellipse c "#8a8a8a" (r * 0.7) (r * 0.6).

Definition outlined_ellipse (cx cy rx ry : float) : list Call :=
  [ beginPath; ellipse cx cy rx ry 0 0 (2 * Math_PI); fill; stroke ].

Definition ventricle_calls (c : Canvas) (zoom_ : float) (slice_ : Z)
    : list Call :=
  let cx := width c / 2 in
  let cy := height c / 2 in
  let baseSize := 30 * zoom_ in
  let v := baseSize * (1 - number_of_Z (Z.abs (slice_ - 6)) / 6) in
  [ set_strokeStyle "#3b82f6"; set_lineWidth 2;
    set_fillStyle "rgba(59, 130, 246, 0.3)" ] ++
  (if (3 <=? slice_)%Z && (slice_ <=? 9)%Z
   then outlined_ellipse (cx - 25 * zoom_) (cy - 10 * zoom_) (v * 0.6) (v * 0.4) ++
        outlined_ellipse (cx + 25 * zoom_) (cy - 10 * zoom_) (v * 0.6) (v * 0.4)
   else []) ++
  (if (4 <=? slice_)%Z && (slice_ <=? 8)%Z
   then outlined_ellipse cx cy (baseSize * 0.3) (baseSize * 0.8)
   else []).

Definition vessel_line (c : Canvas) (zoom_ : float) (i : Z) : list Call :=
  let cx := width c / 2 in
  let cy := height c / 2 in
  let angle := (number_of_Z i / 6) * Math_PI * 2 in
  [ beginPath; moveTo cx cy;
    lineTo (cx + Math_cos angle * (80 * zoom_)) (cy + Math_sin angle * (80 * zoom_));
    stroke ].

Definition vessel_calls (c : Canvas) (zoom_ : float) : list Call :=
  [ set_strokeStyle "#ef4444"; set_lineWidth 2 ] ++
  flat_map (vessel_line c zoom_) [0; 1; 2; 3; 4; 5]%Z.

Definition contour_calls (c : Canvas) (zoom_ : float) : list Call :=
  [ set_strokeStyle "#10b981"; set_lineWidth 1; setLineDash [5; 5]; beginPath;
    ellipse (width c / 2) (height c / 2) (140 * zoom_) (130 * zoom_)
      0 0 (2 * Math_PI);
    stroke; setLineDash [] ].

Definition marker_calls (c : Canvas) (a : Annotation) : list Call :=
  let colour := marker_colour (type a) in
  [ set_fillStyle colour; beginPath;
    arc (x a * width c) (y a * height c) 6 0 (2 * Math_PI); fill;
    set_strokeStyle colour; set_lineWidth 2; beginPath;
    arc (x a * width c) (y a * height c) 12 0 (2 * Math_PI); stroke ].

(** The whole frame as a function of the canvas and of five values:
    slice index, zoom, overlay toggles, the show-annotations flag and
    the annotation list. *)
Definition frame (c : Canvas) (slice_ : Z) (zoom_ : float) (o : Overlays)
    (show : bool) (anns : list Annotation) : list Call :=
  background_calls c ++
  tissue_calls c zoom_ slice_ ++
  (if ventricles o then ventricle_calls c zoom_ slice_ else []) ++
  (if vessels o then vessel_calls c zoom_ else []) ++
  (if contours o then contour_calls c zoom_ else []) ++
  (if show
   then flat_map (marker_calls c) (filter (fun a => (slice a =? slice_)%Z) anns)
   else []).

End Drawing.

(** ** The states the user can reach *)

Inductive reachable : State -> Prop :=
| reach_initial : reachable initial
| reach_nextSlice s : reachable s -> reachable (nextSlice s)
| reach_prevSlice s : reachable s -> reachable (prevSlice s)
| reach_zoomIn s : reachable s -> reachable (zoomIn s)
| reach_zoomOut s : reachable s -> reachable (zoomOut s)
| reach_resetView s : reachable s -> reachable (resetView s)
| reach_toggleAnnotationMode s :
    reachable s -> reachable (toggleAnnotationMode s)
| reach_toggleShowAnnotations s :
    reachable s -> reachable (toggleShowAnnotations s)
| reach_toggleVentricles s : reachable s -> reachable (toggleVentricles s)
| reach_toggleVessels s : reachable s -> reachable (toggleVessels s)
| reach_toggleContours s : reachable s -> reachable (toggleContours s)
| reach_click s canvasRef event :
    reachable s -> reachable (handleCanvasClick canvasRef event s)
| reach_goToSlice s a :
    reachable s -> In a (annotations s) -> reachable (goToSlice a s).

(** The zoom factors [zoomIn] and [zoomOut] lead to from 1: the closure
    of [{1}] under the two updates, computed on binary64 numbers. *)
Fixpoint add_new (xs seen : list float) : list float :=
  match xs with
  | [] => seen
  | x_ :: rest =>
      if existsb (PrimFloat.Leibniz.eqb x_) seen then add_new rest seen
      else add_new rest (seen ++ [x_])
  end.

Fixpoint closure (fuel : nat) (seen : list float) : list float :=
  match fuel with
  | O => seen
  | S n =>
      closure n
        (add_new (map (fun z => Math_min (z * 1.2) 3) seen ++
                  map (fun z => Math_max (z / 1.2) 0.5) seen) seen)
  end.

Definition zoom_levels : list float :=
  Eval vm_compute in closure 40 [1%float].

(** The canvas of the component: 400 by 400, with a 2D context that has
    its default properties and no call made yet. *)
Definition canvas_400 : Canvas :=
  {| width := 400; height := 400; has_2d_context := true |}.

Definition fresh_context : Ctx :=
  {| ctx_canvas := canvas_400; fillStyle := "#000000";
     strokeStyle := "#000000"; lineWidth := 1; lineDash := [];
     calls := [] |}.

(** ** Notions the statements about the viewer use *)

Definition slice_in_range (n : Z) : Prop := (0 <= n <= totalSlices - 1)%Z.

(** What every reachable state satisfies; the zoom factor is one of the
    listed levels and the stored annotations sit on valid slices. *)
Definition invariant (s : State) : Prop :=
  slice_in_range (currentSlice s) /\
  In (zoom s) zoom_levels /\
  Forall (fun a => slice_in_range (slice a)) (annotations s).

(** A painter that leaves the canvas alone and appends to the log calls
    that depend on the canvas only. *)
Definition emits (p : Paint) (f : Canvas -> list Call) : Prop :=
  forall k : Ctx,
    ctx_canvas (p k) = ctx_canvas k /\
    calls (p k) = (calls k ++ f (ctx_canvas k))%list.

(** Stand-ins for the engine's [Math.sin] and [Math.cos] in concrete runs:
    the first terms of their series. *)
Definition series_sin (a : float) : float := (a - a * a * a / 6)%float.
Definition series_cos (a : float) : float := (1 - a * a / 2)%float.

End MedicalSliceViewer.

(* ================================================================= *)
(** * Examples used in the statements below *)

Module Examples.

Import Js ScanController Server.
Local Open Scope string_scope.
Local Open Scope Z_scope.

(** A one-megabyte PNG named after the region it shows. *)
Definition brain_png : File :=
  {| fieldname := "scan"; originalname := "Brain_study.PNG";
     mimetype := "image/png"; size := 1024 * 1024 |}.

(** A small text file: under the size limit, of a type the filter refuses. *)
Definition notes_txt : File :=
  {| fieldname := "scan"; originalname := "notes.txt";
     mimetype := "text/plain"; size := 1024 |}.

Definition rng_high : Rng := rng_of_list [draw_0_9].

Definition test_patient : UploadBody :=
  {| patientName := Some "Test Patient"; scanType := Some "CT" |}.

Definition noon : Env :=
  {| Date_now := 1700000000000; toISOString := "2023-11-14T22:13:20.000Z";
     CURRENT_TIMESTAMP := "2023-11-14 22:13:20";
     start_of_month := "2023-11-01"; development := false;
     driver_error := fun _ => None |}.

(** The same instant, with a driver that finds the database locked. *)
Definition locked : Env :=
  {| Date_now := 1700000000000; toISOString := "2023-11-14T22:13:20.000Z";
     CURRENT_TIMESTAMP := "2023-11-14 22:13:20";
     start_of_month := "2023-11-01"; development := false;
     driver_error := fun _ => Some "SQLITE_BUSY: database is locked" |}.

(** An instance of the id comparison: the parameter is the decimal
    rendering of the id. *)
Definition decimal_id (param : string) (id_ : Z) : bool :=
  String.eqb param (string_of_Z id_).

Definition scan_7 : ScanRow :=
  {| id := 7; patient_name := "John Doe"; scan_type := "MRI";
     risk_level := "medium"; status := "pending";
     date := "2023-11-02 08:00:00"; uploaded_by := Some "Dr. Smith";
     notes := None; file_path := None |}.

(** The first scan of the sample data. *)
Definition scan_1 : ScanRow :=
  {| id := 1; patient_name := "John Doe"; scan_type := "CT";
     risk_level := "high"; status := "completed";
     date := "2024-01-15 10:30:00"; uploaded_by := Some "Dr. Smith";
     notes := Some "Cranial CT showing concerning mass near temporal lobe";
     file_path := None |}.

Definition one_scan : State :=
  {| db := {| scans := [scan_7]; scans_seq := 7; scan_annotations := [] |};
     rng := rng_of_list [] |}.

Definition empty_server : State :=
  {| db := {| scans := []; scans_seq := 0; scan_annotations := [] |};
     rng := rng_high |}.

(** The scans of the sample data in an empty database, stored in the
    order in which [insertSampleData] issues the statements. *)
Definition sample_server : State :=
  {| db := fold_left insert_sample_scan sample_scans
             {| scans := []; scans_seq := 0; scan_annotations := [] |};
     rng := rng_high |}.

(** The tables after scans 1 to 7 were stored and scan 7 was deleted. *)
Definition after_delete : State :=
  {| db := {| scans := [scan_1]; scans_seq := 7; scan_annotations := [] |};
     rng := rng_high |}.

End Examples.

(* ================================================================= *)
(** * server/controllers/scanController.js, the remaining exports *)

Module ScanControllerRest.

Import Js ScanController.
Local Open Scope string_scope.

(** What [getRiskAssessmentById] returns. *)
Record StoredAssessment := {
  stored_level : string;
  stored_details : string;
  stored_factors : list string;
  stored_confidence : Z;
  lastUpdated : string
}.

(** [getRiskAssessmentById(scanId)]; [isoNow] is what
    [new Date().toISOString()] returns. *)
Definition getRiskAssessmentById (isoNow : string) (scanId : string)
    : StoredAssessment :=
  {| stored_level := "medium";
     stored_details := "Previously analyzed scan with moderate risk factors.";
     stored_factors := ["Historical analysis available"; "Risk level stable"];
     stored_confidence := 88;
     lastUpdated := isoNow |}.

(** The [newData] argument of [updateRiskAssessment]. *)
Record NewData := {
  new_scanType : string;
  new_file : option File
}.

(** [updateRiskAssessment(scanId, newData)]. *)
Definition updateRiskAssessment (isoNow : string) (scanId : string)
    (newData : NewData) : Rand RiskAssessment :=
  getRiskAssessment isoNow (new_scanType newData) (new_file newData).

(** A JavaScript object used as a map from property names to values: its
    own properties, each name once, in the order they were created (the
    order in which JavaScript enumerates them, array indices first, is
    not represented). *)
Definition Obj (V : Type) : Type := list (string * V).

(** The own property [key], if there is one. *)
Fixpoint obj_get {V} (o : Obj V) (key : string) : option V :=
  match o with
  | [] => None
  | (k, v) :: rest => if String.eqb k key then Some v else obj_get rest key
  end.

(** The own property [key] set to [v]: it is replaced where it stands,
    or added. *)
Fixpoint obj_set {V} (o : Obj V) (key : string) (v : V) : Obj V :=
  match o with
  | [] => [(key, v)]
  | (k, v0) :: rest =>
      if String.eqb k key then (k, v) :: rest
      else (k, v0) :: obj_set rest key v
  end.

(** The object [results] of the batch: its own properties and, once the
    name [__proto__] was assigned to, the assessment that became its
    prototype. *)
Record Results := {
  own : Obj StoredAssessment;
  proto : option StoredAssessment
}.

(** [results[scanId] = v] on the object literal [{}]: the name
    [__proto__] reaches the setter of [Object.prototype], which makes
    the assigned object the prototype and adds no property; under every
    other name the value becomes an own property. *)
Definition assign (o : Results) (scanId : string) (v : StoredAssessment)
    : Results :=
  if String.eqb scanId "__proto__" then {| own := own o; proto := Some v |}
  else {| own := obj_set (own o) scanId v; proto := proto o |}.

Record Batch := {
  results : Results;
  processedCount : Z;
  timestamp : string
}.

(** The [for (const scanId of scanIds)] loop; [clock n] is what the
    [n]-th reading of the clock returns. *)
Fixpoint collect (clock : nat -> string) (n : nat) (scanIds : list string)
    (acc : Results) : Results :=
  match scanIds with
  | [] => acc
  | scanId :: rest =>
      collect clock (S n) rest
        (assign acc scanId (getRiskAssessmentById (clock n) scanId))
  end.

(** [getBatchRiskAssessments(scanIds)]. *)
Definition getBatchRiskAssessments (clock : nat -> string)
    (scanIds : list string) : Batch :=
  {| results := collect clock 0 scanIds {| own := []; proto := None |};
     processedCount := Z.of_nat (List.length scanIds);
     timestamp := clock (List.length scanIds) |}.

End ScanControllerRest.

(* ================================================================= *)
(** * src/pages/Upload.tsx *)

Module UploadPage.

Import Js ScanController Server.
Local Open Scope string_scope.
Local Open Scope Z_scope.

(** A [File] of the browser, as far as the page reads it. *)
Record BrowserFile := {
  name : string;
  type : string;
  size : Z
}.

Fixpoint all_chars (p : ascii -> bool) (s : string) : bool :=
  match s with
  | EmptyString => true
  | String c t => p c && all_chars p t
  end.

Definition is_alnum (c : ascii) : bool :=
  let n := nat_of_ascii c in
  ((48 <=? n) && (n <=? 57) || (65 <=? n) && (n <=? 90) ||
   (97 <=? n) && (n <=? 122))%nat.

(** A file name that travels unchanged from the browser to the route:
    it starts with a letter or digit and goes on with letters, digits,
    spaces, dots, dashes and underscores.  (Quotes and line breaks are
    escaped by the browser, and the parser of the server cuts a name at
    its last slash and reads it as Latin-1.) *)
Definition plain_name (n : string) : bool :=
  match n with
  | EmptyString => false
  | String c t =>
      is_alnum c &&
      all_chars (fun c => is_alnum c ||
                          existsb (Ascii.eqb c) [" "; "."; "-"; "_"]%char) t
  end.

(** The value of a text [<input>] holds no line break. *)
Definition single_line (v : string) : bool :=
  all_chars (fun c => negb ((nat_of_ascii c =? 10)%nat ||
                            (nat_of_ascii c =? 13)%nat)) v.

Record UploadResult := {
  success : bool;
  message : string;
  scanId : option Z;
  riskAssessment : option RiskAssessment
}.

(** The [useState] cells of the page. *)
Record Page := {
  file : option BrowserFile;
  patientName : string;
  scanType : string;
  uploading : bool;
  result : option UploadResult
}.

Definition initial : Page :=
  {| file := None; patientName := ""; scanType := "CT";
     uploading := false; result := None |}.

Definition setFile (v : option BrowserFile) (p : Page) : Page :=
  {| file := v; patientName := patientName p; scanType := scanType p;
     uploading := uploading p; result := result p |}.

Definition setPatientName (v : string) (p : Page) : Page :=
  {| file := file p; patientName := v; scanType := scanType p;
     uploading := uploading p; result := result p |}.

Definition setScanType (v : string) (p : Page) : Page :=
  {| file := file p; patientName := patientName p; scanType := v;
     uploading := uploading p; result := result p |}.

Definition setUploading (v : bool) (p : Page) : Page :=
  {| file := file p; patientName := patientName p; scanType := scanType p;
     uploading := v; result := result p |}.

Definition setResult (v : option UploadResult) (p : Page) : Page :=
  {| file := file p; patientName := patientName p; scanType := scanType p;
     uploading := uploading p; result := v |}.

(** The values of the [<option>]s of the scan-type [<select>]. *)
Definition scanType_options : list string :=
  ["CT"; "MRI"; "X-Ray"; "Ultrasound"; "PET"].

Definition validTypes : list string :=
  ["image/jpeg"; "image/png"; "image/gif"].

(** [handleFileChange]: [selectedFile] is [event.target.files?.[0]]; the new
    page and the text of the [alert], if one is raised. *)
Definition handleFileChange (selectedFile : option BrowserFile) (p : Page)
    : Page * option string :=
  match selectedFile with
  | None => (p, None)
  | Some f =>
      let isDicom := endsWith (toLowerCase (name f)) ".dcm" in
      if negb (array_includes validTypes (type f)) && negb isDicom then
        (p, Some "Please select a valid medical image file (JPEG, PNG, GIF, or DICOM)")
      else if size f >? 50 * 1024 * 1024 then
        (p, Some "File size must be less than 50MB")
      else (setResult None (setFile (Some f) p), None)
  end.

(** The file part the browser sends for [formData.append('scan', file)],
    as the route finds it when the name is a [plain_name]: a file
    without a type goes out as application/octet-stream. *)
Definition file_part (f : BrowserFile) : File :=
  {| fieldname := "scan"; originalname := name f;
     mimetype := if String.eqb (type f) "" then "application/octet-stream"
                 else type f;
     ScanController.size := size f |}.

(** Whether [fetch] reaches the server. *)
Inductive Network : Type := Online | Offline.

(** [data.error] of a response body. *)
Definition body_error (b : Body) : option string :=
  match b with
  | Error e => Some e
  | ErrorDetails e _ => Some e
  | ErrorMessage e _ => Some e
  | _ => None
  end.

(** [response.ok]. *)
Definition response_ok (r : Response) : bool :=
  (200 <=? statusCode r) && (statusCode r <=? 299).

(** The result the page shows for a response. *)
Definition result_of (r : Response) : UploadResult :=
  if response_ok r then
    {| success := true;
       message := "Scan uploaded and analyzed successfully!";
       scanId := match body r with
                 | Uploaded _ i _ _ => Some i
                 | _ => None
                 end;
       riskAssessment := match body r with
                         | Uploaded _ _ ra _ => Some ra
                         | _ => None
                         end |}
  else
    {| success := false;
       message := match body_error (body r) with
                  | Some e => if String.eqb e "" then "Upload failed. Please try again."
                              else e
                  | None => "Upload failed. Please try again."
                  end;
       scanId := None; riskAssessment := None |}.

(** [handleUpload], run to its end against the server: the page, the
    server and the text of the [alert], if one is raised. *)
Definition handleUpload (env : Env) (net : Network) (p : Page) (st : State)
    : Page * State * option string :=
  match file p with
  | None => (p, st, Some "Please select a file and enter patient name")
  | Some f =>
      if String.eqb (MedicalSliceViewer.trim (patientName p)) "" then
        (p, st, Some "Please select a file and enter patient name")
      else
        let p1 := setResult None (setUploading true p) in
        match net with
        | Offline =>
            (setUploading false
               (setResult
                  (Some {| success := false;
                           message := "Network error. Please check your connection and try again.";
                           scanId := None; riskAssessment := None |}) p1),
             st, None)
        | Online =>
            let (response, st') :=
              post_scans env
                {| Server.patientName :=
                     Some (MedicalSliceViewer.trim (patientName p));
                   Server.scanType := Some (scanType p) |}
                (Some (file_part f)) st in
            let p2 := setResult (Some (result_of response)) p1 in
            let p3 := if response_ok response
                      then setScanType "CT" (setPatientName "" (setFile None p2))
                      else p2 in
            (setUploading false p3, st', None)
        end
  end.

(** [getRiskColor(level)]; [None] is an absent level ([level?.]). *)
Definition getRiskColor (level_ : option string) : string :=
  match option_map toLowerCase level_ with
  | Some "high" => "text-red-600 bg-red-100 border-red-200"
  | Some "medium" => "text-yellow-600 bg-yellow-100 border-yellow-200"
  | Some "low" => "text-green-600 bg-green-100 border-green-200"
  | _ => "text-slate-600 bg-slate-100 border-slate-200"
  end.

(** The pages the user can bring about: choosing files, typing a name,
    picking a scan type from the list, and submitting. *)
Inductive reachable : Page -> Prop :=
| reach_initial : reachable initial
| reach_file p selectedFile :
    reachable p -> reachable (fst (handleFileChange selectedFile p))
| reach_name p v :
    reachable p -> single_line v = true -> reachable (setPatientName v p)
| reach_type p v :
    reachable p -> In v scanType_options -> reachable (setScanType v p)
| reach_upload p env net st :
    reachable p -> reachable (fst (fst (handleUpload env net p st))).

End UploadPage.

(* ================================================================= *)
(** * src/pages/Dashboard.tsx, the scan list *)

Module Dashboard.

Import Js Server.
Local Open Scope string_scope.
Local Open Scope Z_scope.

(** The [useState] cells of the page. *)
Record Page := {
  scans_ : list ScanSummary;
  selectedScan : option ScanSummary;
  loading : bool;
  showWelcome : bool
}.

Definition initial : Page :=
  {| scans_ := []; selectedScan := None; loading := true;
     showWelcome := true |}.

Definition setScans (v : list ScanSummary) (p : Page) : Page :=
  {| scans_ := v; selectedScan := selectedScan p; loading := loading p;
     showWelcome := showWelcome p |}.

Definition setSelectedScan (v : option ScanSummary) (p : Page) : Page :=
  {| scans_ := scans_ p; selectedScan := v; loading := loading p;
     showWelcome := showWelcome p |}.

Definition setLoading (v : bool) (p : Page) : Page :=
  {| scans_ := scans_ p; selectedScan := selectedScan p; loading := v;
     showWelcome := showWelcome p |}.

(** [fetchScans], as the function object created by the render in which
    [selectedScan] was [seen]: the test [!selectedScan] reads that value,
    the setters act on the current page. *)
Definition fetchScans (seen : option ScanSummary)
    (net : UploadPage.Network) (env : Env) (st : State) (p : Page)
    : Page :=
  match net with
  | UploadPage.Offline => setLoading false p
  | UploadPage.Online =>
      let response := fst (get_scans env st) in
      if UploadPage.response_ok response then
        match body response with
        | ScanList data =>
            let p1 := setScans data p in
            let p2 :=
              match data, seen with
              | first :: _, None => setSelectedScan (Some first) p1
              | _, _ => p1
              end in
            setLoading false p2
        | _ => setLoading false p
        end
      else setLoading false p
  end.

(** The effect with the empty dependency list runs once, after the first
    render: it calls, and hands to [setInterval], the [fetchScans] of that
    render, in which [selectedScan] is the initial [null]. *)
Definition refresh
    : UploadPage.Network -> Env -> State -> Page -> Page :=
  fetchScans (selectedScan initial).

(** [getRiskScore(riskLevel)]. *)
Definition getRiskScore (riskLevel : string) : Z :=
  match toLowerCase riskLevel with
  | "high" => 85
  | "medium" => 55
  | "low" => 25
  | _ => 0
  end.

End Dashboard.

(* ================================================================= *)
(** * src/components/Layout.tsx, the navigation *)

Module Layout.

Import AuthContext.
Local Open Scope string_scope.








End Layout.

(* ================================================================= *)
(** * src/components/MedicalSliceViewer.tsx, the redraw effect *)

Module SliceViewerEffect.

Import Js MedicalSliceViewer.

(** What the user can do to the component. *)
Inductive Action : Type :=
| NextSlice
| PrevSlice
| ZoomIn
| ZoomOut
| ResetView
| ToggleAnnotationMode
| ToggleShowAnnotations
| ToggleVentricles
| ToggleVessels
| ToggleContours
| CanvasClick (event : Click)
| GoToSlice (a : Annotation).

Definition act (canvasRef : option Canvas) (a : Action) (s : State) : State :=
  match a with
  | NextSlice => nextSlice s
  | PrevSlice => prevSlice s
  | ZoomIn => zoomIn s
  | ZoomOut => zoomOut s
  | ResetView => resetView s
  | ToggleAnnotationMode => toggleAnnotationMode s
  | ToggleShowAnnotations => toggleShowAnnotations s
  | ToggleVentricles => toggleVentricles s
  | ToggleVessels => toggleVessels s
  | ToggleContours => toggleContours s
  | CanvasClick event => handleCanvasClick canvasRef event s
  | GoToSlice a' => goToSlice a' s
  end.

(** The overlay toggles hand [setOverlays] a new object each time; every
    other action leaves the [overlays] object the one it was. *)
Definition new_overlays_object (a : Action) : bool :=
  match a with
  | ToggleVentricles | ToggleVessels | ToggleContours => true
  | _ => false
  end.

(** [useEffect(() => { drawSlice(); }, [currentSlice, zoom,
    showAnnotations, overlays])]: the effect runs after a render in which
    one of the four differs ([Object.is]) from the render before. *)
Definition deps_changed (a : Action) (before after : State) : bool :=
  negb (currentSlice before =? currentSlice after)%Z ||
  negb (PrimFloat.Leibniz.eqb (zoom before) (zoom after)) ||
  negb (Bool.eqb (showAnnotations before) (showAnnotations after)) ||
  new_overlays_object a.

(** The mounted component: its state and its canvas ([None] while the
    ref is not attached). *)
Record Mounted := {
  state : State;
  canvas : option Ctx
}.

Section Effect.

Variables Math_sin Math_cos : float -> float.

(** After the first render the effect runs once. *)
Definition mount (canvasRef : option Ctx) : Mounted :=
  {| state := initial;
     canvas := drawSlice Math_sin Math_cos initial canvasRef |}.

(** One action: the state update, the render, then the effect if a
    dependency changed. *)
Definition dispatch (a : Action) (m : Mounted) : Mounted :=
  let s' := act (option_map ctx_canvas (canvas m)) a (state m) in
  {| state := s';
     canvas := if deps_changed a (state m) s'
               then drawSlice Math_sin Math_cos s' (canvas m)
               else canvas m |}.

End Effect.

End SliceViewerEffect.

(* ================================================================= *)
(** * The AIMultiModalAnalysis component, in src/components/MedicalSliceViewer.tsx *)

Module AIMultiModalAnalysis.

Import Js ScanController ScanControllerRest.
Local Open Scope string_scope.

Record Model := {
  model_id : string;
  model_name : string;
  specialty : string;
  accuracy : float
}.

Definition aiModels : list Model :=
  [ {| model_id := "deepmind"; model_name := "DeepMind Medical AI";
       specialty := "Tumor Detection"; accuracy := 97.2 |};
    {| model_id := "watson"; model_name := "IBM Watson Oncology";
       specialty := "Cancer Analysis"; accuracy := 94.8 |};
    {| model_id := "google"; model_name := "Google Med-AI";
       specialty := "Multi-Modal Fusion"; accuracy := 96.1 |};
    {| model_id := "surgical"; model_name := "Surgical Vision AI";
       specialty := "Surgical Planning"; accuracy := 95.7 |};
    {| model_id := "radiology"; model_name := "Radiology GPT";
       specialty := "Diagnostic Reporting"; accuracy := 93.4 |} ].

(** The initial [selectedModels] object. *)
Definition initial_selectedModels : Obj bool :=
  [ ("deepMind", true); ("ibmWatson", true); ("googleMedAI", true);
    ("surgicalVisionAI", true); ("radiologyGPT", true) ].

(** The checkbox of a model: [{ ...prev, [model.id]: e.target.checked }]. *)
Definition onChange (model : Model) (checked : bool) (prev : Obj bool)
    : Obj bool :=
  obj_set prev (model_id model) checked.

(** [selectedModels[model.id]] as a condition: [undefined] is falsy. *)
Definition is_selected (selectedModels : Obj bool) (model : Model) : bool :=
  match obj_get selectedModels (model_id model) with
  | Some b => b
  | None => false
  end.

Definition selectedModelsList (selectedModels : Obj bool) : list Model :=
  filter (is_selected selectedModels) aiModels.

Inductive RiskLevel : Type := low | medium | high | critical.

Definition RiskLevel_eqb (a b : RiskLevel) : bool :=
  match a, b with
  | low, low | medium, medium | high, high | critical, critical => true
  | _, _ => false
  end.

Record AIAnalysisResult := {
  result_id : string;
  modelName : string;
  confidence : float;
  diagnosis : option string;
  riskLevel : RiskLevel;
  findings : list string;
  recommendations : list string;
  processingTime : Z
}.

(** ** The generators *)

Definition diagnoses : Obj (list string) :=
  [ ("Tumor Detection",
     [ "Glioblastoma multiforme (Grade IV)"; "Meningioma (Grade I)";
       "Metastatic lesion"; "Low-grade glioma"; "Acoustic neuroma" ]);
    ("Cancer Analysis",
     [ "Primary brain tumor with high proliferation index";
       "Secondary metastatic disease"; "Benign space-occupying lesion";
       "Inflammatory process"; "Vascular malformation" ]);
    ("Multi-Modal Fusion",
     [ "Heterogeneous enhancing mass with necrosis";
       "Infiltrative tumor with edema"; "Well-circumscribed lesion";
       "Multifocal disease process"; "Post-treatment changes" ]);
    ("Surgical Planning",
     [ "Resectable tumor with clear margins";
       "Complex lesion near eloquent cortex";
       "Deep-seated tumor requiring staged approach";
       "Superficial lesion amenable to minimal access";
       "Inoperable due to location" ]);
    ("Diagnostic Reporting",
     [ "Findings consistent with high-grade glioma";
       "Imaging suggests benign etiology";
       "Indeterminate lesion requiring biopsy";
       "Multiple differential diagnoses";
       "Clear pathological process identified" ]) ].

(** [generateDiagnosis(specialty)]; [None] is [undefined]. *)
Definition generateDiagnosis (specialty_ : string) : Rand (option string) :=
  let options :=
    match obj_get diagnoses specialty_ with
    | Some l => l
    | None => match obj_get diagnoses "Tumor Detection" with
              | Some l => l
              | None => []
              end
    end in
  r <- Math_random ;;
  ret (array_get options
         (Math_floor_int (r * number_of_Z (Z.of_nat (List.length options)))%float)).

(** [generateRiskLevel()]. *)
Definition generateRiskLevel : Rand RiskLevel :=
  rand <- Math_random ;;
  ret (if (rand <? 0.2)%float then critical
       else if (rand <? 0.4)%float then high
       else if (rand <? 0.7)%float then medium
       else low).

(** [a.slice(0, end)] for an integer [end]: a negative [end] counts from
    the end of the array. *)
Definition slice_to {A} (a : list A) (end_ : Z) : list A :=
  if (end_ <? 0)%Z
  then firstn (Z.to_nat (Z.of_nat (List.length a) + end_)) a
  else firstn (Z.to_nat end_) a.

Definition all_findings : list string :=
  [ "Heterogeneous signal intensity";
    "Surrounding vasogenic edema";
    "Mass effect on adjacent structures";
    "Enhancement pattern suggests high vascularity";
    "Restricted diffusion in core region";
    "Elevated choline/creatine ratio";
    "Increased cerebral blood volume";
    "Disrupted blood-brain barrier" ].

(** [generateFindings(specialty)]. *)
Definition generateFindings (specialty_ : string) : Rand (list string) :=
  r <- Math_random ;;
  ret (slice_to all_findings (Math_floor_int (r * 4)%float + 2)%Z).

Definition all_recommendations : list string :=
  [ "Consider stereotactic biopsy for tissue diagnosis";
    "Functional MRI to map eloquent cortex";
    "Intraoperative neuromonitoring recommended";
    "Multidisciplinary team consultation";
    "Consider neoadjuvant therapy";
    "Plan for awake craniotomy if near speech areas";
    "Postoperative imaging in 24-48 hours";
    "Genetic testing for targeted therapy" ].

(** [generateRecommendations(specialty)]. *)
Definition generateRecommendations (specialty_ : string)
    : Rand (list string) :=
  r <- Math_random ;;
  ret (slice_to all_recommendations (Math_floor_int (r * 3)%float + 2)%Z).

(** ** The component *)

Inductive FusionMode : Type := ct_mri | pet_ct | fmri_dti | all_modalities.

(** The [useState] cells of the component. *)
Record State := {
  isAnalyzing : bool;
  progress : float;
  currentModel : string;
  results_ : list AIAnalysisResult;
  fusionMode : FusionMode;
  selectedModels : Obj bool
}.

Definition initial : State :=
  {| isAnalyzing := false; progress := 0; currentModel := "";
     results_ := []; fusionMode := ct_mri;
     selectedModels := initial_selectedModels |}.

Definition setIsAnalyzing (v : bool) (s : State) : State :=
  {| isAnalyzing := v; progress := progress s;
     currentModel := currentModel s; results_ := results_ s;
     fusionMode := fusionMode s; selectedModels := selectedModels s |}.

Definition setProgress (v : float) (s : State) : State :=
  {| isAnalyzing := isAnalyzing s; progress := v;
     currentModel := currentModel s; results_ := results_ s;
     fusionMode := fusionMode s; selectedModels := selectedModels s |}.

Definition setCurrentModel (v : string) (s : State) : State :=
  {| isAnalyzing := isAnalyzing s; progress := progress s;
     currentModel := v; results_ := results_ s;
     fusionMode := fusionMode s; selectedModels := selectedModels s |}.

Definition setResults (f : list AIAnalysisResult -> list AIAnalysisResult)
    (s : State) : State :=
  {| isAnalyzing := isAnalyzing s; progress := progress s;
     currentModel := currentModel s; results_ := f (results_ s);
     fusionMode := fusionMode s; selectedModels := selectedModels s |}.

Definition setFusionMode (v : FusionMode) (s : State) : State :=
  {| isAnalyzing := isAnalyzing s; progress := progress s;
     currentModel := currentModel s; results_ := results_ s;
     fusionMode := v; selectedModels := selectedModels s |}.

Definition setSelectedModels (f : Obj bool -> Obj bool) (s : State) : State :=
  {| isAnalyzing := isAnalyzing s; progress := progress s;
     currentModel := currentModel s; results_ := results_ s;
     fusionMode := fusionMode s; selectedModels := f (selectedModels s) |}.

(** The readings of [Date.now()] one analysis makes: at its start, after
    its progress loop, and for the id of its result. *)
Record Readings := {
  startTime : Z;
  endTime : Z;
  idTime : Z
}.

(** The steps of [for (let step = 0; step <= 100; step += 5)]. *)
Definition steps : list Z :=
  [0; 5; 10; 15; 20; 25; 30; 35; 40; 45; 50; 55; 60; 65; 70; 75; 80; 85;
   90; 95; 100]%Z.

(** [simulateAIAnalysis(model, index, total)]. *)
Definition simulateAIAnalysis (clock : Readings) (model : Model)
    (index total : Z) (s : State) : Rand State :=
  let s1 :=
    fold_left
      (fun s' step =>
         setProgress (number_of_Z (index * 100 + step) / number_of_Z total)%float s')
      steps s in
  let processingTime_ := (endTime clock - startTime clock)%Z in
  c <- Math_random ;;
  d <- generateDiagnosis (specialty model) ;;
  l <- generateRiskLevel ;;
  f <- generateFindings (specialty model) ;;
  r <- generateRecommendations (specialty model) ;;
  let result :=
    {| result_id := model_id model ++ "-" ++ string_of_Z (idTime clock);
       modelName := model_name model;
       confidence := (accuracy model + (c * 4 - 2))%float;
       diagnosis := d;
       riskLevel := l;
       findings := f;
       recommendations := r;
       processingTime := processingTime_ |} in
  ret (setResults (fun prev => (prev ++ [result])%list) s1).

(** The [for] loop of [startMultiModalAnalysis] from index [i] on;
    [clock i] holds the clock readings of the [i]-th analysis. *)
Fixpoint analyse (clock : nat -> Readings) (i : nat) (todo : list Model)
    (total : Z) (s : State) : Rand State :=
  match todo with
  | [] => ret s
  | model :: rest =>
      s' <- simulateAIAnalysis (clock i) model (Z.of_nat i) total
              (setCurrentModel (model_name model) s) ;;
      analyse clock (S i) rest total s'
  end.

(** [startMultiModalAnalysis()], run to its end. *)
Definition startMultiModalAnalysis (clock : nat -> Readings) (s : State)
    : Rand State :=
  let s0 := setResults (fun _ => []) (setProgress 0 (setIsAnalyzing true s)) in
  let selected := selectedModelsList (selectedModels s) in
  s' <- analyse clock 0 selected (Z.of_nat (List.length selected)) s0 ;;
  ret (setCurrentModel "" (setIsAnalyzing false s')).

(** ** The consensus *)

(** [riskCounts]: the levels in the order they were first counted. *)
Definition Counts : Type := list (RiskLevel * Z).

Fixpoint count_of (counts : Counts) (l : RiskLevel) : option Z :=
  match counts with
  | [] => None
  | (k, n) :: rest => if RiskLevel_eqb k l then Some n else count_of rest l
  end.

Fixpoint set_count (counts : Counts) (l : RiskLevel) (n : Z) : Counts :=
  match counts with
  | [] => [(l, n)]
  | (k, m) :: rest =>
      if RiskLevel_eqb k l then (k, n) :: rest
      else (k, m) :: set_count rest l n
  end.

(** [acc[r.riskLevel] = (acc[r.riskLevel] || 0) + 1]. *)
Definition count_one (acc : Counts) (r : AIAnalysisResult) : Counts :=
  let old := match count_of acc (riskLevel r) with
             | Some n => if (n =? 0)%Z then 0%Z else n
             | None => 0%Z
             end in
  set_count acc (riskLevel r) (old + 1)%Z.

Definition riskCounts (rs : list AIAnalysisResult) : Counts :=
  fold_left count_one rs [].

(** [riskCounts[a[0]] > riskCounts[b[0]] ? a : b]. *)
Definition more_counted (counts : Counts) (a b : RiskLevel * Z)
    : RiskLevel * Z :=
  match count_of counts (fst a), count_of counts (fst b) with
  | Some x, Some y => if (y <? x)%Z then a else b
  | _, _ => b
  end.

Record Consensus := {
  avgConfidence : float;
  consensusRisk : RiskLevel;
  agreement : float
}.

(** [getConsensusAnalysis()]; [None] is [null]. *)
Definition getConsensusAnalysis (rs : list AIAnalysisResult)
    : option Consensus :=
  match rs with
  | [] => None
  | _ :: _ =>
      let n := number_of_Z (Z.of_nat (List.length rs)) in
      let counts := riskCounts rs in
      match counts with
      | [] => None
      | first :: others =>
          Some {| avgConfidence :=
                    (fold_left (fun sum r => sum + confidence r) rs 0 / n)%float;
                  consensusRisk :=
                    fst (fold_left (more_counted counts) others first);
                  agreement :=
                    (number_of_Z (fold_left Z.max (map snd counts) (snd first))
                     / n * 100)%float |}
      end
  end.

End AIMultiModalAnalysis.

(* ================================================================= *)
(** * Notions the further statements use *)

Module Notions.

Import Server.

(** [a] may stand before [b] in a list ordered by date, newest first. *)
Definition not_older (a b : ScanRow) : Prop :=
  String.leb (date b) (date a) = true.

(** The same on the rows of [GET /scans]. *)
Definition summary_not_older (a b : ScanSummary) : Prop :=
  String.leb (s_date b) (s_date a) = true.

(** The rows of the table a route parameter selects. *)
Definition matching (id_matches : string -> Z -> bool) (param : string)
    (rows : list ScanRow) : list ScanRow :=
  filter (fun r => id_matches param (id r)) rows.

(** The sequence of [scans] covers the table: no row has an id above
    the largest id the sequence recorded, which is how SQLite keeps
    [sqlite_sequence]. *)
Definition sequence_covers (d : Db) : Prop :=
  Forall (fun r => (id r <= scans_seq d)%Z) (scans d).

(** The number of results that give the level [l]. *)
Definition votes (l : AIMultiModalAnalysis.RiskLevel)
    (rs : list AIMultiModalAnalysis.AIAnalysisResult) : Z :=
  Z.of_nat
    (List.length
       (filter (fun r => AIMultiModalAnalysis.RiskLevel_eqb
                           (AIMultiModalAnalysis.riskLevel r) l) rs)).

(** What the counting loop of the consensus has in its accumulator
    after the results [done]. *)
Definition counted (acc : AIMultiModalAnalysis.Counts)
    (done : list AIMultiModalAnalysis.AIAnalysisResult) : Prop :=
  NoDup (map fst acc) /\
  forall l, AIMultiModalAnalysis.count_of acc l
            = if (votes l done =? 0)%Z then None else Some (votes l done).

End Notions.

(* ================================================================= *)
(** * Facts about the risk-assessment generator *)

Module ScanControllerFacts.

Import Js ScanController Examples.
Local Open Scope string_scope.

Ltac run_rand :=
  unfold bind, ret, Math_random; simpl.

Ltac split_ifs :=
  repeat match goal with
  | |- context [if ?b then _ else _] => destruct b eqn:?
  end.

Lemma add_random_factor_keeps_level (l : Locals) (g : Rng) :
  riskLevel (fst (add_random_factor l g)) = riskLevel l.
Proof.
  unfold add_random_factor. run_rand.
  destruct (existsb _ (riskFactors l)); reflexivity.
Qed.

Lemma add_random_factors_keep_level (n : nat) :
  forall (l : Locals) (g : Rng),
    riskLevel (fst (add_random_factors n l g)) = riskLevel l.
Proof.
  induction n as [|n IH]; intros l g; simpl.
  - reflexivity.
  - unfold bind.
    destruct (add_random_factor l g) as [l' g'] eqn:E.
    rewrite IH.
    change l' with (fst (l', g')). rewrite <- E.
    apply add_random_factor_keeps_level.
Qed.

Lemma small_file_keeps_level (fileSize : Z) (l : Locals) :
  riskLevel (small_file fileSize l) = riskLevel l.
Proof.
  unfold small_file. destruct (fileSize <? 1024 * 1024)%Z; reflexivity.
Qed.

(** The level after the scan-type chain: raised to "high" only on the CT
    branch with a cranial file name, else "medium", "low" or untouched. *)
Lemma by_scan_type_level (scanType : string) (fileSize : Z)
    (fileName : string) (l : Locals) (g : Rng) :
  let l' := fst (by_scan_type scanType fileSize fileName l g) in
  (riskLevel l' = "high" /\ scanType = "CT" /\ cranial_name fileName = true) \/
  riskLevel l' = "medium" \/ riskLevel l' = "low" \/
  (riskLevel l' = riskLevel l /\ scanType <> "X-Ray").
Proof.
  unfold by_scan_type.
  destruct (scanType =? "CT") eqn:Ect.
  - apply String.eqb_eq in Ect. subst scanType. run_rand.
    destruct (cranial_name fileName) eqn:Ecr; simpl.
    + split_ifs; simpl; auto 6;
        right; right; right; split; auto; discriminate.
    + split_ifs; simpl; right; right; right; split; auto; discriminate.
  - destruct (scanType =? "MRI") eqn:Emri.
    + apply String.eqb_eq in Emri. subst scanType. run_rand.
      split_ifs; simpl; auto; right; right; right; split; auto; discriminate.
    + destruct (scanType =? "X-Ray") eqn:Ex; simpl.
      * auto.
      * right; right; right. split; auto.
        intros ->. discriminate.
Qed.

Lemma analysis_level (scanType : string) (file : option File) (g : Rng) :
  riskLevel (fst (analysis scanType file g)) =
  riskLevel (fst (by_scan_type scanType (fileSize_of file) (fileName_of file)
                    initial_locals g)).
Proof.
  unfold analysis, bind.
  destruct (by_scan_type _ _ _ _ g) as [l g1]. simpl.
  destruct (Math_random g1) as [r g2].
  rewrite add_random_factors_keep_level.
  apply small_file_keeps_level.
Qed.

Lemma assessment_level (isoNow scanType : string) (file : option File)
    (g : Rng) :
  level (fst (getRiskAssessment isoNow scanType file g)) =
  riskLevel (fst (analysis scanType file g)).
Proof.
  unfold getRiskAssessment, bind.
  destruct (analysis scanType file g) as [l g1]. simpl.
  destruct (assessment_text (riskLevel l)) as [d rs].
  destruct (Math_random g1) as [r g2]. reflexivity.
Qed.

(** Every assessment carries one of the three levels. *)
Lemma level_is_enumerated (isoNow scanType : string) (file : option File)
    (g : Rng) :
  let lv := level (fst (getRiskAssessment isoNow scanType file g)) in
  lv = "low" \/ lv = "medium" \/ lv = "high".
Proof.
  simpl. rewrite assessment_level, analysis_level.
  destruct (by_scan_type_level scanType (fileSize_of file) (fileName_of file)
              initial_locals g) as [[H _] | [H | [H | [H _]]]];
    rewrite H; auto.
Qed.

(** The local [confidence] does vary with the input: 0.85 + 0.1 for a
    large MRI, 0.85 - 0.15 for a small file of another type. *)
Example internal_confidence_varies :
  l_confidence (fst (analysis "MRI" (Some {| fieldname := "scan";
      originalname := "a.dcm"; mimetype := ""; size := 5000000 |})
      (rng_of_list []))) = 0x1.e666666666666p-1%float /\
  l_confidence (fst (analysis "PET" None (rng_of_list [])))
    = 0x1.6666666666666p-1%float.
Proof. split; vm_compute; reflexivity. Qed.

(** C3: whatever the scan type, the file and the random draws, the
    assessment's [confidence] (and [aiInfo.confidence]) is 50; the local
    [confidence] the function computes never reaches the result. *)
Theorem C3_confidence_is_50 :
  forall (isoNow scanType : string) (file : option File) (g : Rng),
    let r := fst (getRiskAssessment isoNow scanType file g) in
    confidence r = 50%Z /\ ai_confidence (aiInfo r) = 50%Z.
Proof.
  intros isoNow scanType file g. unfold getRiskAssessment, bind.
  destruct (analysis scanType file g) as [l g1].
  destruct (assessment_text (riskLevel l)) as [d rs].
  destruct (Math_random g1) as [r g2]. simpl. split; reflexivity.
Qed.

(** C10: for scan type "X-Ray" the level is "low" for every file and all
    draws; a "high" level occurs only for scan type "CT" with a
    (lower-cased) file name containing "brain", "head" or "cranial";
    hence some input never yields "high", and the level is not spread
    over the three values for all inputs. *)
Theorem C10_level_depends_on_input :
  (forall (isoNow : string) (file : option File) (g : Rng),
      level (fst (getRiskAssessment isoNow "X-Ray" file g)) = "low") /\
  (forall (isoNow scanType : string) (file : option File) (g : Rng),
      level (fst (getRiskAssessment isoNow scanType file g)) = "high" ->
      scanType = "CT" /\
      (includes (fileName_of file) "brain" = true \/
       includes (fileName_of file) "head" = true \/
       includes (fileName_of file) "cranial" = true)) /\
  (exists (scanType : string) (file : option File),
      forall (isoNow : string) (g : Rng),
        level (fst (getRiskAssessment isoNow scanType file g)) <> "high").
Proof.
  assert (X : forall isoNow file g,
             level (fst (getRiskAssessment isoNow "X-Ray" file g)) = "low").
  { intros isoNow file g. rewrite assessment_level, analysis_level.
    reflexivity. }
  split; [exact X | split].
  - intros isoNow scanType file g. rewrite assessment_level, analysis_level.
    intros H.
    destruct (by_scan_type_level scanType (fileSize_of file)
                (fileName_of file) initial_locals g)
      as [[_ [Hct Hcr]] | [H' | [H' | [H' _]]]].
    + split; [exact Hct|].
      unfold cranial_name in Hcr.
      apply orb_true_iff in Hcr. destruct Hcr as [Hcr | Hcr]; auto.
      apply orb_true_iff in Hcr. destruct Hcr as [Hcr | Hcr]; auto.
    + rewrite H' in H. discriminate.
    + rewrite H' in H. discriminate.
    + rewrite H' in H. discriminate.
  - exists "X-Ray", None. intros isoNow g. rewrite X. discriminate.
Qed.

(** C10 at a CT upload named "Brain_study.PNG" with a first draw of 0.9. *)
Lemma C10_witness :
  level (fst (getRiskAssessment "now" "CT" (Some brain_png) rng_high)) = "high" /\
  "CT" = "CT" /\
  (includes (fileName_of (Some brain_png)) "brain" = true \/
   includes (fileName_of (Some brain_png)) "head" = true \/
   includes (fileName_of (Some brain_png)) "cranial" = true).
Proof.
  split.
  - vm_compute. reflexivity.
  - apply (proj1 (proj2 C10_level_depends_on_input) "now" "CT"
             (Some brain_png) rng_high).
    vm_compute. reflexivity.
Defined.

End ScanControllerFacts.

(* ================================================================= *)
(** * Facts about the routes *)

Module ServerFacts.

Import Js ScanController Server Examples.
Local Open Scope string_scope.
Local Open Scope Z_scope.

Lemma array_includes_In (l : list string) (v : string) :
  array_includes l v = true <-> In v l.
Proof.
  unfold array_includes. rewrite existsb_exists. split.
  - intros [y [Hy E]]. apply String.eqb_eq in E. subst y. exact Hy.
  - intros H. exists v. split; [exact H | apply String.eqb_refl].
Qed.

Lemma truthy_nonempty (s : option string) (v : string) :
  s = Some v -> v <> "" -> truthy s = true.
Proof.
  intros -> Hv. simpl. apply negb_true_iff. apply String.eqb_neq. exact Hv.
Qed.

(** The filter lets through exactly the three image types and the names
    ending in ".dcm" once lower-cased. *)
Lemma fileFilter_accepts (f : File) :
  fileFilter f = None <->
  (In (mimetype f) allowedTypes \/
   endsWith (toLowerCase (originalname f)) ".dcm" = true).
Proof.
  unfold fileFilter.
  destruct (array_includes allowedTypes (mimetype f)) eqn:Em;
    destruct (endsWith (toLowerCase (originalname f)) ".dcm") eqn:Ed;
    cbn [orb].
  - split; auto.
  - split; auto. intros _. left. apply array_includes_In. exact Em.
  - split; auto.
  - split; [discriminate|].
    intros [H | H]; [|discriminate].
    apply array_includes_In in H. rewrite H in Em. discriminate.
Qed.

(** The file part the middleware hands to the route: named, under the
    field "scan", let through by the filter and under the limit. *)
Lemma upload_file_next (part : option File) (f : File) :
  upload_file "scan" part = Next (Some f) <->
  part = Some f /\ originalname f <> "" /\ fieldname f = "scan" /\
  fileFilter f = None /\ size f < fileSize_limit.
Proof.
  unfold upload_file. destruct part as [f0|].
  2:{ split; [discriminate | intros [H _]; discriminate]. }
  destruct (String.eqb_spec (originalname f0) "") as [En | En].
  { split; [discriminate|]. intros [H [Hn _]]. injection H as <-.
    contradiction. }
  destruct (String.eqb_spec (fieldname f0) "scan") as [Ef | Ef]; cbn [negb].
  2:{ split; [discriminate|]. intros [H [_ [Hf _]]]. injection H as <-.
      contradiction. }
  destruct (fileFilter f0) as [m|] eqn:Efilter.
  { split; [discriminate|]. intros [H [_ [_ [Hx _]]]]. injection H as <-.
    congruence. }
  destruct (Z.leb_spec fileSize_limit (size f0)) as [Hs | Hs].
  { split; [discriminate|]. intros [H [_ [_ [_ Hx]]]]. injection H as <-.
    lia. }
  split.
  - intros H. injection H as <-. repeat split; assumption.
  - intros [H _]. injection H as <-. reflexivity.
Qed.

Lemma upload_single_next (b : UploadBody) (part file : option File) :
  upload_single "scan" b part = Next file <->
  upload_file "scan" part = Next file /\
  field_fits (patientName b) = true /\ field_fits (scanType b) = true.
Proof.
  unfold upload_single.
  destruct (upload_file "scan" part) as [file0 | c m | m].
  - destruct (field_fits (patientName b)); cbn [andb].
    + destruct (field_fits (scanType b)).
      * split; [intros H; repeat split; exact H | intros [H _]; exact H].
      * split; [discriminate | intros [_ [_ H]]; discriminate].
    + split; [discriminate | intros [_ [H _]]; discriminate].
  - split; [discriminate | intros [H _]; discriminate].
  - split; [discriminate | intros [H _]; discriminate].
Qed.

Lemma field_fits_short (s : option string) (v : string) :
  s = Some v -> Z.of_nat (String.length v) < fieldSize_limit ->
  field_fits s = true.
Proof. intros -> H. simpl. apply Z.ltb_lt. exact H. Qed.

Lemma insert_by_date_length (r : ScanRow) (l : list ScanRow) :
  List.length (insert_by_date r l) = S (List.length l).
Proof.
  induction l as [|h t IH]; simpl.
  - reflexivity.
  - destruct (String.leb (date h) (date r)); simpl.
    + reflexivity.
    + rewrite IH. reflexivity.
Qed.

Lemma order_by_date_desc_length (l : list ScanRow) :
  List.length (order_by_date_desc l) = List.length l.
Proof.
  induction l as [|h t IH]; simpl.
  - reflexivity.
  - rewrite insert_by_date_length, IH. reflexivity.
Qed.

(** The example scenario: a CT scan of "Test Patient" with a 1MB PNG is
    answered 201 with status "completed" and level "high" (first draw
    0.9), and the scan is then found under the returned id with the same
    patient name. *)
Example upload_then_fetch :
  let (r1, st1) := post_scans noon test_patient (Some brain_png) empty_server in
  exists ra,
    r1 = respond 201
           (Uploaded "Scan uploaded successfully" 1 ra
              {| u_id := 1; u_patient_name := "Test Patient";
                 u_scan_type := "CT"; u_risk_level := "high";
                 u_status := "completed";
                 u_date := "2023-11-14T22:13:20.000Z" |}) /\
    level ra = "high" /\
    exists row,
      fst (get_scan decimal_id noon "1" st1) = respond 200 (ScanRecord row) /\
      patient_name row = "Test Patient" /\
      uploaded_by row = Some "Dr. Smith" /\
      file_path row = Some "uploads/1700000000000_Brain_study.PNG".
Proof.
  vm_compute. eexists. split; [reflexivity|]. split; [reflexivity|].
  eexists. split; [reflexivity|]. repeat split.
Qed.

(** With a locked database every route that runs a statement answers
    500, the upload with the driver's message as details. *)
Example locked_database :
  fst (get_scans locked one_scan)
    = respond 500 (Error "Failed to fetch scans") /\
  fst (get_scan decimal_id locked "7" one_scan)
    = respond 500 (Error "Failed to fetch scan") /\
  fst (post_scans locked test_patient (Some brain_png) one_scan)
    = respond 500
        (ErrorDetails "Failed to upload scan"
           "SQLITE_BUSY: database is locked") /\
  fst (get_stats locked one_scan)
    = respond 500 (Error "Failed to fetch statistics") /\
  fst (post_scan_status decimal_id locked "7" (Some (JString "failed"))
         one_scan)
    = respond 500 (Error "Failed to update status") /\
  fst (delete_scan_route decimal_id locked "7" one_scan)
    = respond 500 (Error "Failed to delete scan").
Proof. repeat split. Qed.

(** The sample data: six scans, two of them of high risk, of four
    patients, listed newest first with John Doe's CT on top. *)
Example sample_data :
  fst (get_stats noon sample_server) = respond 200 (Statistics 6 2 6 4) /\
  exists rest,
    fst (get_scans noon sample_server)
      = respond 200 (ScanList (summary scan_1 :: rest)).
Proof. split; [reflexivity|]. eexists. reflexivity. Qed.

(** After scans 1 to 7 were stored and scan 7 was deleted, the next
    upload is given the id 8. *)
Example upload_after_delete :
  exists ra scan,
    fst (post_scans noon test_patient (Some brain_png) after_delete)
      = respond 201 (Uploaded "Scan uploaded successfully" 8 ra scan).
Proof. vm_compute. eexists _, _. reflexivity. Qed.

(** C1, as stated, fails: a request with both text fields and a 1 KB
    file of type text/plain (under the limit) is stopped by the upload
    filter and answered 500 by the error middleware, not 201. *)
Lemma C1_counterexample :
  patientName test_patient = Some "Test Patient" /\
  scanType test_patient = Some "CT" /\
  size notes_txt < fileSize_limit /\
  fst (post_scans noon test_patient (Some notes_txt) empty_server)
    = respond 500 (ErrorMessage "Internal server error" "Something went wrong") /\
  statusCode (fst (post_scans noon test_patient (Some notes_txt) empty_server))
    <> 201.
Proof.
  repeat split; try reflexivity. vm_compute. discriminate.
Qed.

(** C1, amended: when the body has a non-empty patientName and a
    non-empty scanType, each under 1MB, and the file is attached under
    the field "scan", has a file name, is under 50MB and passes the
    upload filter (type image/jpeg, image/png or image/gif, or a name
    ending in ".dcm" whatever its case), and the database driver reports
    no error for the INSERT, POST /api/scans answers 201 and the
    returned riskAssessment.level is "low", "medium" or "high". *)
Theorem C1_upload_accepted :
  forall (env : Env) (b : UploadBody) (f : File) (st : State)
         (patient type_ : string),
    patientName b = Some patient -> patient <> "" ->
    Z.of_nat (String.length patient) < fieldSize_limit ->
    scanType b = Some type_ -> type_ <> "" ->
    Z.of_nat (String.length type_) < fieldSize_limit ->
    fieldname f = "scan" -> originalname f <> "" ->
    (In (mimetype f) allowedTypes \/
     endsWith (toLowerCase (originalname f)) ".dcm" = true) ->
    size f < fileSize_limit ->
    driver_error env 0%nat = None ->
    exists (lastID : Z) (ra : RiskAssessment) (scan : UploadedScan),
      fst (post_scans env b (Some f) st)
        = respond 201 (Uploaded "Scan uploaded successfully" lastID ra scan) /\
      (level ra = "low" \/ level ra = "medium" \/ level ra = "high").
Proof.
  intros env b f st patient type_ Hp Hp' Hpl Ht Ht' Htl Hfield Hname Hfilter
    Hsize Hdriver.
  unfold post_scans.
  assert (Eup : upload_single "scan" b (Some f) = Next (Some f)).
  { apply upload_single_next. split; [|split].
    - apply upload_file_next. apply fileFilter_accepts in Hfilter.
      repeat split; assumption.
    - exact (field_fits_short _ _ Hp Hpl).
    - exact (field_fits_short _ _ Ht Htl). }
  rewrite Eup. unfold post_scans_handler.
  rewrite (truthy_nonempty _ _ Hp Hp'), (truthy_nonempty _ _ Ht Ht').
  cbn [negb orb].
  pose proof (ScanControllerFacts.level_is_enumerated
                (toISOString env) (field_value (scanType b)) (Some f) (rng st))
    as Hlevel.
  simpl in Hlevel.
  destruct (getRiskAssessment (toISOString env) (field_value (scanType b))
              (Some f) (rng st)) as [ra g'].
  simpl in Hlevel. rewrite Hdriver. unfold runQuery. simpl.
  eexists _, ra, _. split; [reflexivity | exact Hlevel].
Qed.

(** C1 (amended) at the example scenario: a CT scan of "Test Patient"
    with a 1MB PNG. *)
Lemma C1_witness :
  exists (lastID : Z) (ra : RiskAssessment) (scan : UploadedScan),
    fst (post_scans noon test_patient (Some brain_png) empty_server)
      = respond 201 (Uploaded "Scan uploaded successfully" lastID ra scan) /\
    (level ra = "low" \/ level ra = "medium" \/ level ra = "high").
Proof.
  apply (C1_upload_accepted noon test_patient brain_png empty_server
           "Test Patient" "CT").
  - reflexivity.
  - discriminate.
  - reflexivity.
  - reflexivity.
  - discriminate.
  - reflexivity.
  - reflexivity.
  - discriminate.
  - left. simpl. auto.
  - reflexivity.
  - reflexivity.
Defined.

(** C2: on one and the same state, whenever GET /api/stats and
    GET /api/scans both answer with their data, [totalScans] is the
    length of the array of scans; and they do answer with their data,
    with status 200 and the state left as it is, when the database
    driver reports no error. *)
Theorem C2_totalScans_is_length :
  forall (env env' : Env) (st : State),
    (forall (total high recent patients : Z) (rows : list ScanSummary),
        fst (get_stats env st)
          = respond 200 (Statistics total high recent patients) ->
        fst (get_scans env' st) = respond 200 (ScanList rows) ->
        total = Z.of_nat (List.length rows)) /\
    (driver_ok env -> driver_ok env' ->
     exists (total high recent patients : Z) (rows : list ScanSummary),
       get_stats env st
         = (respond 200 (Statistics total high recent patients), st) /\
       get_scans env' st = (respond 200 (ScanList rows), st) /\
       total = Z.of_nat (List.length rows)).
Proof.
  intros env env' st.
  assert (Hlen : count_scans (db st)
                 = Z.of_nat (List.length (select_scans (db st)))).
  { unfold count_scans, select_scans.
    rewrite length_map, order_by_date_desc_length. reflexivity. }
  split.
  - intros total high recent patients rows.
    unfold get_stats, get_stats_over, get_scans, getQuery, allQuery.
    destruct (driver_error env 0%nat); [discriminate|].
    destruct (driver_error env 1%nat); [discriminate|].
    destruct (driver_error env 2%nat); [discriminate|].
    destruct (driver_error env 3%nat); [discriminate|].
    destruct (driver_error env' 0%nat); [discriminate|].
    cbn [fst]. intros Hs Hr.
    injection Hs as <- _ _ _. injection Hr as <-. exact Hlen.
  - intros Hd Hd'.
    unfold get_stats, get_stats_over, get_scans, getQuery, allQuery.
    rewrite !Hd, Hd'.
    eexists _, _, _, _, _. split; [reflexivity | split; [reflexivity|]].
    exact Hlen.
Qed.

(** C2 on the table holding scan 7. *)
Lemma C2_witness :
  exists (total high recent patients : Z) (rows : list ScanSummary),
    get_stats noon one_scan
      = (respond 200 (Statistics total high recent patients), one_scan) /\
    get_scans noon one_scan = (respond 200 (ScanList rows), one_scan) /\
    total = Z.of_nat (List.length rows).
Proof.
  apply (proj2 (C2_totalScans_is_length noon noon one_scan));
    intros n; reflexivity.
Defined.

(** C4: when the database driver reports no error, GET /api/scans/:id
    answers 404 when no scan record matches the id, and 200 with a
    matching record when one exists; when the driver reports an error
    it answers 500. *)
Theorem C4_scan_by_id :
  forall (id_matches : string -> Z -> bool) (env : Env) (param : string)
         (st : State),
    (driver_error env 0%nat = None ->
     ((forall r, In r (scans (db st)) -> id_matches param (id r) = false) ->
      fst (get_scan id_matches env param st)
        = respond 404 (Error "Scan not found")) /\
     ((exists r, In r (scans (db st)) /\ id_matches param (id r) = true) ->
      exists r, In r (scans (db st)) /\ id_matches param (id r) = true /\
                fst (get_scan id_matches env param st)
                  = respond 200 (ScanRecord r))) /\
    (driver_error env 0%nat <> None ->
     fst (get_scan id_matches env param st)
       = respond 500 (Error "Failed to fetch scan")).
Proof.
  intros id_matches env param st. unfold get_scan, getQuery, select_scan.
  split.
  - intros ->. split.
    + intros Hnone.
      destruct (find _ (scans (db st))) as [r|] eqn:E; [|reflexivity].
      apply find_some in E. destruct E as [Hin Hm].
      rewrite (Hnone r Hin) in Hm. discriminate.
    + intros [r [Hin Hm]].
      destruct (find _ (scans (db st))) as [r'|] eqn:E.
      * apply find_some in E. destruct E as [Hin' Hm'].
        exists r'. auto.
      * apply (find_none _ _ E) in Hin. simpl in Hin.
        rewrite Hm in Hin. discriminate.
  - intros Hd. destruct (driver_error env 0%nat); [reflexivity | congruence].
Qed.

(** C4 on a table holding scan 7: id "8" is answered 404, id "7" is
    answered 200 with the record. *)
Lemma C4_witness :
  fst (get_scan decimal_id noon "8" one_scan)
    = respond 404 (Error "Scan not found") /\
  exists r, In r (scans (db one_scan)) /\ decimal_id "7" (id r) = true /\
            fst (get_scan decimal_id noon "7" one_scan)
              = respond 200 (ScanRecord r).
Proof.
  split.
  - apply (proj1 (proj1 (C4_scan_by_id decimal_id noon "8" one_scan)
                    eq_refl)).
    intros r [<- | []]. reflexivity.
  - apply (proj2 (proj1 (C4_scan_by_id decimal_id noon "7" one_scan)
                    eq_refl)).
    exists scan_7. split; [left; reflexivity | reflexivity].
Defined.

Lemma post_annotations_only (id_matches : string -> Z -> bool)
    (posts : list (Env * AnnotationBody)) :
  forall st : State,
    snd (serve_all id_matches
           (map (fun p => (fst p, POST_annotations (snd p))) posts) st) = st.
Proof.
  induction posts as [|[env b] rest IH]; intros st; simpl.
  - reflexivity.
  - specialize (IH st).
    destruct (serve_all id_matches _ st) as [rs st'']. exact IH.
Qed.

(** C5: POST /api/annotations answers 201 with the submitted scanId,
    position, note and type and leaves the whole state, the annotation
    table included, as it was, and so does any number of such requests;
    and after any run of requests GET /api/annotations/:scanId answers
    200 with the empty array. *)
Theorem C5_annotations_are_not_stored :
  forall (id_matches : string -> Z -> bool),
    (forall (env : Env) (b : AnnotationBody) (st : State),
        exists (message id_ : string),
          serve id_matches env (POST_annotations b) st
            = (respond 201
                 (AnnotationSaved message id_
                    (a_scanId b) (a_position b) (a_note b) (a_type b)),
               st)) /\
    (forall (posts : list (Env * AnnotationBody)) (st : State),
        snd (serve_all id_matches
               (map (fun p => (fst p, POST_annotations (snd p))) posts) st)
          = st) /\
    (forall (reqs : list (Env * Request)) (st : State) (env : Env)
            (param : string),
        fst (serve id_matches env (GET_annotations_scanId param)
               (snd (serve_all id_matches reqs st)))
          = respond 200 (AnnotationList [])).
Proof.
  intros id_matches. split; [|split].
  - intros env b st. simpl. unfold post_annotations.
    eexists _, _. reflexivity.
  - intros posts st. apply post_annotations_only.
  - intros reqs st env param. reflexivity.
Qed.

Lemma update_status_no_match (id_matches : string -> Z -> bool) (d : Db)
    (v param : string) :
  (forall r, In r (scans d) -> id_matches param (id r) = false) ->
  scans (update_status id_matches d v param) = scans d.
Proof.
  intros Hnone. unfold update_status. simpl.
  rewrite <- (map_id (scans d)) at 2.
  apply map_ext_in. intros r Hin. rewrite (Hnone r Hin). reflexivity.
Qed.

Lemma statuses_include_member (s : string) :
  s = "pending" \/ s = "completed" \/ s = "failed" ->
  statuses_include (Some (JString s)) = Some s.
Proof.
  intros Hs. unfold statuses_include.
  replace (array_includes statuses s) with true; [reflexivity|].
  symmetry. apply array_includes_In. simpl. intuition.
Qed.

(** C6: POST /api/scans/:id/status answers 400 and leaves the state as
    it was when the submitted status is not one of "pending",
    "completed", "failed"; when it is one of the three it answers 200,
    for every id, if the database driver reports no error (and 500 if
    it reports one), and for an id that matches no scan record the
    scans stay as they were. *)
Theorem C6_status_update :
  forall (id_matches : string -> Z -> bool) (env : Env) (param : string)
         (st : State),
    (forall v : option Json,
        (forall s, v = Some (JString s) ->
                   s <> "pending" /\ s <> "completed" /\ s <> "failed") ->
        post_scan_status id_matches env param v st
          = (respond 400 (Error "Invalid status"), st)) /\
    (forall s : string,
        s = "pending" \/ s = "completed" \/ s = "failed" ->
        (driver_error env 0%nat = None ->
         statusCode (fst (post_scan_status id_matches env param
                            (Some (JString s)) st)) = 200) /\
        (driver_error env 0%nat <> None ->
         post_scan_status id_matches env param (Some (JString s)) st
           = (respond 500 (Error "Failed to update status"), st)) /\
        ((forall r, In r (scans (db st)) -> id_matches param (id r) = false) ->
         scans (db (snd (post_scan_status id_matches env param
                           (Some (JString s)) st)))
           = scans (db st))).
Proof.
  intros id_matches env param st. split.
  - intros v Hv. unfold post_scan_status.
    destruct v as [[ | b | n | s | l | o]|]; try reflexivity.
    unfold statuses_include.
    destruct (array_includes statuses s) eqn:E; [|reflexivity].
    apply array_includes_In in E. destruct (Hv s eq_refl) as [H1 [H2 H3]].
    simpl in E. destruct E as [E | [E | [E | []]]]; congruence.
  - intros s Hs. unfold post_scan_status.
    rewrite (statuses_include_member s Hs). unfold runQuery.
    destruct (driver_error env 0%nat) as [m|].
    + split; [discriminate|]. split; [reflexivity|]. reflexivity.
    + split; [reflexivity|]. split; [congruence|].
      apply update_status_no_match.
Qed.

(** C6 on a table holding scan 7, with id "8" that matches nothing:
    "archived" is answered 400, "failed" is answered 200. *)
Lemma C6_witness :
  post_scan_status decimal_id noon "8" (Some (JString "archived")) one_scan
    = (respond 400 (Error "Invalid status"), one_scan) /\
  statusCode (fst (post_scan_status decimal_id noon "8"
                     (Some (JString "failed")) one_scan)) = 200 /\
  scans (db (snd (post_scan_status decimal_id noon "8"
                    (Some (JString "failed")) one_scan)))
    = scans (db one_scan).
Proof.
  split.
  - apply (proj1 (C6_status_update decimal_id noon "8" one_scan)).
    intros s E. injection E as <-. repeat split; discriminate.
  - destruct (proj2 (C6_status_update decimal_id noon "8" one_scan) "failed")
      as [H200 [_ Hsame]].
    + right. right. reflexivity.
    + split; [exact (H200 eq_refl)|]. apply Hsame.
      intros r [<- | []]. reflexivity.
Defined.

End ServerFacts.

(* ================================================================= *)
(** * Facts about the client-side login *)

Module AuthContextFacts.

Import AuthContext.
Local Open Scope string_scope.

(** C7, as stated, fails: two logins that differ in the email leave
    different user objects, since the object carries the email. *)
Lemma C7_counterexample :
  user (login "a@hospital.com" "secret" initial)
    <> user (login "b@hospital.com" "secret" initial).
Proof. simpl. discriminate. Qed.

(** C7, amended: after any two logins the user has id "1", name
    "Dr. Smith" and role surgeon in both, whatever the credentials and
    the state before; its email is the email that was supplied; with
    the same email the two users are equal whatever the passwords. *)
Theorem C7_login_is_the_demo_user :
  forall (email1 password1 email2 password2 : string) (s1 s2 : AuthState),
    (exists u1 u2 : User,
        user (login email1 password1 s1) = Some u1 /\
        user (login email2 password2 s2) = Some u2 /\
        id u1 = "1" /\ name u1 = "Dr. Smith" /\ role u1 = surgeon /\
        id u2 = "1" /\ name u2 = "Dr. Smith" /\ role u2 = surgeon /\
        email u1 = email1 /\ email u2 = email2) /\
    user (login email1 password1 s1) = user (login email1 password2 s2) /\
    loading (login email1 password1 s1) = false.
Proof.
  intros email1 password1 email2 password2 s1 s2. split.
  - exists (login_user email1 password1), (login_user email2 password2).
    repeat split.
  - split; reflexivity.
Qed.

End AuthContextFacts.

(* ================================================================= *)
(** * Facts about the slice viewer *)

Module MedicalSliceViewerFacts.

Import Js MedicalSliceViewer.
Local Open Scope Z_scope.

(** ** The state invariant *)

Ltac find_level := repeat first [left; reflexivity | right].

Lemma zoom_levels_closed (z : float) :
  In z zoom_levels ->
  In (Math_min (z * 1.2) 3) zoom_levels /\
  In (Math_max (z / 1.2) 0.5) zoom_levels.
Proof.
  intros H. unfold zoom_levels in H. simpl in H.
  repeat (destruct H as [<- | H];
          [ split; vm_compute; find_level | ]).
  contradiction.
Qed.

Lemma zoom_levels_bounded (z : float) :
  In z zoom_levels -> (0.5 <=? z)%float = true /\ (z <=? 3)%float = true.
Proof.
  intros H. unfold zoom_levels in H. simpl in H.
  repeat (destruct H as [<- | H]; [ split; vm_compute; reflexivity | ]).
  contradiction.
Qed.

Lemma invariant_initial : invariant initial.
Proof.
  unfold invariant, slice_in_range, totalSlices. simpl. repeat split.
  - lia.
  - lia.
  - left. reflexivity.
  - constructor.
Qed.

Lemma invariant_click (canvasRef : option Canvas) (event : Click)
    (s : State) :
  invariant s -> invariant (handleCanvasClick canvasRef event s).
Proof.
  intros H. pose proof H as [Hs [Hz Ha]]. unfold handleCanvasClick.
  destruct (negb (annotationMode s)); [exact H|].
  destruct canvasRef as [canvas|]; [|exact H].
  destruct (prompted event) as [note_|]; [|exact H].
  destruct ((note_ =? "")%string || (trim note_ =? "")%string); [exact H|].
  unfold invariant. simpl. repeat split; try assumption; try apply Hs.
  apply Forall_app. split; [assumption|].
  constructor; [exact Hs | constructor].
Qed.

Lemma reachable_invariant (s : State) : reachable s -> invariant s.
Proof.
  induction 1 as [ | s _ IH | s _ IH | s _ IH | s _ IH | s _ IH | s _ IH
                   | s _ IH | s _ IH | s _ IH | s _ IH
                   | s canvasRef event _ IH
                   | s a _ IH Hin ].
  - exact invariant_initial.
  - destruct IH as [Hs [Hz Ha]]. unfold invariant, slice_in_range in *.
    simpl. unfold totalSlices in *. repeat split; try assumption; lia.
  - destruct IH as [Hs [Hz Ha]]. unfold invariant, slice_in_range in *.
    simpl. unfold totalSlices in *. repeat split; try assumption; lia.
  - destruct IH as [Hs [Hz Ha]]. unfold invariant. simpl.
    repeat split; try assumption; try apply Hs.
    apply zoom_levels_closed. exact Hz.
  - destruct IH as [Hs [Hz Ha]]. unfold invariant. simpl.
    repeat split; try assumption; try apply Hs.
    apply zoom_levels_closed. exact Hz.
  - destruct IH as [Hs [Hz Ha]]. unfold invariant, slice_in_range in *.
    simpl. unfold totalSlices in *. repeat split; try assumption.
    + vm_compute. discriminate.
    + vm_compute. discriminate.
    + left. reflexivity.
  - exact IH.
  - exact IH.
  - exact IH.
  - exact IH.
  - exact IH.
  - apply invariant_click. exact IH.
  - destruct IH as [Hs [Hz Ha]]. unfold invariant. simpl.
    repeat split; try assumption.
    + apply (proj1 (Forall_forall _ _) Ha a Hin).
    + apply (proj1 (Forall_forall _ _) Ha a Hin).
Qed.

(** C9: in every state the user operations lead to from the initial
    state (currentSlice 0, zoom 1), currentSlice lies in
    [0, totalSlices - 1], that is 0..11, and zoom lies in [0.5, 3]. *)
Theorem C9_slice_and_zoom_stay_in_range :
  forall s : State,
    reachable s ->
    (0 <= currentSlice s <= totalSlices - 1 /\ totalSlices - 1 = 11) /\
    (0.5 <=? zoom s)%float = true /\ (zoom s <=? 3)%float = true.
Proof.
  intros s Hr. destruct (reachable_invariant s Hr) as [Hs [Hz _]].
  split; [split; [exact Hs | reflexivity]|].
  apply zoom_levels_bounded. exact Hz.
Qed.

(** C9 after zooming in eight times and stepping back one slice: the
    zoom is capped at 3 and the slice stays at 0. *)
Lemma C9_witness :
  let s := prevSlice (Nat.iter 8 zoomIn initial) in
  (0 <= currentSlice s <= totalSlices - 1 /\ totalSlices - 1 = 11) /\
  (0.5 <=? zoom s)%float = true /\ (zoom s <=? 3)%float = true.
Proof.
  apply C9_slice_and_zoom_stay_in_range.
  apply reach_prevSlice. simpl.
  repeat apply reach_zoomIn. apply reach_initial.
Defined.

(** ** The redraw *)

Section Redraw.

Variables Math_sin Math_cos : float -> float.

(** Runs a painter on a context given field by field; call by value keeps
    the intermediate contexts small. *)
Ltac run_paint :=
  cbv beta iota zeta delta
    [seq call assign_fillStyle assign_strokeStyle assign_lineWidth
     call_setLineDash log skip when forEach fold_left flat_map drawVessel
     ctx_canvas calls fillStyle strokeStyle lineWidth lineDash];
  split; [reflexivity | repeat rewrite <- app_assoc; reflexivity].

Lemma emits_seq (p q : Paint) (f g : Canvas -> list Call) :
  emits p f -> emits q g -> emits (p ;; q) (fun c => f c ++ g c).
Proof.
  intros Hp Hq k. unfold seq.
  destruct (Hp k) as [Hc Hl]. destruct (Hq (p k)) as [Hc' Hl'].
  split.
  - rewrite Hc'. exact Hc.
  - rewrite Hl', Hl, Hc, app_assoc. reflexivity.
Qed.

Lemma emits_when (b : bool) (p : Paint) (f : Canvas -> list Call) :
  emits p f -> emits (when b p) (fun c => if b then f c else []).
Proof.
  intros Hp k. destruct b; simpl.
  - apply Hp.
  - unfold skip. split; [reflexivity | symmetry; apply app_nil_r].
Qed.

Lemma emits_forEach {A : Type} (l : list A) (body : A -> Paint)
    (f : A -> Canvas -> list Call) :
  (forall a, emits (body a) (f a)) ->
  emits (forEach l body) (fun c => flat_map (fun a => f a c) l).
Proof.
  intros Hbody. unfold forEach.
  induction l as [|a l IH]; intros k; simpl.
  - split; [reflexivity | symmetry; apply app_nil_r].
  - destruct (Hbody a k) as [Hc Hl]. destruct (IH (body a k)) as [Hc' Hl'].
    split.
    + rewrite Hc'. exact Hc.
    + rewrite Hl', Hl, Hc, app_assoc. reflexivity.
Qed.

Lemma emits_ext (p : Paint) (f g : Canvas -> list Call) :
  (forall c, f c = g c) -> emits p f -> emits p g.
Proof.
  intros E Hp k. destruct (Hp k) as [Hc Hl]. split; [exact Hc|].
  rewrite Hl, E. reflexivity.
Qed.

Lemma background_emits :
  emits (fun k => (assign_fillStyle "#1a1a1a" ;;
                   call (fillRect 0 0 (width (ctx_canvas k))
                           (height (ctx_canvas k)))) k)
        background_calls.
Proof. intros [c fs ss lw ld l]. unfold background_calls. run_paint. Qed.

Lemma drawBrainSlice_emits (s : State) (n : Z) :
  emits (drawBrainSlice Math_sin s n)
        (fun c => tissue_calls Math_sin c (zoom s) n).
Proof.
  intros [c fs ss lw ld l].
  unfold drawBrainSlice, tissue_calls, tissue_ellipse, tissue_radius.
  run_paint.
Qed.

Lemma drawVentricles_emits (s : State) (n : Z) :
  emits (drawVentricles s n) (fun c => ventricle_calls c (zoom s) n).
Proof.
  intros [c fs ss lw ld l].
  unfold drawVentricles, ventricle_calls, outlined_ellipse.
  destruct ((3 <=? n) && (n <=? 9)); destruct ((4 <=? n) && (n <=? 8));
    run_paint.
Qed.

Lemma drawVessels_emits (s : State) (n : Z) :
  emits (drawVessels Math_sin Math_cos s n)
        (fun c => vessel_calls Math_sin Math_cos c (zoom s)).
Proof.
  intros [c fs ss lw ld l].
  unfold drawVessels, vessel_calls, vessel_line. run_paint.
Qed.

Lemma drawContours_emits (s : State) (n : Z) :
  emits (drawContours s n) (fun c => contour_calls c (zoom s)).
Proof.
  intros [c fs ss lw ld l]. unfold drawContours, contour_calls. run_paint.
Qed.

Lemma drawAnnotation_emits (a : Annotation) :
  emits (drawAnnotation a) (fun c => marker_calls c a).
Proof.
  intros [c fs ss lw ld l]. unfold drawAnnotation, marker_calls. run_paint.
Qed.

Lemma drawAnnotations_emits (s : State) :
  emits (drawAnnotations s)
        (fun c => flat_map (marker_calls c)
                    (filter (fun a => slice a =? currentSlice s)
                       (annotations s))).
Proof.
  unfold drawAnnotations.
  apply (emits_forEach _ drawAnnotation (fun a c => marker_calls c a)).
  apply drawAnnotation_emits.
Qed.

(** One redraw appends exactly the frame to the log and keeps the canvas. *)
Lemma paintSlice_emits (s : State) :
  emits (paintSlice Math_sin Math_cos s)
        (fun c => frame Math_sin Math_cos c (currentSlice s) (zoom s)
                    (overlays s) (showAnnotations s) (annotations s)).
Proof.
  unfold frame.
  pose proof (emits_seq _ _ _ _ background_emits
    (emits_seq _ _ _ _ (drawBrainSlice_emits s (currentSlice s))
    (emits_seq _ _ _ _
       (emits_when (ventricles (overlays s)) _ _
          (drawVentricles_emits s (currentSlice s)))
    (emits_seq _ _ _ _
       (emits_when (vessels (overlays s)) _ _
          (drawVessels_emits s (currentSlice s)))
    (emits_seq _ _ _ _
       (emits_when (contours (overlays s)) _ _
          (drawContours_emits s (currentSlice s)))
       (emits_when (showAnnotations s) _ _ (drawAnnotations_emits s)))))))
    as H.
  intros k. destruct (H k) as [Hc Hl]. split.
  - exact Hc.
  - exact Hl.
Qed.

End Redraw.

(** C8, as stated, fails: the initial state and the state after one
    [zoomIn] have the same slice index, overlay toggles and annotation
    list, yet their redraws on the same canvas make different calls (the
    contour ellipse has radii 140 and 130 times the zoom factor),
    whatever the engine's sine and cosine. *)
Lemma C8_counterexample :
  currentSlice initial = currentSlice (zoomIn initial) /\
  overlays initial = overlays (zoomIn initial) /\
  annotations initial = annotations (zoomIn initial) /\
  forall Math_sin Math_cos : float -> float,
    option_map calls (drawSlice Math_sin Math_cos initial (Some fresh_context))
    <> option_map calls
         (drawSlice Math_sin Math_cos (zoomIn initial) (Some fresh_context)).
Proof.
  repeat split.
  intros Math_sin Math_cos H.
  apply (f_equal (fun o => match o with
                           | Some l => nth 47 l fill
                           | None => fill
                           end)) in H.
  apply (f_equal (fun c => match c with
                           | ellipse _ _ radiusX _ _ _ _ =>
                               PrimFloat.eqb radiusX 140
                           | _ => false
                           end)) in H.
  vm_compute in H. discriminate.
Qed.

(** C8, amended: the redraw is a function of the canvas and of five
    values: slice index, zoom factor, overlay toggles, show-annotations
    flag and annotation list.  Two states equal on these five redraw
    alike, and on a canvas with a 2D context the redraw appends to the
    context's log exactly the frame: background fill, the three tissue
    ellipses with the radius modulated by sin(slice / total * pi), the
    enabled overlays in the order ventricles, vessels, contours, then
    (when annotations are shown) the markers of the annotations whose
    slice is the current slice. *)
Theorem C8_redraw_is_the_frame :
  forall (Math_sin Math_cos : float -> float) (s1 s2 : State)
         (canvasRef : option Ctx),
    currentSlice s1 = currentSlice s2 ->
    zoom s1 = zoom s2 ->
    overlays s1 = overlays s2 ->
    showAnnotations s1 = showAnnotations s2 ->
    annotations s1 = annotations s2 ->
    drawSlice Math_sin Math_cos s1 canvasRef
      = drawSlice Math_sin Math_cos s2 canvasRef /\
    (forall k : Ctx,
        canvasRef = Some k -> has_2d_context (ctx_canvas k) = true ->
        exists k' : Ctx,
          drawSlice Math_sin Math_cos s2 canvasRef = Some k' /\
          ctx_canvas k' = ctx_canvas k /\
          calls k' = calls k ++
            frame Math_sin Math_cos (ctx_canvas k) (currentSlice s1) (zoom s1)
              (overlays s1) (showAnnotations s1) (annotations s1)).
Proof.
  intros Math_sin Math_cos s1 s2 canvasRef Hslice Hzoom Hover Hshow Hanns.
  split.
  - destruct s1 as [c1 z1 a1 sh1 m1 o1], s2 as [c2 z2 a2 sh2 m2 o2].
    simpl in Hslice, Hzoom, Hover, Hshow, Hanns. subst c2 z2 a2 sh2 o2.
    destruct canvasRef as [k|]; reflexivity.
  - intros k -> Hctx. unfold drawSlice. rewrite Hctx.
    exists (paintSlice Math_sin Math_cos s2 k).
    destruct (paintSlice_emits Math_sin Math_cos s2 k) as [Hc Hl].
    rewrite Hslice, Hzoom, Hover, Hshow, Hanns. auto.
Qed.

(** C8 (amended) at the initial state with annotation mode off and on,
    on the 400 by 400 canvas. *)
Lemma C8_witness :
  drawSlice series_sin series_cos initial (Some fresh_context)
    = drawSlice series_sin series_cos (toggleAnnotationMode initial)
        (Some fresh_context) /\
  (forall k : Ctx,
      Some fresh_context = Some k -> has_2d_context (ctx_canvas k) = true ->
      exists k' : Ctx,
        drawSlice series_sin series_cos (toggleAnnotationMode initial)
          (Some fresh_context) = Some k' /\
        ctx_canvas k' = ctx_canvas k /\
        calls k' = calls k ++
          frame series_sin series_cos (ctx_canvas k) (currentSlice initial)
            (zoom initial) (overlays initial) (showAnnotations initial)
            (annotations initial)).
Proof.
  apply (C8_redraw_is_the_frame series_sin series_cos initial
           (toggleAnnotationMode initial) (Some fresh_context));
    reflexivity.
Defined.

End MedicalSliceViewerFacts.

(* ================================================================= *)
(** * Further facts about the routes *)

Module ServerMoreFacts.

Import Js ScanController Server Examples Notions.
Local Open Scope string_scope.
Local Open Scope Z_scope.

(** ** The order of strings *)

Lemma ascii_compare_Lt_trans (a b c : ascii) :
  Ascii.compare a b = Lt -> Ascii.compare b c = Lt -> Ascii.compare a c = Lt.
Proof.
  unfold Ascii.compare. rewrite !N.compare_lt_iff. apply N.lt_trans.
Qed.

Lemma string_compare_Lt_trans (s1 : string) :
  forall s2 s3 : string,
    String.compare s1 s2 = Lt -> String.compare s2 s3 = Lt ->
    String.compare s1 s3 = Lt.
Proof.
  induction s1 as [|a s1 IH]; intros [|b s2] [|c s3]; simpl;
    try discriminate; try reflexivity.
  destruct (Ascii.compare a b) eqn:Eab; try discriminate;
    destruct (Ascii.compare b c) eqn:Ebc; try discriminate; intros H1 H2.
  - apply Ascii.compare_eq_iff in Eab, Ebc. subst b c.
    replace (Ascii.compare a a) with Eq
      by (symmetry; unfold Ascii.compare; apply N.compare_refl).
    exact (IH _ _ H1 H2).
  - apply Ascii.compare_eq_iff in Eab. subst b. rewrite Ebc. reflexivity.
  - apply Ascii.compare_eq_iff in Ebc. subst c. rewrite Eab. reflexivity.
  - rewrite (ascii_compare_Lt_trans a b c Eab Ebc). reflexivity.
Qed.

Lemma string_compare_refl (s : string) : String.compare s s = Eq.
Proof.
  induction s as [|a s IH]; simpl; [reflexivity|].
  replace (Ascii.compare a a) with Eq
    by (symmetry; unfold Ascii.compare; apply N.compare_refl).
  exact IH.
Qed.

Lemma string_leb_trans (s1 s2 s3 : string) :
  String.leb s1 s2 = true -> String.leb s2 s3 = true ->
  String.leb s1 s3 = true.
Proof.
  unfold String.leb.
  destruct (String.compare s1 s2) eqn:E12; try discriminate;
    destruct (String.compare s2 s3) eqn:E23; try discriminate; intros _ _.
  - apply String.compare_eq_iff in E12, E23. subst s2 s3.
    rewrite string_compare_refl. reflexivity.
  - apply String.compare_eq_iff in E12. subst s2. rewrite E23. reflexivity.
  - apply String.compare_eq_iff in E23. subst s3. rewrite E12. reflexivity.
  - rewrite (string_compare_Lt_trans s1 s2 s3 E12 E23). reflexivity.
Qed.

Lemma string_leb_false (s1 s2 : string) :
  String.leb s1 s2 = false -> String.leb s2 s1 = true.
Proof.
  intros H. destruct (String.leb_total s1 s2) as [H' | H']; [|exact H'].
  rewrite H in H'. discriminate.
Qed.

(** ** [ORDER BY date DESC] *)

Lemma insert_by_date_perm (r : ScanRow) (l : list ScanRow) :
  Permutation (insert_by_date r l) (r :: l).
Proof.
  induction l as [|h t IH]; simpl.
  - apply Permutation_refl.
  - destruct (String.leb (date h) (date r)).
    + apply Permutation_refl.
    + apply perm_trans with (h :: r :: t).
      * apply perm_skip. exact IH.
      * apply perm_swap.
Qed.

Lemma order_by_date_desc_perm (l : list ScanRow) :
  Permutation (order_by_date_desc l) l.
Proof.
  induction l as [|h t IH]; simpl.
  - apply Permutation_refl.
  - apply perm_trans with (h :: order_by_date_desc t).
    + apply insert_by_date_perm.
    + apply perm_skip. exact IH.
Qed.

Lemma insert_by_date_sorted (r : ScanRow) (l : list ScanRow) :
  StronglySorted not_older l -> StronglySorted not_older (insert_by_date r l).
Proof.
  induction 1 as [|h t Hs IH Hh]; simpl.
  - constructor; constructor.
  - destruct (String.leb (date h) (date r)) eqn:E.
    + constructor.
      * constructor; assumption.
      * constructor; [exact E|].
        apply Forall_forall. intros x Hx.
        unfold not_older.
        apply string_leb_trans with (date h); [|exact E].
        exact (proj1 (Forall_forall _ _) Hh x Hx).
    + constructor; [exact IH|].
      apply Forall_forall. intros x Hx.
      apply (Permutation_in _ (insert_by_date_perm r t)) in Hx.
      destruct Hx as [<- | Hx].
      * apply string_leb_false. exact E.
      * exact (proj1 (Forall_forall _ _) Hh x Hx).
Qed.

Lemma order_by_date_desc_sorted (l : list ScanRow) :
  StronglySorted not_older (order_by_date_desc l).
Proof.
  induction l as [|h t IH]; simpl.
  - constructor.
  - apply insert_by_date_sorted. exact IH.
Qed.

(** X1: when the database driver reports no error, GET /api/scans
    answers 200 with the rows of the table, each row once, newest date
    first (every row stands before the rows that are not newer), and
    leaves the state as it was; when the driver reports an error it
    answers 500. *)
Theorem X1_scans_newest_first :
  forall (env : Env) (st : State),
    (driver_error env 0%nat = None ->
     exists rows : list ScanRow,
       get_scans env st = (respond 200 (ScanList (map summary rows)), st) /\
       Permutation rows (scans (db st)) /\
       StronglySorted not_older rows) /\
    (driver_error env 0%nat <> None ->
     get_scans env st = (respond 500 (Error "Failed to fetch scans"), st)).
Proof.
  intros env st. unfold get_scans, allQuery. split.
  - intros ->. exists (order_by_date_desc (scans (db st))).
    split; [reflexivity | split].
    + apply order_by_date_desc_perm.
    + apply order_by_date_desc_sorted.
  - intros Hd. destruct (driver_error env 0%nat); [reflexivity | congruence].
Qed.

(** X1 on the table holding scan 7. *)
Lemma X1_witness :
  exists rows : list ScanRow,
    get_scans noon one_scan
      = (respond 200 (ScanList (map summary rows)), one_scan) /\
    Permutation rows (scans (db one_scan)) /\
    StronglySorted not_older rows.
Proof.
  apply (proj1 (X1_scans_newest_first noon one_scan)). reflexivity.
Defined.

(** ** Uploads *)

Lemma max_id_above (l : list ScanRow) (r : ScanRow) :
  In r l -> id r <= fold_right Z.max 0 (map id l).
Proof.
  induction l as [|h t IH]; cbn [In map fold_right].
  - contradiction.
  - intros [<- | Hin].
    + lia.
    + specialize (IH Hin). lia.
Qed.

Lemma next_id_above (d : Db) (r : ScanRow) :
  In r (scans d) -> id r < next_id d.
Proof.
  intros Hin. unfold next_id. pose proof (max_id_above _ _ Hin). lia.
Qed.

Lemma next_id_fresh (d : Db) : ~ In (next_id d) (map id (scans d)).
Proof.
  intros H. apply in_map_iff in H. destruct H as [r [E Hin]].
  apply next_id_above in Hin. lia.
Qed.

Lemma next_id_above_sequence (d : Db) : scans_seq d < next_id d.
Proof. unfold next_id. lia. Qed.

Lemma truthy_inv (s : option string) :
  truthy s = true -> exists v, s = Some v /\ v <> "".
Proof.
  destruct s as [v|]; simpl; [|discriminate].
  intros H. exists v. split; [reflexivity|].
  apply String.eqb_neq. apply negb_true_iff. exact H.
Qed.

(** The handler refuses with 400 and keeps the state, or assesses the
    file and then stores one row or, the INSERT failing, answers 500
    with the draws of the assessment spent. *)
Lemma post_scans_handler_outcome (env : Env) (b : UploadBody)
    (file : option File) (st : State) :
  (exists m, post_scans_handler env b file st = (respond 400 (Error m), st) /\
             (truthy (patientName b) = false \/ truthy (scanType b) = false \/
              file = None)) \/
  (exists f ra g',
      file = Some f /\
      truthy (patientName b) = true /\ truthy (scanType b) = true /\
      getRiskAssessment (toISOString env) (field_value (scanType b)) file
        (rng st) = (ra, g') /\
      ((exists m, driver_error env 0%nat = Some m /\
          post_scans_handler env b file st
            = (respond 500 (ErrorDetails "Failed to upload scan" m),
               {| db := db st; rng := g' |})) \/
       (driver_error env 0%nat = None /\
        post_scans_handler env b file st
        = (respond 201
             (Uploaded "Scan uploaded successfully" (next_id (db st)) ra
                {| u_id := next_id (db st);
                   u_patient_name := field_value (patientName b);
                   u_scan_type := field_value (scanType b);
                   u_risk_level := level ra; u_status := "completed";
                   u_date := toISOString env |}),
           {| db := fst (insert_scan env (db st)
                           (field_value (patientName b))
                           (field_value (scanType b)) (level ra) "completed"
                           ("uploads/" ++ string_of_Z (Date_now env) ++ "_"
                            ++ originalname f)
                           (details ra));
              rng := g' |})))).
Proof.
  unfold post_scans_handler.
  destruct (truthy (patientName b)) eqn:Ep; simpl.
  2:{ left. eexists. split; [reflexivity | auto]. }
  destruct (truthy (scanType b)) eqn:Et; simpl.
  2:{ left. eexists. split; [reflexivity | auto]. }
  destruct file as [f|].
  2:{ left. eexists. split; [reflexivity | auto]. }
  right.
  destruct (getRiskAssessment (toISOString env) (field_value (scanType b))
              (Some f) (rng st)) as [ra g'] eqn:Era.
  exists f, ra, g'. repeat split.
  unfold runQuery. destruct (driver_error env 0%nat) as [m|].
  - left. exists m. split; reflexivity.
  - right. split; reflexivity.
Qed.

(** What the whole route does. *)
Lemma post_scans_state (env : Env) (b : UploadBody) (part : option File)
    (st : State) :
  ((statusCode (fst (post_scans env b part st)) = 400 \/
    statusCode (fst (post_scans env b part st)) = 500) /\
   snd (post_scans env b part st) = st) \/
  (exists f ra g',
      part = Some f /\ upload_single "scan" b part = Next (Some f) /\
      truthy (patientName b) = true /\ truthy (scanType b) = true /\
      getRiskAssessment (toISOString env) (field_value (scanType b)) part
        (rng st) = (ra, g') /\
      ((exists m, driver_error env 0%nat = Some m /\
          post_scans env b part st
            = (respond 500 (ErrorDetails "Failed to upload scan" m),
               {| db := db st; rng := g' |})) \/
       (driver_error env 0%nat = None /\
        fst (post_scans env b part st)
          = respond 201
              (Uploaded "Scan uploaded successfully" (next_id (db st)) ra
                 {| u_id := next_id (db st);
                    u_patient_name := field_value (patientName b);
                    u_scan_type := field_value (scanType b);
                    u_risk_level := level ra; u_status := "completed";
                    u_date := toISOString env |}) /\
        snd (post_scans env b part st)
          = {| db := fst (insert_scan env (db st)
                            (field_value (patientName b))
                            (field_value (scanType b)) (level ra) "completed"
                            ("uploads/" ++ string_of_Z (Date_now env) ++ "_"
                             ++ originalname f)
                            (details ra));
               rng := g' |}))).
Proof.
  unfold post_scans.
  destruct (upload_single "scan" b part) as [file | code m | m] eqn:Eup.
  - destruct (post_scans_handler_outcome env b file st)
      as [[m [E _]] | [f [ra [g' [Ef [Hp [Ht [Era H]]]]]]]].
    + rewrite E. left. split; [left; reflexivity | reflexivity].
    + right. exists f, ra, g'. subst file.
      assert (part = Some f) as ->.
      { apply ServerFacts.upload_single_next in Eup. destruct Eup as [Eup _].
        apply ServerFacts.upload_file_next in Eup. tauto. }
      repeat split; try assumption.
      destruct H as [[m [Hd E]] | [Hd E]].
      * left. exists m. split; assumption.
      * right. rewrite E. repeat split. exact Hd.
  - left. split; [|reflexivity].
    unfold error_middleware. destruct (code =? "LIMIT_FILE_SIZE")%string;
      simpl; auto.
  - left. split; [|reflexivity]. simpl. auto.
Qed.

(** X2: an upload, served with no other request in between, either is
    refused with 400 or 500 before anything is assessed, and then leaves
    the state, tables and random generator alike, exactly as it was; or
    the INSERT fails, and it is answered
    500 with the driver's message as details and the tables as they
    were; or it is answered 201 and then appends exactly one row to the
    scans: with a new id above every id the table holds or held, which
    is the returned scanId, the submitted patient name and scan type,
    the assessed level, its details as notes, status "completed", the
    uploader 'Dr. Smith' and the current time as date. *)
Theorem X2_upload_stores_one_row_or_nothing :
  forall (env : Env) (b : UploadBody) (part : option File) (st : State),
    let r := fst (post_scans env b part st) in
    let st' := snd (post_scans env b part st) in
    ((statusCode r = 400 \/ statusCode r = 500) /\ st' = st) \/
    (exists m : string,
        driver_error env 0%nat = Some m /\
        r = respond 500 (ErrorDetails "Failed to upload scan" m) /\
        db st' = db st) \/
    (exists (lastID : Z) (ra : RiskAssessment) (scan : UploadedScan)
            (row : ScanRow),
        driver_error env 0%nat = None /\
        r = respond 201 (Uploaded "Scan uploaded successfully" lastID ra scan) /\
        scans (db st') = (scans (db st) ++ [row])%list /\
        scan_annotations (db st') = scan_annotations (db st) /\
        id row = lastID /\ u_id scan = lastID /\
        ~ In lastID (map id (scans (db st))) /\
        scans_seq (db st) < lastID /\ scans_seq (db st') = lastID /\
        patientName b = Some (patient_name row) /\
        scanType b = Some (scan_type row) /\
        risk_level row = level ra /\ u_risk_level scan = level ra /\
        notes row = Some (details ra) /\
        status row = "completed" /\
        uploaded_by row = Some "Dr. Smith" /\
        date row = CURRENT_TIMESTAMP env).
Proof.
  intros env b part st. cbv zeta.
  destruct (post_scans_state env b part st)
    as [H | [f [ra [g' [Ef [_ [Hp [Ht [_ [[m [Hd E]] | [Hd [Er Es]]]]]]]]]]]].
  - left. exact H.
  - right. left. exists m. rewrite E. repeat split. exact Hd.
  - right. right. rewrite Er, Es.
    eexists _, ra, _, _. split; [exact Hd|].
    split; [reflexivity|]. split; [reflexivity|]. cbn.
    split; [reflexivity|]. split; [reflexivity|]. split; [reflexivity|].
    split; [apply next_id_fresh|].
    split; [apply next_id_above_sequence|]. split; [reflexivity|].
    destruct (truthy_inv _ Hp) as [p [-> _]].
    destruct (truthy_inv _ Ht) as [t [-> _]].
    repeat split.
Qed.

(** X3: POST /api/scans answers 201 only to a request with a non-empty
    patientName and scanType and a named file under the field "scan"
    that the filter lets through and that is under 50MB, and only when
    the driver reports no error for the INSERT. *)
Theorem X3_created_only_if_valid :
  forall (env : Env) (b : UploadBody) (part : option File) (st : State),
    statusCode (fst (post_scans env b part st)) = 201 ->
    exists (f : File) (patient type_ : string),
      part = Some f /\ fieldname f = "scan" /\ originalname f <> "" /\
      (In (mimetype f) allowedTypes \/
       endsWith (toLowerCase (originalname f)) ".dcm" = true) /\
      size f < fileSize_limit /\
      patientName b = Some patient /\ patient <> "" /\
      scanType b = Some type_ /\ type_ <> "" /\
      driver_error env 0%nat = None.
Proof.
  intros env b part st H.
  destruct (post_scans_state env b part st)
    as [[[E | E] _] | [f [ra [g' [Ef [Eup [Hp [Ht [_ [[m [_ E]] | [Hd _]]]]]]]]]]];
    try (rewrite E in H; discriminate H).
  destruct (truthy_inv _ Hp) as [p [Ep Hp']].
  destruct (truthy_inv _ Ht) as [t [Et Ht']].
  exists f, p, t.
  apply ServerFacts.upload_single_next in Eup. destruct Eup as [Eup _].
  apply ServerFacts.upload_file_next in Eup.
  destruct Eup as [_ [Hn [Hf [Hfilter Hs]]]].
  apply ServerFacts.fileFilter_accepts in Hfilter.
  repeat split; assumption.
Qed.

(** X3 at the example upload. *)
Lemma X3_witness :
  exists (f : File) (patient type_ : string),
    Some brain_png = Some f /\ fieldname f = "scan" /\ originalname f <> "" /\
    (In (mimetype f) allowedTypes \/
     endsWith (toLowerCase (originalname f)) ".dcm" = true) /\
    size f < fileSize_limit /\
    patientName test_patient = Some patient /\ patient <> "" /\
    scanType test_patient = Some type_ /\ type_ <> "" /\
    driver_error noon 0%nat = None.
Proof.
  apply (X3_created_only_if_valid noon test_patient (Some brain_png)
           empty_server).
  vm_compute. reflexivity.
Defined.

(** X4: how an upload is refused, its text fields being under 1MB.  The
    file is judged before the body is looked at: a named file under
    another field name is answered 400 "File upload error: Unexpected
    field"; of a type the filter refuses, 500 (with the filter's message
    in development only); let through but of 50MB or more, 400 "File too
    large. Maximum size is 50MB.".  With no file, a file without a name
    or an accepted one, a missing or empty patientName or scanType is
    answered 400 "Patient name and scan type are required"; with both
    present and no file or a file without a name, 400 "Scan file is
    required". *)
Theorem X4_upload_refusals :
  forall (env : Env) (b : UploadBody) (st : State),
    field_fits (patientName b) = true -> field_fits (scanType b) = true ->
    (forall f : File,
        originalname f <> "" -> fieldname f <> "scan" ->
        post_scans env b (Some f) st
          = (respond 400 (Error "File upload error: Unexpected field"), st)) /\
    (forall f : File,
        originalname f <> "" -> fieldname f = "scan" ->
        ~ In (mimetype f) allowedTypes ->
        endsWith (toLowerCase (originalname f)) ".dcm" = false ->
        post_scans env b (Some f) st
          = (respond 500
               (ErrorMessage "Internal server error"
                  (if development env
                   then "Invalid file type. Please upload JPEG, PNG, GIF, or DICOM files."
                   else "Something went wrong")), st)) /\
    (forall f : File,
        originalname f <> "" -> fieldname f = "scan" ->
        (In (mimetype f) allowedTypes \/
         endsWith (toLowerCase (originalname f)) ".dcm" = true) ->
        fileSize_limit <= size f ->
        post_scans env b (Some f) st
          = (respond 400 (Error "File too large. Maximum size is 50MB."), st)) /\
    (forall part file : option File,
        upload_file "scan" part = Next file ->
        truthy (patientName b) = false \/ truthy (scanType b) = false ->
        post_scans env b part st
          = (respond 400 (Error "Patient name and scan type are required"),
             st)) /\
    (forall part : option File,
        part = None \/ (exists f, part = Some f /\ originalname f = "") ->
        truthy (patientName b) = true -> truthy (scanType b) = true ->
        post_scans env b part st
          = (respond 400 (Error "Scan file is required"), st)).
Proof.
  intros env b st Hfp Hft. unfold post_scans, upload_single.
  split; [|split; [|split; [|split]]].
  - intros f Hname Hfield. unfold upload_file.
    apply String.eqb_neq in Hname, Hfield. rewrite Hname, Hfield.
    reflexivity.
  - intros f Hname Hfield Hmime Hdcm. unfold upload_file.
    apply String.eqb_neq in Hname. rewrite Hname, Hfield.
    rewrite String.eqb_refl. cbn [negb].
    destruct (fileFilter f) as [m|] eqn:Efilter.
    + unfold fileFilter in Efilter.
      destruct (array_includes allowedTypes (mimetype f) ||
                endsWith (toLowerCase (originalname f)) ".dcm");
        [discriminate|].
      injection Efilter as <-. reflexivity.
    + apply ServerFacts.fileFilter_accepts in Efilter.
      destruct Efilter as [H | H]; [contradiction | congruence].
  - intros f Hname Hfield Hok Hsize. unfold upload_file.
    apply String.eqb_neq in Hname. rewrite Hname, Hfield.
    rewrite String.eqb_refl. cbn [negb].
    apply ServerFacts.fileFilter_accepts in Hok. rewrite Hok.
    replace (fileSize_limit <=? size f) with true
      by (symmetry; apply Z.leb_le; exact Hsize).
    reflexivity.
  - intros part file -> Hmissing. rewrite Hfp, Hft. cbn [andb].
    unfold post_scans_handler.
    destruct Hmissing as [-> | ->]; simpl.
    + reflexivity.
    + rewrite orb_true_r. reflexivity.
  - intros part Hpart Hp Ht.
    assert (E : upload_file "scan" part = Next None).
    { destruct Hpart as [-> | [f [-> Hn]]]; [reflexivity|].
      unfold upload_file. rewrite Hn. reflexivity. }
    rewrite E, Hfp, Hft. cbn [andb]. unfold post_scans_handler.
    rewrite Hp, Ht. reflexivity.
Qed.

(** X4 at concrete requests: a file sent as "image", the text file, a
    PNG of exactly 50MB, an upload without a patient name, one without
    a file. *)
Lemma X4_witness :
  post_scans noon test_patient
    (Some {| fieldname := "image"; originalname := "a.png";
             mimetype := "image/png"; size := 10 |}) empty_server
    = (respond 400 (Error "File upload error: Unexpected field"),
       empty_server) /\
  post_scans noon test_patient (Some notes_txt) empty_server
    = (respond 500 (ErrorMessage "Internal server error" "Something went wrong"),
       empty_server) /\
  post_scans noon test_patient
    (Some {| fieldname := "scan"; originalname := "a.png";
             mimetype := "image/png"; size := 50 * 1024 * 1024 |})
    empty_server
    = (respond 400 (Error "File too large. Maximum size is 50MB."),
       empty_server) /\
  post_scans noon {| patientName := Some ""; scanType := Some "CT" |}
    (Some brain_png) empty_server
    = (respond 400 (Error "Patient name and scan type are required"),
       empty_server) /\
  post_scans noon test_patient None empty_server
    = (respond 400 (Error "Scan file is required"), empty_server).
Proof.
  split; [|split; [|split; [|split]]].
  - apply (proj1 (X4_upload_refusals noon test_patient empty_server
                    eq_refl eq_refl)); discriminate.
  - apply (proj1 (proj2 (X4_upload_refusals noon test_patient empty_server
                           eq_refl eq_refl)) notes_txt).
    + discriminate.
    + reflexivity.
    + simpl. intros [H | [H | [H | []]]]; discriminate.
    + reflexivity.
  - apply (proj1 (proj2 (proj2
             (X4_upload_refusals noon test_patient empty_server
                eq_refl eq_refl)))).
    + discriminate.
    + reflexivity.
    + left. simpl. auto.
    + reflexivity.
  - apply (proj1 (proj2 (proj2 (proj2
             (X4_upload_refusals noon
                {| patientName := Some ""; scanType := Some "CT" |}
                empty_server eq_refl eq_refl))))
             (Some brain_png) (Some brain_png)).
    + reflexivity.
    + left. reflexivity.
  - apply (proj2 (proj2 (proj2 (proj2
             (X4_upload_refusals noon test_patient empty_server
                eq_refl eq_refl))))).
    + left. reflexivity.
    + reflexivity.
    + reflexivity.
Defined.

(** ** Lookups after writes *)

Lemma find_app_none {A} (p : A -> bool) (l : list A) (x : A) :
  (forall y, In y l -> p y = false) -> p x = true ->
  find p (l ++ [x]) = Some x.
Proof.
  intros Hnone Hx. induction l as [|h t IH]; simpl.
  - rewrite Hx. reflexivity.
  - rewrite (Hnone h (or_introl eq_refl)).
    apply IH. intros y Hy. apply Hnone. right. exact Hy.
Qed.

(** X5: a scan that was uploaded is found again: after an upload
    answered 201, GET /api/scans/:id with a parameter that matches the
    returned id (and no other id of the table), the driver reporting no
    error, answers 200 with a row that carries that id, the submitted
    patient name and scan type, the assessed level, its details as
    notes, status "completed", the uploader 'Dr. Smith' and the file
    path uploads/<Date.now()>_<file name>. *)
Theorem X5_uploaded_scan_is_found :
  forall (id_matches : string -> Z -> bool) (env env' : Env) (b : UploadBody)
         (part : option File) (st : State) (message : string) (lastID : Z)
         (ra : RiskAssessment) (scan : UploadedScan) (param : string),
    fst (post_scans env b part st)
      = respond 201 (Uploaded message lastID ra scan) ->
    id_matches param lastID = true ->
    (forall r, In r (scans (db st)) -> id_matches param (id r) = false) ->
    driver_error env' 0%nat = None ->
    exists (row : ScanRow) (f : File),
      fst (get_scan id_matches env' param (snd (post_scans env b part st)))
        = respond 200 (ScanRecord row) /\
      id row = lastID /\
      patientName b = Some (patient_name row) /\
      scanType b = Some (scan_type row) /\
      risk_level row = level ra /\ notes row = Some (details ra) /\
      status row = "completed" /\
      uploaded_by row = Some "Dr. Smith" /\
      part = Some f /\
      file_path row
        = Some ("uploads/" ++ string_of_Z (Date_now env) ++ "_"
                ++ originalname f).
Proof.
  intros id_matches env env' b part st message lastID ra scan param E Hm
    Hnone Hd'.
  destruct (post_scans_state env b part st)
    as [[[H | H] _] | [f [ra' [g' [Ef [_ [Hp [Ht [_ [[m [_ H]] | [_ [Er Es]]]]]]]]]]]];
    try (rewrite E in H; discriminate H).
  - rewrite H in E. discriminate E.
  - rewrite Er in E. injection E as _ Eid Era _. subst lastID ra'.
    rewrite Es. unfold get_scan, getQuery, select_scan, insert_scan.
    rewrite Hd'. cbn [db scans fst].
    rewrite find_app_none; [|exact Hnone | exact Hm].
    destruct (truthy_inv _ Hp) as [p [Ep _]].
    destruct (truthy_inv _ Ht) as [t [Et _]].
    eexists _, f. split; [reflexivity|]. simpl.
    rewrite Ep, Et. repeat split. exact Ef.
Qed.

(** X5 at the example upload, fetched back under id "1". *)
Lemma X5_witness :
  exists (row : ScanRow) (f : File),
    fst (get_scan decimal_id noon "1"
           (snd (post_scans noon test_patient (Some brain_png) empty_server)))
      = respond 200 (ScanRecord row) /\
    id row = 1 /\
    patientName test_patient = Some (patient_name row) /\
    scanType test_patient = Some (scan_type row) /\
    risk_level row = "high" /\
    notes row = Some ("Critical risk factors identified requiring immediate attention. Major blood vessels detected within surgical corridor. Recommend specialized surgical team and advanced monitoring.") /\
    status row = "completed" /\
    uploaded_by row = Some "Dr. Smith" /\
    Some brain_png = Some f /\
    file_path row
      = Some ("uploads/" ++ string_of_Z (Date_now noon) ++ "_"
              ++ originalname f).
Proof.
  pose proof (X5_uploaded_scan_is_found decimal_id noon noon test_patient
                (Some brain_png) empty_server
                "Scan uploaded successfully" 1
                (fst (getRiskAssessment (toISOString noon) "CT"
                        (Some brain_png) (rng empty_server)))
                {| u_id := 1; u_patient_name := "Test Patient";
                   u_scan_type := "CT"; u_risk_level := "high";
                   u_status := "completed";
                   u_date := toISOString noon |} "1") as H.
  apply H.
  - vm_compute. reflexivity.
  - reflexivity.
  - intros r [].
  - reflexivity.
Defined.

(** ** Statistics *)

Lemma nodup_length_le (l : list string) :
  (List.length (nodup string_dec l) <= List.length l)%nat.
Proof.
  induction l as [|h t IH]; simpl; [lia|].
  destruct (in_dec string_dec h t); simpl; lia.
Qed.

Lemma nodup_nonempty (l : list string) :
  l <> [] -> (1 <= List.length (nodup string_dec l))%nat.
Proof.
  induction l as [|h t IH]; [congruence|]. intros _. simpl.
  destruct (in_dec string_dec h t) as [Hin|]; simpl; [|lia].
  apply IH. intros ->. contradiction.
Qed.

(** X6: when the database driver reports no error and no request
    changes the scans between the four statements of the route,
    GET /api/stats answers 200 with four consistent counts: none is
    negative, highRiskCases, recentScans and activePatients do not
    exceed totalScans, and there is at least one active patient as soon
    as there is a scan.  The route leaves the state as it was. *)
Theorem X6_stats_are_consistent :
  forall (env : Env) (db1 db2 db3 db4 : Db),
    driver_ok env ->
    scans db2 = scans db1 -> scans db3 = scans db1 -> scans db4 = scans db1 ->
    (exists total high recent patients : Z,
        get_stats_over env db1 db2 db3 db4
          = respond 200 (Statistics total high recent patients) /\
        0 <= high <= total /\ 0 <= recent <= total /\
        0 <= patients <= total /\ (total = 0 \/ 1 <= patients)) /\
    (forall st : State, snd (get_stats env st) = st).
Proof.
  intros env db1 db2 db3 db4 Hd E2 E3 E4. split; [|reflexivity].
  unfold get_stats_over, getQuery. rewrite !Hd.
  eexists _, _, _, _. split; [reflexivity|].
  unfold count_scans, count_risk, count_recent, count_patients.
  rewrite E2, E3, E4.
  pose proof (filter_length_le
                (fun r => (risk_level r =? "high")%string) (scans db1)).
  pose proof (filter_length_le
                (fun r => String.leb (start_of_month env) (date r))
                (scans db1)).
  pose proof (nodup_length_le (map patient_name (scans db1))) as Hp.
  rewrite length_map in Hp.
  repeat split; try lia.
  destruct (scans db1) as [|h t] eqn:E; [left; reflexivity | right].
  pose proof (nodup_nonempty (map patient_name (h :: t))) as Hn.
  simpl map in Hn. assert (patient_name h :: map patient_name t <> [])
    by discriminate.
  specialize (Hn H1). simpl map. lia.
Qed.

(** X6 on the table holding scan 7, with no request in between. *)
Lemma X6_witness :
  exists total high recent patients : Z,
    get_stats_over noon (db one_scan) (db one_scan) (db one_scan)
      (db one_scan)
      = respond 200 (Statistics total high recent patients) /\
    0 <= high <= total /\ 0 <= recent <= total /\
    0 <= patients <= total /\ (total = 0 \/ 1 <= patients).
Proof.
  apply (proj1 (X6_stats_are_consistent noon (db one_scan) (db one_scan)
                  (db one_scan) (db one_scan)
                  (fun n => eq_refl) eq_refl eq_refl eq_refl)).
Defined.

Lemma nodup_snoc_length (l : list string) (v : string) :
  List.length (nodup string_dec (l ++ [v]))
  = (List.length (nodup string_dec l)
     + (if array_includes l v then 0 else 1))%nat.
Proof.
  induction l as [|h t IH]; simpl.
  - reflexivity.
  - unfold array_includes in *. simpl existsb.
    destruct (in_dec string_dec h (t ++ [v])) as [Hin | Hnin];
      destruct (in_dec string_dec h t) as [Hin' | Hnin'].
    + rewrite IH. destruct (String.eqb_spec v h) as [-> | Hne]; simpl.
      * assert (E : existsb (String.eqb h) t = true).
        { apply existsb_exists. exists h. split; [exact Hin'|].
          apply String.eqb_refl. }
        rewrite E. reflexivity.
      * reflexivity.
    + apply in_app_or in Hin. destruct Hin as [Hin | [<- | []]];
        [contradiction|].
      rewrite IH. rewrite String.eqb_refl. simpl.
      assert (E : existsb (String.eqb v) t = false).
      { destruct (existsb (String.eqb v) t) eqn:E'; [|reflexivity].
        apply existsb_exists in E'. destruct E' as [y [Hy Ey]].
        apply String.eqb_eq in Ey. subst y. contradiction. }
      rewrite E. simpl. lia.
    + exfalso. apply Hnin. apply in_or_app. left. exact Hin'.
    + simpl. rewrite IH.
      destruct (String.eqb_spec v h) as [-> | Hne]; simpl.
      * exfalso. apply Hnin. apply in_or_app. right. left. reflexivity.
      * reflexivity.
Qed.

(** X7: what an upload does to the statistics, read just before and
    just after it with no request in between and no error reported by
    the driver.  After an upload answered 201,
    totalScans is one more than before; highRiskCases is one more
    exactly when the assessed level is "high"; activePatients is one
    more exactly when no scan of the table had that patient name. *)
Theorem X7_upload_moves_the_statistics :
  forall (env env' : Env) (b : UploadBody) (part : option File) (st : State)
         (message : string) (lastID : Z) (ra : RiskAssessment)
         (scan : UploadedScan),
    fst (post_scans env b part st)
      = respond 201 (Uploaded message lastID ra scan) ->
    driver_ok env' ->
    exists total high recent patients recent' : Z,
      fst (get_stats env' st)
        = respond 200 (Statistics total high recent patients) /\
      fst (get_stats env' (snd (post_scans env b part st)))
        = respond 200
            (Statistics (total + 1)
               (high + (if (level ra =? "high")%string then 1 else 0))
               recent'
               (patients +
                (if array_includes (map patient_name (scans (db st)))
                      (u_patient_name scan)
                 then 0 else 1))).
Proof.
  intros env env' b part st message lastID ra scan E Hd'.
  destruct (post_scans_state env b part st)
    as [[[H | H] _] | [f [ra' [g' [Ef [_ [Hp [Ht [_ [[m [_ H]] | [_ [Er Es]]]]]]]]]]]];
    try (rewrite E in H; discriminate H).
  - rewrite H in E. discriminate E.
  - rewrite Er in E. injection E as _ _ Era Escan. subst ra' scan.
    rewrite Es. unfold get_stats, get_stats_over, getQuery. rewrite !Hd'.
    cbn [fst db].
    eexists _, _, _, _, _. split; [reflexivity|].
    unfold count_scans, count_risk, count_patients, insert_scan.
    cbn [fst scans risk_level patient_name u_patient_name].
    rewrite length_app, filter_app, length_app, map_app.
    cbn [map filter risk_level patient_name].
    rewrite nodup_snoc_length.
    f_equal. f_equal.
    + cbn [Datatypes.length]. lia.
    + destruct (level ra =? "high")%string; cbn [Datatypes.length]; lia.
    + destruct (array_includes _ _); lia.
Qed.

(** X7 at the example upload into an empty table: 0, 0, 0 become 1, 1, 1. *)
Lemma X7_witness :
  exists total high recent patients recent' : Z,
    fst (get_stats noon empty_server)
      = respond 200 (Statistics total high recent patients) /\
    fst (get_stats noon
           (snd (post_scans noon test_patient (Some brain_png) empty_server)))
      = respond 200
          (Statistics (total + 1)
             (high + (if ("high" =? "high")%string then 1 else 0))
             recent'
             (patients +
              (if array_includes (map patient_name (scans (db empty_server)))
                    "Test Patient"
               then 0 else 1))).
Proof.
  apply (X7_upload_moves_the_statistics noon noon test_patient
           (Some brain_png) empty_server "Scan uploaded successfully" 1
           (fst (getRiskAssessment (toISOString noon) "CT"
                   (Some brain_png) (rng empty_server)))
           {| u_id := 1; u_patient_name := "Test Patient";
              u_scan_type := "CT"; u_risk_level := "high";
              u_status := "completed"; u_date := toISOString noon |}).
  - vm_compute. reflexivity.
  - intros n. reflexivity.
Defined.

(** ** Deleting *)

Lemma filter_split_length {A} (p : A -> bool) (l : list A) :
  (List.length (filter p l) + List.length (filter (fun x => negb (p x)) l)
   = List.length l)%nat.
Proof.
  induction l as [|h t IH]; simpl; [reflexivity|].
  destruct (p h); simpl; lia.
Qed.

Lemma filter_all {A} (p : A -> bool) (l : list A) :
  filter p l = [] -> filter (fun x => negb (p x)) l = l.
Proof.
  induction l as [|h t IH]; simpl; [reflexivity|].
  destruct (p h); simpl; [discriminate|].
  intros H. rewrite (IH H). reflexivity.
Qed.

(** X8: when the database driver reports no error, DELETE /api/scans/:id
    answers 404 exactly when no row matches the id, and then leaves the
    state as it was.  Otherwise it answers 200 and removes the matching
    rows and nothing else: the rows left are the rows that did not
    match, the count of scans drops by the number of matching rows, the
    sequence of ids and the random generator are untouched, and a GET
    with the same id is answered 404 afterwards.  When the driver
    reports an error it answers 500 and leaves the state as it was. *)
Theorem X8_delete_removes_the_matching_rows :
  forall (id_matches : string -> Z -> bool) (env env' : Env) (param : string)
         (st : State),
    let r := fst (delete_scan_route id_matches env param st) in
    let st' := snd (delete_scan_route id_matches env param st) in
    (driver_error env 0%nat = None ->
     (matching id_matches param (scans (db st)) = [] /\
      r = respond 404 (Error "Scan not found") /\ st' = st) \/
     (matching id_matches param (scans (db st)) <> [] /\
      r = respond 200 (Message "Scan deleted successfully") /\
      (forall row, In row (scans (db st')) <->
                   In row (scans (db st)) /\ id_matches param (id row) = false) /\
      count_scans (db st')
        = count_scans (db st)
          - Z.of_nat (List.length (matching id_matches param (scans (db st)))) /\
      (driver_error env' 0%nat = None ->
       fst (get_scan id_matches env' param st')
         = respond 404 (Error "Scan not found")) /\
      scans_seq (db st') = scans_seq (db st) /\ rng st' = rng st)) /\
    (driver_error env 0%nat <> None ->
     r = respond 500 (Error "Failed to delete scan") /\ st' = st).
Proof.
  intros id_matches env env' param st. cbv zeta.
  unfold delete_scan_route, runQuery. split.
  2:{ intros Hd. destruct (driver_error env 0%nat);
        [split; reflexivity | congruence]. }
  intros ->. unfold delete_scan, matching.
  pose proof (filter_split_length (fun r => id_matches param (id r))
                (scans (db st))) as Hlen.
  destruct (filter (fun r => id_matches param (id r)) (scans (db st)))
    as [|m ms] eqn:Em.
  - left. split; [reflexivity|].
    rewrite (filter_all _ _ Em).
    rewrite Z.sub_diag. simpl.
    split; [reflexivity|].
    destruct st as [[sc sq an] g]. reflexivity.
  - right. split; [discriminate|].
    simpl in Hlen.
    match goal with
    | |- context [if ?c then _ else _] => destruct c eqn:Ec
    end.
    + apply Z.eqb_eq in Ec. lia.
    + simpl. split; [reflexivity|]. split; [|split; [|split]].
      * intros row. rewrite filter_In. rewrite negb_true_iff. reflexivity.
      * unfold count_scans. simpl. lia.
      * intros Hd'. unfold get_scan, getQuery, select_scan. rewrite Hd'. simpl.
        destruct (find _ _) as [x|] eqn:Ef; [|reflexivity].
        apply find_some in Ef. destruct Ef as [Hin Hx].
        apply filter_In in Hin. destruct Hin as [_ Hn].
        rewrite Hx in Hn. discriminate.
      * split; reflexivity.
Qed.

(** X8 on the table holding scan 7: deleting "8" is answered 404,
    deleting "7" is answered 200 and empties the table. *)
Lemma X8_witness :
  fst (delete_scan_route decimal_id noon "8" one_scan)
    = respond 404 (Error "Scan not found") /\
  snd (delete_scan_route decimal_id noon "8" one_scan) = one_scan /\
  fst (delete_scan_route decimal_id noon "7" one_scan)
    = respond 200 (Message "Scan deleted successfully") /\
  count_scans (db (snd (delete_scan_route decimal_id noon "7" one_scan))) = 0.
Proof.
  destruct (proj1 (X8_delete_removes_the_matching_rows decimal_id noon noon
                     "8" one_scan) eq_refl)
    as [[_ [H1 H2]] | [Hm _]].
  2:{ exfalso. apply Hm. reflexivity. }
  destruct (proj1 (X8_delete_removes_the_matching_rows decimal_id noon noon
                     "7" one_scan) eq_refl)
    as [[Hm _] | [_ [H3 [_ [H4 _]]]]].
  1:{ discriminate Hm. }
  repeat split; assumption.
Defined.

(** ** Updating the status *)

Lemma find_map_update (id_matches : string -> Z -> bool) (param v : string)
    (l : list ScanRow) :
  find (fun r => id_matches param (id r))
       (map (fun r => if id_matches param (id r) then with_status v r else r) l)
  = option_map (with_status v) (find (fun r => id_matches param (id r)) l).
Proof.
  induction l as [|h t IH]; simpl; [reflexivity|].
  destruct (id_matches param (id h)) eqn:E; simpl; rewrite E.
  - reflexivity.
  - exact IH.
Qed.

(** X9: a status that was set is read back.  After
    POST /api/scans/:id/status with one of the three statuses, the
    driver reporting no error, a GET with the same id answers 200 with
    the row it answered before, the status replaced and every other
    column as it was (or 404 as before); the rows that do not match the
    id, and the number of rows, are unchanged. *)
Theorem X9_status_is_read_back :
  forall (id_matches : string -> Z -> bool) (env env' : Env)
         (param s : string) (st : State),
    s = "pending" \/ s = "completed" \/ s = "failed" ->
    driver_error env 0%nat = None ->
    let st' :=
      snd (post_scan_status id_matches env param (Some (JString s)) st) in
    (forall row,
        fst (get_scan id_matches env' param st) = respond 200 (ScanRecord row) ->
        fst (get_scan id_matches env' param st')
          = respond 200
              (ScanRecord
                 {| id := id row; patient_name := patient_name row;
                    scan_type := scan_type row; risk_level := risk_level row;
                    status := s; date := date row;
                    uploaded_by := uploaded_by row; notes := notes row;
                    file_path := file_path row |})) /\
    (fst (get_scan id_matches env' param st)
       = respond 404 (Error "Scan not found") ->
     fst (get_scan id_matches env' param st')
       = respond 404 (Error "Scan not found")) /\
    (forall row, In row (scans (db st)) ->
                 id_matches param (id row) = false ->
                 In row (scans (db st'))) /\
    List.length (scans (db st')) = List.length (scans (db st)).
Proof.
  intros id_matches env env' param s st Hs Hd. cbv zeta.
  unfold post_scan_status.
  rewrite (ServerFacts.statuses_include_member s Hs).
  unfold runQuery. rewrite Hd. cbn [snd].
  unfold get_scan, getQuery, select_scan, update_status. cbn [db scans].
  rewrite find_map_update.
  split; [|split; [|split]].
  - intros row. destruct (driver_error env' 0%nat); [discriminate|].
    destruct (find _ (scans (db st))) as [x|]; simpl; [|discriminate].
    intros H. injection H as ->. reflexivity.
  - destruct (driver_error env' 0%nat); [discriminate|].
    destruct (find _ (scans (db st))) as [x|]; simpl; [discriminate|].
    reflexivity.
  - intros row Hin Hm. apply in_map_iff. exists row.
    rewrite Hm. auto.
  - apply length_map.
Qed.

(** X9 on the table holding scan 7 (status "pending"): after setting
    "failed" for id "7", the scan is read back with status "failed". *)
Lemma X9_witness :
  fst (get_scan decimal_id noon "7"
         (snd (post_scan_status decimal_id noon "7" (Some (JString "failed"))
                 one_scan)))
    = respond 200
        (ScanRecord
           {| id := 7; patient_name := "John Doe"; scan_type := "MRI";
              risk_level := "medium"; status := "failed";
              date := "2023-11-02 08:00:00"; uploaded_by := Some "Dr. Smith";
              notes := None; file_path := None |}).
Proof.
  apply (proj1 (X9_status_is_read_back decimal_id noon noon "7" "failed"
                  one_scan (or_intror (or_intror eq_refl)) eq_refl) scan_7).
  reflexivity.
Defined.

(** ** Ids *)

Lemma NoDup_snoc (l : list Z) (v : Z) :
  NoDup l -> ~ In v l -> NoDup (l ++ [v]).
Proof.
  intros Hl Hv. induction Hl as [|h t Hh Ht IH]; simpl.
  - constructor; [intros [] | constructor].
  - constructor.
    + intros Hin. apply in_app_or in Hin. destruct Hin as [Hin | [E | []]].
      * contradiction.
      * subst v. apply Hv. left. reflexivity.
    + apply IH. intros Hin. apply Hv. right. exact Hin.
Qed.

Lemma NoDup_map_filter (p : ScanRow -> bool) (l : list ScanRow) :
  NoDup (map id l) -> NoDup (map id (filter p l)).
Proof.
  induction l as [|h t IH]; simpl; intros H; [constructor|].
  inversion H as [|? ? Hh Ht]; subst.
  destruct (p h); simpl; [|exact (IH Ht)].
  constructor; [|exact (IH Ht)].
  intros Hin. apply Hh. apply in_map_iff in Hin.
  destruct Hin as [r [E Hr]]. apply filter_In in Hr.
  apply in_map_iff. exists r. tauto.
Qed.

(** What one request keeps: distinct ids, a sequence that covers the
    table and never goes down, and rows that were there before or have
    an id above the earlier sequence. *)
Lemma serve_keeps_ids (id_matches : string -> Z -> bool)
    (env : Env) (req : Request) (st : State) :
  NoDup (map id (scans (db st))) -> sequence_covers (db st) ->
  let st' := snd (serve id_matches env req st) in
  NoDup (map id (scans (db st'))) /\ sequence_covers (db st') /\
  scans_seq (db st) <= scans_seq (db st') /\
  (forall r, In r (scans (db st')) ->
             In (id r) (map id (scans (db st))) \/ scans_seq (db st) < id r).
Proof.
  intros H Hc. cbv zeta.
  assert (Hsame : NoDup (map id (scans (db st))) /\ sequence_covers (db st) /\
                  scans_seq (db st) <= scans_seq (db st) /\
                  (forall r, In r (scans (db st)) ->
                             In (id r) (map id (scans (db st))) \/
                             scans_seq (db st) < id r)).
  { repeat split; try assumption; [lia|].
    intros r Hr. left. apply in_map. exact Hr. }
  destruct req as [ | param | b part | | param v | param | b | param];
    cbn [serve]; try exact Hsame.
  - unfold get_scans, allQuery.
    destruct (driver_error env 0%nat); exact Hsame.
  - unfold get_scan, getQuery.
    destruct (driver_error env 0%nat); [exact Hsame|].
    destruct (select_scan id_matches (db st) param); exact Hsame.
  - destruct (post_scans_state env b part st)
      as [[_ E] | [f [ra [g' [_ [_ [_ [_ [_ [[m [_ E]] | [_ [_ E]]]]]]]]]]]];
      rewrite E; try exact Hsame.
    unfold insert_scan. cbn [fst db scans scans_seq id].
    pose proof (next_id_above_sequence (db st)) as Hseq.
    split; [|split; [|split]].
    + rewrite map_app. cbn [map id].
      apply NoDup_snoc; [exact H | apply next_id_fresh].
    + unfold sequence_covers. cbn [scans scans_seq].
      apply Forall_app. split.
      * apply Forall_forall. intros r Hr.
        pose proof (next_id_above (db st) r Hr). lia.
      * constructor; [cbn [id]; lia | constructor].
    + lia.
    + intros r Hr. apply in_app_or in Hr. destruct Hr as [Hr | [<- | []]].
      * left. apply in_map. exact Hr.
      * right. cbn [id]. exact Hseq.
  - unfold post_scan_status.
    destruct (statuses_include v) as [s|]; [|exact Hsame].
    unfold runQuery. destruct (driver_error env 0%nat); [exact Hsame|].
    unfold update_status. cbn [snd db scans scans_seq].
    assert (Eids : map id (map (fun r => if id_matches param (id r)
                                        then with_status s r else r)
                             (scans (db st)))
                   = map id (scans (db st))).
    { rewrite map_map. apply map_ext. intros r.
      destruct (id_matches param (id r)); reflexivity. }
    split; [|split; [|split]].
    + rewrite Eids. exact H.
    + unfold sequence_covers. cbn [scans scans_seq].
      apply Forall_forall. intros r Hr. apply in_map_iff in Hr.
      destruct Hr as [r0 [<- Hr0]].
      pose proof (proj1 (Forall_forall _ _) Hc r0 Hr0) as Hle.
      destruct (id_matches param (id r0)); exact Hle.
    + lia.
    + intros r Hr. left. rewrite <- Eids. apply in_map. exact Hr.
  - unfold delete_scan_route, runQuery.
    destruct (driver_error env 0%nat); [exact Hsame|].
    unfold delete_scan.
    match goal with |- context [if ?c then _ else _] => destruct c end;
      cbn [snd db scans scans_seq];
      (split; [apply NoDup_map_filter; exact H|];
       split; [unfold sequence_covers; cbn [scans scans_seq];
               apply Forall_forall; intros r Hr; apply filter_In in Hr;
               exact (proj1 (Forall_forall _ _) Hc r (proj1 Hr))|];
       split; [lia|];
       intros r Hr; apply filter_In in Hr; left; apply in_map;
       exact (proj1 Hr)).
Qed.

(** X10: ids stay distinct and are not given out twice.  If no two rows
    of the scans table share an id and the sequence of the table covers
    its ids, then after any run of requests this is still so, the
    sequence has not gone down, and every row of the table carries an id
    the table held at the start or an id above the sequence at the
    start: an upload takes an id above every id the table holds or ever
    held, a status update keeps the ids, a deletion only removes
    rows. *)
Theorem X10_ids_stay_distinct :
  forall (id_matches : string -> Z -> bool) (reqs : list (Env * Request))
         (st : State),
    NoDup (map id (scans (db st))) -> sequence_covers (db st) ->
    let st' := snd (serve_all id_matches reqs st) in
    NoDup (map id (scans (db st'))) /\ sequence_covers (db st') /\
    scans_seq (db st) <= scans_seq (db st') /\
    (forall r, In r (scans (db st')) ->
               In (id r) (map id (scans (db st))) \/ scans_seq (db st) < id r).
Proof.
  intros id_matches reqs. induction reqs as [|[env req] rest IH];
    intros st H Hc; cbv zeta; cbn [serve_all].
  - cbn [snd]. repeat split; try assumption; [lia|].
    intros r Hr. left. apply in_map. exact Hr.
  - destruct (serve_keeps_ids id_matches env req st H Hc)
      as [H' [Hc' [Hs' Hr']]].
    destruct (serve id_matches env req st) as [r st'] eqn:E.
    cbn [snd] in H', Hc', Hs', Hr'.
    destruct (IH st' H' Hc') as [H'' [Hc'' [Hs'' Hr'']]].
    destruct (serve_all id_matches rest st') as [rs st''].
    cbn [snd] in *.
    split; [exact H''|]. split; [exact Hc''|]. split; [lia|].
    intros x Hx. destruct (Hr'' x Hx) as [Hin | Hlt]; [|right; lia].
    apply in_map_iff in Hin. destruct Hin as [y [Ey Hy]].
    destruct (Hr' y Hy) as [Hin | Hlt]; [left | right].
    + rewrite <- Ey. exact Hin.
    + rewrite <- Ey. exact Hlt.
Qed.

(** X10 at a run of two uploads, a status update and a deletion on the
    table holding scan 7. *)
Lemma X10_witness :
  let st' :=
    snd (serve_all decimal_id
           [ (noon, POST_scans test_patient (Some brain_png));
             (noon, POST_scans test_patient (Some brain_png));
             (noon, POST_scans_id_status "8" (Some (JString "failed")));
             (noon, DELETE_scans_id "7") ] one_scan) in
  NoDup (map id (scans (db st'))) /\ sequence_covers (db st') /\
  scans_seq (db one_scan) <= scans_seq (db st') /\
  (forall r, In r (scans (db st')) ->
             In (id r) (map id (scans (db one_scan))) \/
             scans_seq (db one_scan) < id r).
Proof.
  apply (X10_ids_stay_distinct decimal_id _ one_scan).
  - simpl. constructor; [intros [] | constructor].
  - constructor; [simpl; lia | constructor].
Defined.

End ServerMoreFacts.

(* ================================================================= *)
(** * Further facts about the risk-assessment generator *)

Module ScanControllerMoreFacts.

Import Js ScanController ScanControllerRest Examples.
Local Open Scope string_scope.

Ltac run_rand := unfold bind, ret, Math_random; simpl.

(** Settles the three equivalences once the level is a literal. *)
Ltac settle := intuition (try discriminate; try congruence).

(** X11: the level in terms of the draws.  The level is "high" exactly
    for scan type "CT" with a cranial file name and a first draw above
    0.6; "medium" exactly for such a CT scan with a first draw of at
    most 0.6 and a second draw above 0.4, or for scan type "MRI" with a
    first draw above 0.7; and "low" in every other case. *)
Theorem X11_level_by_draws :
  forall (isoNow scanType : string) (file : option File) (g : Rng),
    let lv := level (fst (getRiskAssessment isoNow scanType file g)) in
    let cranial := cranial_name (fileName_of file) in
    let d0 := draw_value (g 0%nat) in
    let d1 := draw_value (g 1%nat) in
    let is_high :=
      scanType = "CT" /\ cranial = true /\ (0.6 <? d0)%float = true in
    let is_medium :=
      (scanType = "CT" /\ cranial = true /\ (0.6 <? d0)%float = false /\
       (0.4 <? d1)%float = true) \/
      (scanType = "MRI" /\ (0.7 <? d0)%float = true) in
    (lv = "high" <-> is_high) /\
    (lv = "medium" <-> is_medium) /\
    (lv = "low" <-> ~ is_high /\ ~ is_medium).
Proof.
  intros isoNow scanType file g. cbv zeta.
  rewrite ScanControllerFacts.assessment_level,
    ScanControllerFacts.analysis_level.
  unfold by_scan_type.
  destruct (scanType =? "CT") eqn:Ect.
  - apply String.eqb_eq in Ect. subst scanType.
    destruct (cranial_name (fileName_of file)) eqn:Ecr; run_rand.
    + destruct (0.6 <? draw_value (g 0%nat))%float eqn:E0;
        [|destruct (0.4 <? draw_value (g 1%nat))%float eqn:E1];
        destruct (fileSize_of file >? 10485760)%Z; simpl; settle.
    + destruct (fileSize_of file >? 10485760)%Z; simpl; settle.
  - apply String.eqb_neq in Ect.
    destruct (scanType =? "MRI") eqn:Emri.
    + apply String.eqb_eq in Emri. subst scanType. run_rand.
      destruct (0.7 <? draw_value (g 0%nat))%float eqn:E0; simpl; settle.
    + apply String.eqb_neq in Emri.
      destruct (scanType =? "X-Ray"); simpl; settle.
Qed.

(** X11 at the CT upload named "Brain_study.PNG" with a first draw of 0.9. *)
Lemma X11_witness :
  level (fst (getRiskAssessment "now" "CT" (Some brain_png) rng_high)) = "high".
Proof.
  apply (proj1 (X11_level_by_draws "now" "CT" (Some brain_png) rng_high)).
  repeat split.
Defined.

(** ** The factors *)

Lemma factor_eqb_eq (a b : Factor) : factor_eqb a b = true <-> a = b.
Proof.
  destruct a as [x|], b as [y|]; simpl; split; intros H;
    try discriminate; try reflexivity.
  - apply String.eqb_eq in H. congruence.
  - injection H as ->. apply String.eqb_refl.
Qed.

Lemma array_get_In (a : list string) (i : Z) (v : string) :
  array_get a i = Some v -> In v a.
Proof.
  unfold array_get. destruct (i <? 0)%Z; [discriminate|].
  apply nth_error_In.
Qed.

(** One turn of the loop appends nothing or one factor that was not
    there: an entry of [additionalFactors], or [undefined]. *)
Lemma add_random_factor_grows (l : Locals) (g : Rng) :
  exists extra : list Factor,
    riskFactors (fst (add_random_factor l g)) = (riskFactors l ++ extra)%list /\
    Forall (fun f => f = None \/
                     exists v, In v additionalFactors /\ f = Some v) extra /\
    (NoDup (riskFactors l) -> NoDup (riskFactors l ++ extra)).
Proof.
  unfold add_random_factor. run_rand.
  set (factor := array_get additionalFactors _).
  destruct (existsb (factor_eqb factor) (riskFactors l)) eqn:E; simpl.
  - exists []. rewrite app_nil_r. repeat split; auto.
  - exists [factor]. split; [reflexivity|]. split.
    + constructor; [|constructor].
      destruct factor as [v|] eqn:Ef; [right | left; reflexivity].
      exists v. split; [|reflexivity].
      apply (array_get_In _ _ _ Ef).
    + intros Hnd. apply NoDup_rev in Hnd.
      rewrite <- (rev_involutive (riskFactors l ++ [factor])).
      apply NoDup_rev. rewrite rev_app_distr. simpl.
      constructor; [|exact Hnd].
      intros Hin. apply in_rev in Hin.
      assert (existsb (factor_eqb factor) (riskFactors l) = true) as E'.
      { apply existsb_exists. exists factor. split; [exact Hin|].
        apply factor_eqb_eq. reflexivity. }
      rewrite E in E'. discriminate.
Qed.

Lemma add_random_factors_grow (n : nat) :
  forall (l : Locals) (g : Rng),
  exists extra : list Factor,
    riskFactors (fst (add_random_factors n l g)) = (riskFactors l ++ extra)%list /\
    Forall (fun f => f = None \/
                     exists v, In v additionalFactors /\ f = Some v) extra /\
    (NoDup (riskFactors l) -> NoDup (riskFactors l ++ extra)).
Proof.
  induction n as [|n IH]; intros l g; simpl.
  - exists []. rewrite app_nil_r. repeat split; auto.
  - unfold bind.
    destruct (add_random_factor_grows l g) as [e1 [E1 [F1 N1]]].
    destruct (add_random_factor l g) as [l' g']. simpl in E1.
    destruct (IH l' g') as [e2 [E2 [F2 N2]]].
    exists (e1 ++ e2)%list.
    split; [rewrite E2, E1, app_assoc; reflexivity|]. split.
    + apply Forall_app. split; assumption.
    + intros Hnd. rewrite app_assoc, <- E1. apply N2.
      rewrite E1. apply N1. exact Hnd.
Qed.

Lemma assessment_factors (isoNow scanType : string) (file : option File)
    (g : Rng) :
  factors (fst (getRiskAssessment isoNow scanType file g)) =
  riskFactors (fst (analysis scanType file g)).
Proof.
  unfold getRiskAssessment, bind.
  destruct (analysis scanType file g) as [l g1]. simpl.
  destruct (assessment_text (riskLevel l)) as [d rs].
  destruct (Math_random g1) as [r g2]. reflexivity.
Qed.

(** The factors are those of the scan-type chain and of the small-file
    test, followed by the random ones. *)
Lemma analysis_factors (scanType : string) (file : option File) (g : Rng) :
  exists extra : list Factor,
    riskFactors (fst (analysis scanType file g))
    = (riskFactors
         (small_file (fileSize_of file)
            (fst (by_scan_type scanType (fileSize_of file) (fileName_of file)
                    initial_locals g))) ++ extra)%list /\
    Forall (fun f => f = None \/
                     exists v, In v additionalFactors /\ f = Some v) extra /\
    (NoDup (riskFactors
              (small_file (fileSize_of file)
                 (fst (by_scan_type scanType (fileSize_of file)
                         (fileName_of file) initial_locals g)))) ->
     NoDup (riskFactors (fst (analysis scanType file g)))).
Proof.
  unfold analysis, bind.
  destruct (by_scan_type _ _ _ _ g) as [l g1]. cbn [fst].
  destruct (Math_random g1) as [r g2].
  match goal with
  | |- context [add_random_factors ?n ?l0 ?g0] =>
      destruct (add_random_factors_grow n l0 g0) as [e [E [F N]]]
  end.
  exists e. rewrite E. repeat split; auto.
Qed.

(** What the two deterministic steps leave: distinct factors, with the
    vessel findings present exactly at the matching level. *)
Lemma fixed_factors (scanType : string) (fileSize : Z) (fileName : string)
    (g : Rng) :
  let l := fst (by_scan_type scanType fileSize fileName initial_locals g) in
  let fs := riskFactors (small_file fileSize l) in
  NoDup fs /\
  (In (Some "Critical vessel proximity detected") fs <-> riskLevel l = "high") /\
  (In (Some "Tumor within 2mm of major blood vessel") fs
   <-> riskLevel l = "high") /\
  (In (Some "Moderate vessel proximity") fs \/
   In (Some "Tissue density variations detected") fs
   <-> riskLevel l = "medium") /\
  (riskLevel l = "high" -> In (Some "Cranial region detected") fs).
Proof.
  cbv zeta. unfold small_file, by_scan_type.
  destruct (scanType =? "CT"); [|destruct (scanType =? "MRI");
                                  [|destruct (scanType =? "X-Ray")]];
    run_rand;
    repeat match goal with
    | |- context [if ?b then _ else _] => destruct b; simpl
    end;
    (split; [repeat constructor; simpl; intuition discriminate | settle]).
Qed.

Lemma not_additional (v : string) (extra : list Factor) :
  ~ In v additionalFactors ->
  Forall (fun f => f = None \/
                   exists w, In w additionalFactors /\ f = Some w) extra ->
  ~ In (Some v) extra.
Proof.
  intros Hv F Hin.
  apply (proj1 (Forall_forall _ _) F) in Hin.
  destruct Hin as [Hin | [w [Hw E]]]; [discriminate|].
  injection E as ->. contradiction.
Qed.

(** X12: the listed factors tell the level.  "Critical vessel proximity
    detected" and "Tumor within 2mm of major blood vessel" are among the
    factors exactly when the level is "high" (and then "Cranial region
    detected" is too); "Moderate vessel proximity" or "Tissue density
    variations detected" is among them exactly when it is "medium". *)
Theorem X12_factors_tell_the_level :
  forall (isoNow scanType : string) (file : option File) (g : Rng),
    let r := fst (getRiskAssessment isoNow scanType file g) in
    (In (Some "Critical vessel proximity detected") (factors r)
     <-> level r = "high") /\
    (In (Some "Tumor within 2mm of major blood vessel") (factors r)
     <-> level r = "high") /\
    (In (Some "Moderate vessel proximity") (factors r) \/
     In (Some "Tissue density variations detected") (factors r)
     <-> level r = "medium") /\
    (level r = "high" -> In (Some "Cranial region detected") (factors r)).
Proof.
  intros isoNow scanType file g. cbv zeta.
  rewrite assessment_factors, ScanControllerFacts.assessment_level,
    ScanControllerFacts.analysis_level.
  destruct (analysis_factors scanType file g) as [extra [E [F _]]].
  rewrite E.
  destruct (fixed_factors scanType (fileSize_of file) (fileName_of file) g)
    as [_ [H1 [H2 [H3 H4]]]].
  assert (N : forall v, ~ In v additionalFactors -> ~ In (Some v) extra).
  { intros v Hv. apply not_additional; assumption. }
  assert (A1 : ~ In "Critical vessel proximity detected" additionalFactors)
    by (simpl; intuition discriminate).
  assert (A2 : ~ In "Tumor within 2mm of major blood vessel" additionalFactors)
    by (simpl; intuition discriminate).
  assert (A3 : ~ In "Moderate vessel proximity" additionalFactors)
    by (simpl; intuition discriminate).
  assert (A4 : ~ In "Tissue density variations detected" additionalFactors)
    by (simpl; intuition discriminate).
  apply N in A1, A2, A3, A4.
  rewrite !in_app_iff.
  repeat split; tauto.
Qed.

(** X12 at the CT upload named "Brain_study.PNG" with a first draw of 0.9. *)
Lemma X12_witness :
  In (Some "Cranial region detected")
     (factors (fst (getRiskAssessment "now" "CT" (Some brain_png) rng_high))).
Proof.
  apply (proj2 (proj2 (proj2
           (X12_factors_tell_the_level "now" "CT" (Some brain_png) rng_high)))).
  vm_compute. reflexivity.
Defined.

(** X13: no factor is listed twice in an assessment, whatever the scan
    type, the file and the draws: the random additional factors are
    only added when not yet present. *)
Theorem X13_factors_are_distinct :
  forall (isoNow scanType : string) (file : option File) (g : Rng),
    NoDup (factors (fst (getRiskAssessment isoNow scanType file g))).
Proof.
  intros isoNow scanType file g. rewrite assessment_factors.
  destruct (analysis_factors scanType file g) as [extra [_ [_ N]]].
  apply N.
  apply (fixed_factors scanType (fileSize_of file) (fileName_of file) g).
Qed.

(** ** Details and recommendations *)

Lemma assessment_texts (isoNow scanType : string) (file : option File)
    (g : Rng) :
  let r := fst (getRiskAssessment isoNow scanType file g) in
  (details r, recommendations r) = assessment_text (level r).
Proof.
  unfold getRiskAssessment, bind.
  destruct (analysis scanType file g) as [l g1]. simpl.
  destruct (assessment_text (riskLevel l)) as [d rs] eqn:E.
  destruct (Math_random g1) as [r g2]. simpl. symmetry. exact E.
Qed.

(** X14: details and recommendations follow the level.  Two assessments
    of the same level, of whatever scans, carry the same details and the
    same recommendations; the details are never empty, and there are
    four recommendations at level "high" and three otherwise. *)
Theorem X14_text_follows_the_level :
  forall (isoNow1 scanType1 : string) (file1 : option File) (g1 : Rng)
         (isoNow2 scanType2 : string) (file2 : option File) (g2 : Rng),
    let r1 := fst (getRiskAssessment isoNow1 scanType1 file1 g1) in
    let r2 := fst (getRiskAssessment isoNow2 scanType2 file2 g2) in
    (level r1 = level r2 ->
     details r1 = details r2 /\ recommendations r1 = recommendations r2) /\
    details r1 <> "" /\
    List.length (recommendations r1)
      = if (level r1 =? "high")%string then 4%nat else 3%nat.
Proof.
  intros isoNow1 scanType1 file1 g1 isoNow2 scanType2 file2 g2. cbv zeta.
  pose proof (assessment_texts isoNow1 scanType1 file1 g1) as T1.
  pose proof (assessment_texts isoNow2 scanType2 file2 g2) as T2.
  cbv zeta in T1, T2.
  split; [|split].
  - intros E. rewrite E in T1. rewrite <- T2 in T1.
    injection T1 as -> ->. split; reflexivity.
  - destruct (ScanControllerFacts.level_is_enumerated
                isoNow1 scanType1 file1 g1) as [L | [L | L]];
      rewrite L in T1; injection T1 as -> _; discriminate.
  - destruct (ScanControllerFacts.level_is_enumerated
                isoNow1 scanType1 file1 g1) as [L | [L | L]];
      rewrite L in T1 |- *; injection T1 as _ ->; reflexivity.
Qed.

(** X14 at two X-Ray assessments, of an upload and of no file. *)
Lemma X14_witness :
  details (fst (getRiskAssessment "a" "X-Ray" (Some brain_png) rng_high))
    = details (fst (getRiskAssessment "b" "X-Ray" None (rng_of_list []))) /\
  recommendations (fst (getRiskAssessment "a" "X-Ray" (Some brain_png) rng_high))
    = recommendations (fst (getRiskAssessment "b" "X-Ray" None (rng_of_list []))).
Proof.
  apply (proj1 (X14_text_follows_the_level
                  "a" "X-Ray" (Some brain_png) rng_high
                  "b" "X-Ray" None (rng_of_list []))).
  vm_compute. reflexivity.
Defined.

(** ** The batch *)

Lemma obj_get_set {V} (o : Obj V) (k k' : string) (v : V) :
  obj_get (obj_set o k v) k' =
  if String.eqb k k' then Some v else obj_get o k'.
Proof.
  induction o as [|[k0 v0] rest IH]; simpl.
  - reflexivity.
  - destruct (String.eqb_spec k0 k) as [-> | Hne]; simpl.
    + destruct (k =? k'); reflexivity.
    + rewrite IH. destruct (String.eqb_spec k k') as [<- | Hne'].
      * apply String.eqb_neq in Hne. rewrite Hne. reflexivity.
      * reflexivity.
Qed.

Lemma obj_set_keys {V} (o : Obj V) (k : string) (v : V) :
  NoDup (map fst o) ->
  NoDup (map fst (obj_set o k v)) /\
  (List.length (obj_set o k v) <= S (List.length o))%nat /\
  (forall k', In k' (map fst (obj_set o k v)) -> k' = k \/ In k' (map fst o)).
Proof.
  induction o as [|[k0 v0] rest IH]; simpl; intros Hnd.
  - split; [constructor; [intros [] | constructor]|].
    split; [lia|]. intros k' [<- | []]. left. reflexivity.
  - inversion Hnd as [|? ? Hk0 Hrest]; subst.
    destruct (String.eqb_spec k0 k) as [-> | Hne]; simpl.
    + split; [exact Hnd|]. split; [lia|]. intros k' H. right. exact H.
    + destruct (IH Hrest) as [N [L K]].
      split; [|split; [lia|]].
      * constructor; [|exact N].
        intros Hin. apply K in Hin. destruct Hin as [E | Hin];
          [congruence | contradiction].
      * intros k' [<- | Hin]; [right; left; reflexivity|].
        apply K in Hin. tauto.
Qed.

Lemma collect_spec (clock : nat -> string) (scanIds : list string) :
  forall (n : nat) (acc : Results),
    NoDup (map fst (own acc)) ->
    let o := collect clock n scanIds acc in
    NoDup (map fst (own o)) /\
    (List.length (own o) <= List.length (own acc) + List.length scanIds)%nat /\
    (forall k, (exists a, obj_get (own o) k = Some a) <->
               (In k scanIds /\ k <> "__proto__") \/
               exists a, obj_get (own acc) k = Some a) /\
    (forall k a, obj_get (own o) k = Some a ->
                 obj_get (own acc) k = Some a \/
                 exists m, a = getRiskAssessmentById (clock m) k) /\
    (In "__proto__" scanIds ->
     exists m, proto o = Some (getRiskAssessmentById (clock m) "__proto__")) /\
    (~ In "__proto__" scanIds -> proto o = proto acc).
Proof.
  induction scanIds as [|scanId rest IH]; intros n acc Hnd; cbv zeta;
    cbn [collect].
  - split; [exact Hnd|]. split; [lia|]. split; [|split; [|split]].
    + intros k. split; [auto | intros [[[] _] | H]; exact H].
    + intros k a H. left. exact H.
    + intros [].
    + reflexivity.
  - unfold assign.
    destruct (String.eqb_spec scanId "__proto__") as [-> | Hne].
    + destruct (IH (S n) {| own := own acc;
                            proto := Some (getRiskAssessmentById (clock n)
                                             "__proto__") |} Hnd)
        as [N' [L' [K' [A' [P' Q']]]]].
      cbn [own proto] in *.
      split; [exact N'|]. split; [cbn [Datatypes.length]; lia|].
      split; [|split; [|split]].
      * intros k. rewrite K'. cbn [In].
        split; [intros [[H1 H2] | H]; auto|].
        intros [[[E | H1] H2] | H]; auto. congruence.
      * exact A'.
      * intros _. destruct (in_dec string_dec "__proto__" rest) as [Hin | Hnin].
        -- exact (P' Hin).
        -- exists n. exact (Q' Hnin).
      * intros Hnin. exfalso. apply Hnin. left. reflexivity.
    + destruct (obj_set_keys (own acc) scanId
                  (getRiskAssessmentById (clock n) scanId) Hnd) as [N [L _]].
      destruct (IH (S n) {| own := obj_set (own acc) scanId
                                     (getRiskAssessmentById (clock n) scanId);
                            proto := proto acc |} N)
        as [N' [L' [K' [A' [P' Q']]]]].
      cbn [own proto] in *.
      split; [exact N'|]. split; [cbn [Datatypes.length]; lia|].
      split; [|split; [|split]].
      * intros k. rewrite K'. rewrite obj_get_set. cbn [In].
        destruct (String.eqb_spec scanId k) as [<- | Hne'].
        -- split; [auto | intros _; right; eexists; reflexivity].
        -- split; [intros [[H1 H2] | H]; auto|].
           intros [[[E | H1] H2] | H]; auto. contradiction.
      * intros k a H. apply A' in H. rewrite obj_get_set in H.
        destruct H as [H | H]; [|right; exact H].
        destruct (String.eqb_spec scanId k) as [<- | Hne'].
        -- injection H as <-. right. exists n. reflexivity.
        -- left. exact H.
      * intros [E | Hin]; [contradiction | exact (P' Hin)].
      * intros Hnin. apply Q'. intros Hin. apply Hnin. right. exact Hin.
Qed.

(** X15: the batch answers for every id it is given and consults
    nothing.  [results] has an own entry exactly for the requested ids
    other than "__proto__", one per distinct id; an id "__proto__"
    instead makes its assessment the prototype of [results], which has
    one exactly then; every entry, and that prototype, carries level
    "medium" and confidence 88, whatever the id; [processedCount] is the
    number of ids given, whatever they are and repeated ids included,
    so it can exceed the number of entries. *)
Theorem X15_batch_answers_every_id_alike :
  forall (clock : nat -> string) (scanIds : list string),
    let b := getBatchRiskAssessments clock scanIds in
    processedCount b = Z.of_nat (List.length scanIds) /\
    (forall scanId, In scanId scanIds /\ scanId <> "__proto__" <->
                    exists a, obj_get (own (results b)) scanId = Some a) /\
    (In "__proto__" scanIds <-> proto (results b) <> None) /\
    (forall scanId a,
        obj_get (own (results b)) scanId = Some a \/
        proto (results b) = Some a ->
        stored_level a = "medium" /\ stored_confidence a = 88%Z) /\
    NoDup (map fst (own (results b))) /\
    (List.length (own (results b)) <= List.length scanIds)%nat.
Proof.
  intros clock scanIds. cbv zeta. unfold getBatchRiskAssessments.
  cbn [results processedCount].
  destruct (collect_spec clock scanIds 0 {| own := []; proto := None |}
              (NoDup_nil _))
    as [N [L [K [A [P Q]]]]].
  cbn [own proto] in *.
  split; [reflexivity|]. split; [|split; [|split; [|split]]].
  - intros scanId. rewrite K. cbn [obj_get]. split; [auto|].
    intros [H | [a H]]; [exact H | discriminate].
  - split.
    + intros Hin. destruct (P Hin) as [m ->]. discriminate.
    + intros Hp. destruct (in_dec string_dec "__proto__" scanIds) as [Hin | Hnin];
        [exact Hin|].
      rewrite (Q Hnin) in Hp. contradiction.
  - intros scanId a [H | H].
    + apply A in H. destruct H as [H | [m ->]]; [discriminate|].
      split; reflexivity.
    + destruct (in_dec string_dec "__proto__" scanIds) as [Hin | Hnin].
      * destruct (P Hin) as [m E]. rewrite E in H. injection H as <-.
        split; reflexivity.
      * rewrite (Q Hnin) in H. discriminate.
  - exact N.
  - exact L.
Qed.

(** X15 at a batch that names scan "7" twice and scan "9" once. *)
Lemma X15_witness :
  exists a,
    obj_get (own (results (getBatchRiskAssessments (fun _ => "now")
                             ["7"; "9"; "7"])))
      "9" = Some a.
Proof.
  apply (proj1 (proj1 (proj2
           (X15_batch_answers_every_id_alike (fun _ => "now")
              ["7"; "9"; "7"])) "9")).
  split; [simpl; auto | discriminate].
Defined.

End ScanControllerMoreFacts.

(* ================================================================= *)
(** * Facts about the upload page *)

Module UploadPageFacts.

Import Js ScanController Server UploadPage Examples.
Local Open Scope string_scope.
Local Open Scope Z_scope.

(** The page's list of types is the server's, also for a file without a
    type, which travels as application/octet-stream. *)
Lemma types_agree (f : BrowserFile) :
  array_includes allowedTypes (mimetype (file_part f))
  = array_includes validTypes (type f).
Proof.
  unfold file_part. simpl mimetype.
  destruct (String.eqb_spec (type f) "") as [E | _]; [|reflexivity].
  rewrite E. reflexivity.
Qed.

Lemma filter_agrees (f : BrowserFile) :
  fileFilter (file_part f) = None <->
  negb (array_includes validTypes (type f)) &&
  negb (endsWith (toLowerCase (name f)) ".dcm") = false.
Proof.
  unfold fileFilter. rewrite types_agree. simpl originalname.
  destruct (array_includes validTypes (type f));
    destruct (endsWith (toLowerCase (name f)) ".dcm"); simpl;
    split; intros H; try reflexivity; discriminate.
Qed.

Lemma plain_name_nonempty (n : string) : plain_name n = true -> n <> "".
Proof. destruct n; [discriminate | discriminate]. Qed.

(** X16: the page and the server judge a file alike, except at exactly
    50MB.  For a file with a plain name, choosing it raises no alert,
    and makes it the page's file, exactly when the server's middleware
    hands the part sent for it to the route, or the filter lets it
    through and its size is exactly the limit of 50MB: such a file the
    page accepts and the middleware refuses as too large.  A file that
    raises an alert leaves the page as it was. *)
Theorem X16_page_and_server_agree_on_files :
  forall (f : BrowserFile) (p : Page),
    plain_name (name f) = true ->
    (snd (handleFileChange (Some f) p) = None <->
     upload_file "scan" (Some (file_part f)) = Next (Some (file_part f)) \/
     (fileFilter (file_part f) = None /\ size f = fileSize_limit)) /\
    (fileFilter (file_part f) = None -> size f = fileSize_limit ->
     snd (handleFileChange (Some f) p) = None /\
     upload_file "scan" (Some (file_part f))
       = NextMulterError "LIMIT_FILE_SIZE" "File too large") /\
    (snd (handleFileChange (Some f) p) = None ->
     file (fst (handleFileChange (Some f) p)) = Some f) /\
    (snd (handleFileChange (Some f) p) <> None ->
     fst (handleFileChange (Some f) p) = p).
Proof.
  intros f p Hplain. apply plain_name_nonempty in Hplain.
  pose proof (filter_agrees f) as Hf.
  pose proof (ServerFacts.upload_file_next (Some (file_part f)) (file_part f))
    as Hnext.
  cbn [originalname fieldname ScanController.size file_part] in Hnext.
  unfold handleFileChange.
  destruct (negb (array_includes validTypes (type f)) &&
            negb (endsWith (toLowerCase (name f)) ".dcm")) eqn:E; simpl.
  - assert (Hno : fileFilter (file_part f) <> None).
    { intros H. apply Hf in H. discriminate. }
    split; [|split; [|split]]; try (intros; reflexivity); try discriminate.
    + split; [discriminate|]. intros [H | [H _]]; [|contradiction].
      apply Hnext in H. tauto.
    + intros H. contradiction.
  - assert (Hyes : fileFilter (file_part f) = None) by (apply Hf; reflexivity).
    destruct (Z.gtb_spec (size f) 52428800) as [Hs | Hs]; simpl.
    + split; [|split; [|split]]; try (intros; reflexivity); try discriminate.
      * split; [discriminate|]. unfold fileSize_limit.
        intros [H | [_ H]]; [|lia].
        apply Hnext in H. unfold fileSize_limit in H. lia.
      * unfold fileSize_limit. intros _ H. lia.
    + split; [|split; [|split]]; try (intros; reflexivity).
      * split; [|reflexivity]. intros _.
        destruct (Z.eq_dec (size f) fileSize_limit) as [Heq | Hne];
          [right; split; assumption|].
        left. apply Hnext. unfold fileSize_limit in *.
        repeat split; try assumption; try reflexivity. lia.
      * intros _ Heq. split; [reflexivity|].
        unfold upload_file. cbn [originalname fieldname file_part].
        apply String.eqb_neq in Hplain. rewrite Hplain.
        rewrite Hyes, Heq, Z.leb_refl. reflexivity.
      * intros H. contradiction.
Qed.

(** X16 at a DICOM file without a type, named in capitals. *)
Lemma X16_witness :
  file (fst (handleFileChange
               (Some {| name := "HEAD.DCM"; type := ""; size := 4096 |})
               initial))
    = Some {| name := "HEAD.DCM"; type := ""; size := 4096 |}.
Proof.
  apply (proj1 (proj2 (proj2 (X16_page_and_server_agree_on_files
                         {| name := "HEAD.DCM"; type := ""; size := 4096 |}
                         initial eq_refl)))).
  apply (proj2 (proj1 (X16_page_and_server_agree_on_files
                         {| name := "HEAD.DCM"; type := ""; size := 4096 |}
                         initial eq_refl))).
  left. reflexivity.
Defined.

(** What holds of every page the user can bring about. *)
Lemma reachable_page_is_valid (p : Page) :
  reachable p ->
  (forall f, file p = Some f ->
             fileFilter (file_part f) = None /\ size f <= fileSize_limit) /\
  In (scanType p) scanType_options.
Proof.
  induction 1 as [ | p selected _ IH | p v _ IH Hv | p v _ IH Hv
                   | p env net st _ IH ].
  - split; [discriminate | left; reflexivity].
  - destruct selected as [f0|]; [|exact IH].
    unfold handleFileChange. pose proof (filter_agrees f0) as Hf.
    destruct (negb (array_includes validTypes (type f0)) &&
              negb (endsWith (toLowerCase (name f0)) ".dcm"));
      [exact IH|].
    destruct (Z.gtb_spec (size f0) (50 * 1024 * 1024)) as [Hs | Hs];
      [exact IH|].
    cbn [fst file scanType]. split; [|apply IH].
    intros f E. injection E as <-. split; [apply Hf; reflexivity|].
    unfold fileSize_limit. lia.
  - exact IH.
  - split; [apply IH | exact Hv].
  - unfold handleUpload.
    destruct (file p) as [f|] eqn:Ef; [|simpl; rewrite Ef; exact IH].
    destruct (MedicalSliceViewer.trim (patientName p) =? "")%string;
      [simpl; rewrite Ef; exact IH|].
    destruct net.
    + destruct (post_scans env _ _ st) as [response st'].
      destruct (response_ok response); simpl.
      * split; [discriminate | left; reflexivity].
      * rewrite Ef. exact IH.
    + simpl. rewrite Ef. exact IH.
Qed.

(** The server stores an upload whose named file passes filter and
    limit and whose two fields are not empty and fit, when the driver
    reports no error. *)
Lemma accepted_upload_is_stored (env : Env) (b : UploadBody) (f : File)
    (st : State) :
  fieldname f = "scan" -> originalname f <> "" -> fileFilter f = None ->
  ScanController.size f < fileSize_limit ->
  truthy (Server.patientName b) = true -> truthy (Server.scanType b) = true ->
  field_fits (Server.patientName b) = true ->
  field_fits (Server.scanType b) = true ->
  driver_error env 0%nat = None ->
  exists ra g',
    post_scans env b (Some f) st
    = (respond 201
         (Uploaded "Scan uploaded successfully" (next_id (db st)) ra
            {| u_id := next_id (db st);
               u_patient_name := field_value (Server.patientName b);
               u_scan_type := field_value (Server.scanType b);
               u_risk_level := level ra; u_status := "completed";
               u_date := toISOString env |}),
       {| db := fst (insert_scan env (db st)
                       (field_value (Server.patientName b))
                       (field_value (Server.scanType b)) (level ra)
                       "completed"
                       ("uploads/" ++ string_of_Z (Date_now env) ++ "_"
                        ++ originalname f)
                       (details ra));
          rng := g' |}) /\
    (level ra = "low" \/ level ra = "medium" \/ level ra = "high").
Proof.
  intros Hfield Hname Hfilter Hsize Hp Ht Hfp Hft Hd.
  unfold post_scans.
  assert (Eup : upload_single "scan" b (Some f) = Next (Some f)).
  { apply ServerFacts.upload_single_next. split; [|split; assumption].
    apply ServerFacts.upload_file_next. repeat split; assumption. }
  rewrite Eup.
  destruct (ServerMoreFacts.post_scans_handler_outcome env b (Some f) st)
    as [[m [_ [H | [H | H]]]]
       | [f' [ra [g' [Ef [_ [_ [Era [[m [H _]] | [_ E]]]]]]]]]];
    try congruence.
  injection Ef as <-. exists ra, g'. split; [exact E|].
  pose proof (ScanControllerFacts.level_is_enumerated (toISOString env)
                (field_value (Server.scanType b)) (Some f) (rng st)) as L.
  simpl in L. rewrite Era in L. exact L.
Qed.

Lemma options_fit (v : string) :
  In v scanType_options -> field_fits (Some v) = true.
Proof.
  intros H. simpl in H.
  destruct H as [<- | [<- | [<- | [<- | [<- | []]]]]]; reflexivity.
Qed.

(** X17: the page's checks are enough for the server.  On a page the
    user can bring about, submitting with no file or a blank patient
    name sends nothing (an alert, page and server unchanged); otherwise,
    the file having a plain name and not being exactly 50MB, the trimmed
    patient name being under 1MB, the server being reached, serving no
    other request in between, and its database driver reporting no
    error, the upload is stored: the result
    shows success with the returned id and assessment, the form is
    reset, and the scans table has one more row with the trimmed patient
    name, the chosen scan type, the assessed level and the uploader
    'Dr. Smith'. *)
Theorem X17_page_uploads_are_stored :
  forall (p : Page) (env : Env) (st : State),
    reachable p ->
    let p' := fst (fst (handleUpload env Online p st)) in
    let st' := snd (fst (handleUpload env Online p st)) in
    (file p = None \/ MedicalSliceViewer.trim (patientName p) = "" ->
     handleUpload env Online p st
       = (p, st, Some "Please select a file and enter patient name")) /\
    (forall f,
        file p = Some f -> plain_name (name f) = true ->
        size f <> fileSize_limit ->
        MedicalSliceViewer.trim (patientName p) <> "" ->
        Z.of_nat (String.length (MedicalSliceViewer.trim (patientName p)))
          < fieldSize_limit ->
        driver_error env 0%nat = None ->
        exists (lastID : Z) (ra : RiskAssessment) (row : ScanRow),
          result p'
            = Some {| success := true;
                      message := "Scan uploaded and analyzed successfully!";
                      scanId := Some lastID; riskAssessment := Some ra |} /\
          file p' = None /\ patientName p' = "" /\ scanType p' = "CT" /\
          uploading p' = false /\
          scans (db st') = (scans (db st) ++ [row])%list /\
          id row = lastID /\
          patient_name row = MedicalSliceViewer.trim (patientName p) /\
          scan_type row = scanType p /\
          risk_level row = level ra /\
          uploaded_by row = Some "Dr. Smith" /\
          (level ra = "low" \/ level ra = "medium" \/ level ra = "high")).
Proof.
  intros p env st Hr. cbv zeta.
  destruct (reachable_page_is_valid p Hr) as [Hfile Htype].
  split.
  - intros [H | H]; unfold handleUpload.
    + rewrite H. reflexivity.
    + rewrite H. destruct (file p); reflexivity.
  - intros f Ef Hplain Hsize Hname Hlen Hd.
    destruct (Hfile f Ef) as [Hfilter Hle].
    unfold handleUpload. rewrite Ef.
    apply String.eqb_neq in Hname. rewrite Hname.
    destruct (accepted_upload_is_stored env
                {| Server.patientName :=
                     Some (MedicalSliceViewer.trim (patientName p));
                   Server.scanType := Some (scanType p) |}
                (file_part f) st) as [ra [g' [E L]]].
    + reflexivity.
    + exact (plain_name_nonempty _ Hplain).
    + exact Hfilter.
    + simpl. lia.
    + simpl. rewrite Hname. reflexivity.
    + simpl. apply negb_true_iff. apply String.eqb_neq.
      simpl in Htype. intros E0. rewrite E0 in Htype.
      intuition discriminate.
    + simpl. apply Z.ltb_lt. exact Hlen.
    + exact (options_fit _ Htype).
    + exact Hd.
    + rewrite E. simpl.
      eexists _, ra, _. repeat split; try reflexivity. exact L.
Qed.

(** X17 on the page after choosing a PNG and typing a padded name. *)
Lemma X17_witness :
  exists (lastID : Z) (ra : RiskAssessment) (row : ScanRow),
    let p :=
      setPatientName "  Test Patient "
        (fst (handleFileChange
                (Some {| name := "Brain_study.PNG"; type := "image/png";
                         size := 1024 * 1024 |}) initial)) in
    let p' := fst (fst (handleUpload noon Online p empty_server)) in
    let st' := snd (fst (handleUpload noon Online p empty_server)) in
    result p'
      = Some {| success := true;
                message := "Scan uploaded and analyzed successfully!";
                scanId := Some lastID; riskAssessment := Some ra |} /\
    file p' = None /\ patientName p' = "" /\ scanType p' = "CT" /\
    uploading p' = false /\
    scans (db st') = (scans (db empty_server) ++ [row])%list /\
    id row = lastID /\
    patient_name row = "Test Patient" /\
    scan_type row = "CT" /\
    risk_level row = level ra /\
    uploaded_by row = Some "Dr. Smith" /\
    (level ra = "low" \/ level ra = "medium" \/ level ra = "high").
Proof.
  apply (proj2 (X17_page_uploads_are_stored
                  (setPatientName "  Test Patient "
                     (fst (handleFileChange
                             (Some {| name := "Brain_study.PNG";
                                      type := "image/png";
                                      size := 1024 * 1024 |}) initial)))
                  noon empty_server
                  (reach_name _ "  Test Patient "
                     (reach_file _ _ reach_initial) eq_refl))
               {| name := "Brain_study.PNG"; type := "image/png";
                  size := 1024 * 1024 |}).
  - reflexivity.
  - reflexivity.
  - vm_compute. discriminate.
  - vm_compute. discriminate.
  - vm_compute. reflexivity.
  - reflexivity.
Defined.

End UploadPageFacts.

(* ================================================================= *)
(** * Facts about the dashboard and the layout *)

Module PagesFacts.

Import Js Server Notions Examples.
Local Open Scope string_scope.
Local Open Scope Z_scope.

Lemma sorted_head_newest (first : ScanRow) (rest : list ScanRow) :
  StronglySorted not_older (first :: rest) ->
  Forall (summary_not_older (summary first)) (map summary (first :: rest)).
Proof.
  intros H. inversion H as [|? ? _ Hall]; subst.
  apply Forall_forall. intros x Hx. apply in_map_iff in Hx.
  destruct Hx as [r [<- [<- | Hin]]]; unfold summary_not_older; simpl.
  - unfold String.leb. rewrite ServerMoreFacts.string_compare_refl.
    reflexivity.
  - exact (proj1 (Forall_forall _ _) Hall r Hin).
Qed.

(** X18: every refresh of the dashboard selects the newest scan again.
    The function that the timer calls was created by the first render
    and still sees no selection, so when the server is reached, its
    database driver reports no error and it has scans, whatever scan the
    user had selected is replaced by the first row of the list, which is
    a scan of the latest date; with an empty table the selection is left
    as it was, also when its scan is gone.  When the driver reports an
    error the list and the selection stay as they were. *)
Theorem X18_refresh_overrides_the_selection :
  forall (env : Env) (st : State) (p : Dashboard.Page),
    let p' := Dashboard.refresh UploadPage.Online env st p in
    Dashboard.loading p' = false /\
    (driver_error env 0%nat = None ->
     fst (get_scans env st) = respond 200 (ScanList (Dashboard.scans_ p')) /\
     (scans (db st) = [] ->
      Dashboard.selectedScan p' = Dashboard.selectedScan p) /\
     (scans (db st) <> [] ->
      exists first rest,
        Dashboard.scans_ p' = first :: rest /\
        Dashboard.selectedScan p' = Some first /\
        Forall (summary_not_older first) (Dashboard.scans_ p'))) /\
    (driver_error env 0%nat <> None ->
     Dashboard.scans_ p' = Dashboard.scans_ p /\
     Dashboard.selectedScan p' = Dashboard.selectedScan p).
Proof.
  intros env st p. cbv zeta.
  unfold Dashboard.refresh, Dashboard.fetchScans, get_scans, allQuery,
    select_scans.
  destruct (driver_error env 0%nat) as [m|]; simpl.
  { split; [reflexivity|]. split; [discriminate|]. intros _.
    split; reflexivity. }
  split; [destruct (order_by_date_desc (scans (db st))); reflexivity|].
  split; [|congruence]. intros _.
  pose proof (ServerMoreFacts.order_by_date_desc_sorted (scans (db st))) as Hs.
  pose proof (ServerMoreFacts.order_by_date_desc_perm (scans (db st))) as Hp.
  destruct (order_by_date_desc (scans (db st))) as [|first rest] eqn:E; simpl.
  - repeat split.
    intros Hne. exfalso. apply Hne.
    apply Permutation_nil in Hp. exact Hp.
  - repeat split.
    + intros Hnil. rewrite Hnil in Hp.
      apply Permutation_sym in Hp. apply Permutation_nil in Hp.
      discriminate.
    + intros _. exists (summary first), (map summary rest).
      repeat split. apply (sorted_head_newest first rest Hs).
Qed.

(** X18 after the user selected scan 7 and a newer scan was uploaded. *)
Lemma X18_witness :
  exists first rest,
    let st := snd (post_scans noon test_patient (Some brain_png) one_scan) in
    let p := Dashboard.setSelectedScan (Some (summary scan_7))
               (Dashboard.refresh UploadPage.Online noon one_scan
                  Dashboard.initial) in
    let p' := Dashboard.refresh UploadPage.Online noon st p in
    Dashboard.scans_ p' = first :: rest /\
    Dashboard.selectedScan p' = Some first /\
    Forall (summary_not_older first) (Dashboard.scans_ p').
Proof.
  apply (proj2 (proj2 (proj1 (proj2
           (X18_refresh_overrides_the_selection noon
              (snd (post_scans noon test_patient (Some brain_png) one_scan))
              (Dashboard.setSelectedScan (Some (summary scan_7))
                 (Dashboard.refresh UploadPage.Online noon one_scan
                    Dashboard.initial)))) eq_refl))).
  vm_compute. discriminate.
Defined.




End PagesFacts.

(* ================================================================= *)
(** * Further facts about the slice viewer *)

Module MedicalSliceViewerMoreFacts.

Import Js MedicalSliceViewer SliceViewerEffect.
Local Open Scope Z_scope.

(** ** Stepping through the slices *)

Lemma state_eta (s : State) :
  {| currentSlice := currentSlice s; zoom := zoom s;
     annotations := annotations s; showAnnotations := showAnnotations s;
     annotationMode := annotationMode s; overlays := overlays s |} = s.
Proof. destruct s. reflexivity. Qed.

Lemma iter_nextSlice (n : nat) (s : State) :
  currentSlice s <= totalSlices - 1 ->
  currentSlice (Nat.iter n nextSlice s)
  = Z.min (currentSlice s + Z.of_nat n) (totalSlices - 1).
Proof.
  unfold totalSlices. intros H. induction n as [|n IH].
  - cbn [Nat.iter nat_rect]. lia.
  - rewrite Nat.iter_succ. unfold nextSlice at 1. unfold setCurrentSlice.
    cbn [currentSlice]. rewrite IH. unfold totalSlices. lia.
Qed.

Lemma iter_prevSlice (n : nat) (s : State) :
  0 <= currentSlice s ->
  currentSlice (Nat.iter n prevSlice s)
  = Z.max (currentSlice s - Z.of_nat n) 0.
Proof.
  intros H. induction n as [|n IH].
  - cbn [Nat.iter nat_rect]. lia.
  - rewrite Nat.iter_succ. unfold prevSlice at 1. unfold setCurrentSlice.
    cbn [currentSlice]. rewrite IH. lia.
Qed.

(** X20: stepping through the slices.  In every state the user can
    reach, next then previous comes back to the same state unless the
    last slice was showing, previous then next unless the first was;
    next on the last slice and previous on the first change nothing;
    and eleven steps in one direction always arrive at the last (first)
    slice. *)
Theorem X20_slice_steps :
  forall s : State,
    reachable s ->
    (currentSlice s < totalSlices - 1 -> prevSlice (nextSlice s) = s) /\
    (0 < currentSlice s -> nextSlice (prevSlice s) = s) /\
    (currentSlice s = totalSlices - 1 -> nextSlice s = s) /\
    (currentSlice s = 0 -> prevSlice s = s) /\
    currentSlice (Nat.iter 11 nextSlice s) = totalSlices - 1 /\
    currentSlice (Nat.iter 11 prevSlice s) = 0.
Proof.
  intros s Hr.
  destruct (MedicalSliceViewerFacts.reachable_invariant s Hr) as [Hs _].
  unfold slice_in_range, totalSlices in Hs.
  repeat split.
  - intros H. rewrite <- (state_eta s) at 2.
    unfold prevSlice, nextSlice, setCurrentSlice, totalSlices in *. simpl.
    f_equal. lia.
  - intros H. rewrite <- (state_eta s) at 2.
    unfold prevSlice, nextSlice, setCurrentSlice, totalSlices in *. simpl.
    f_equal. lia.
  - intros H. rewrite <- (state_eta s) at 2.
    unfold nextSlice, setCurrentSlice, totalSlices in *. f_equal. lia.
  - intros H. rewrite <- (state_eta s) at 2.
    unfold prevSlice, setCurrentSlice. f_equal. lia.
  - rewrite iter_nextSlice; unfold totalSlices; lia.
  - rewrite iter_prevSlice; lia.
Qed.

(** X20 at the state after three steps forward. *)
Lemma X20_witness :
  prevSlice (nextSlice (Nat.iter 3 nextSlice initial))
    = Nat.iter 3 nextSlice initial.
Proof.
  apply (proj1 (X20_slice_steps (Nat.iter 3 nextSlice initial)
                  (reach_nextSlice _ (reach_nextSlice _
                     (reach_nextSlice _ reach_initial))))).
  vm_compute. reflexivity.
Defined.

(** ** Zooming *)

Lemma iter_zoomIn (n : nat) (s : State) :
  zoom (Nat.iter n zoomIn s)
  = Nat.iter n (fun z => Math_min (z * 1.2) 3) (zoom s).
Proof.
  induction n as [|n IH]; [reflexivity|].
  rewrite !Nat.iter_succ. unfold zoomIn at 1. simpl. rewrite IH. reflexivity.
Qed.

Lemma iter_zoomOut (n : nat) (s : State) :
  zoom (Nat.iter n zoomOut s)
  = Nat.iter n (fun z => Math_max (z / 1.2) 0.5) (zoom s).
Proof.
  induction n as [|n IH]; [reflexivity|].
  rewrite !Nat.iter_succ. unfold zoomOut at 1. simpl. rewrite IH. reflexivity.
Qed.

(** On the 35 zoom factors: ten steps reach either end, and a step in
    that stays under 3 is undone by a step out. *)
Lemma zoom_levels_steps (z : float) :
  In z zoom_levels ->
  Nat.iter 10 (fun z => Math_min (z * 1.2) 3) z = 3%float /\
  Nat.iter 10 (fun z => Math_max (z / 1.2) 0.5) z = 0.5%float /\
  ((Math_min (z * 1.2) 3 <? 3)%float = true ->
   Math_max (Math_min (z * 1.2) 3 / 1.2) 0.5 = z).
Proof.
  intros H. unfold zoom_levels in H. simpl in H.
  repeat (destruct H as [<- | H];
          [ split; [vm_compute; reflexivity|];
            split; [vm_compute; reflexivity|];
            vm_compute; first [reflexivity | discriminate] | ]).
  contradiction.
Qed.

(** X21: zooming.  In every state the user can reach, ten clicks on
    zoom-in arrive at exactly 3 and ten on zoom-out at exactly 0.5,
    where a further click changes nothing; a zoom-in that stays under 3
    is exactly undone by a zoom-out, rounding included.  The converse
    can miss by a rounding step: there is a reachable state, above the
    lower end, that zoom-out followed by zoom-in does not restore. *)
Theorem X21_zoom_steps :
  (forall s : State,
      reachable s ->
      zoom (Nat.iter 10 zoomIn s) = 3%float /\
      zoom (Nat.iter 10 zoomOut s) = 0.5%float /\
      (zoom s = 3%float -> zoomIn s = s) /\
      (zoom s = 0.5%float -> zoomOut s = s) /\
      ((zoom (zoomIn s) <? 3)%float = true -> zoomOut (zoomIn s) = s)) /\
  (exists s : State,
      reachable s /\ (0.5 <? zoom (zoomOut s))%float = true /\
      zoomIn (zoomOut s) <> s).
Proof.
  split.
  - intros s Hr.
    destruct (MedicalSliceViewerFacts.reachable_invariant s Hr) as [_ [Hz _]].
    destruct (zoom_levels_steps (zoom s) Hz) as [H1 [H2 H3]].
    rewrite iter_zoomIn, iter_zoomOut.
    split; [exact H1|]. split; [exact H2|]. split; [|split].
    + intros E. rewrite <- (state_eta s) at 2.
      unfold zoomIn, setZoom. rewrite E. reflexivity.
    + intros E. rewrite <- (state_eta s) at 2.
      unfold zoomOut, setZoom. rewrite E. reflexivity.
    + intros E. rewrite <- (state_eta s) at 2.
      unfold zoomOut, zoomIn, setZoom in *. simpl in *.
      rewrite (H3 E). reflexivity.
  - exists (Nat.iter 5 zoomOut (Nat.iter 7 zoomIn initial)).
    split; [|split].
    + simpl. repeat apply reach_zoomOut. repeat apply reach_zoomIn.
      apply reach_initial.
    + vm_compute. reflexivity.
    + intros E. apply (f_equal (fun s => PrimFloat.eqb (zoom s)
                                  0x1.34a4587e6b750p+0)) in E.
      vm_compute in E. discriminate.
Qed.

(** X21 at the state after two clicks on zoom-in. *)
Lemma X21_witness :
  zoomOut (zoomIn (zoomIn (zoomIn initial))) = zoomIn (zoomIn initial).
Proof.
  apply (proj2 (proj2 (proj2 (proj2
           (proj1 X21_zoom_steps (zoomIn (zoomIn initial))
              (reach_zoomIn _ (reach_zoomIn _ reach_initial))))))).
  vm_compute. reflexivity.
Defined.

(** ** The annotations *)

(** What a click can do to the state: nothing, or one annotation more. *)
Lemma click_cases (canvasRef : option Canvas) (event : Click) (s : State) :
  handleCanvasClick canvasRef event s = s \/
  exists canvas_ note_,
    canvasRef = Some canvas_ /\ prompted event = Some note_ /\
    annotationMode s = true /\ trim note_ <> ""%string /\
    handleCanvasClick canvasRef event s
    = setAnnotations
        (fun prev =>
           prev ++
           [{| slice := currentSlice s;
               x := ((clientX event - rect_left event) / width canvas_)%float;
               y := ((clientY event - rect_top event) / height canvas_)%float;
               note := trim note_; type := info |}]) s.
Proof.
  unfold handleCanvasClick.
  destruct (annotationMode s); simpl; [|left; reflexivity].
  destruct canvasRef as [canvas_|]; [|left; reflexivity].
  destruct (prompted event) as [note_|]; [|left; reflexivity].
  destruct (note_ =? "")%string; simpl; [left; reflexivity|].
  destruct (String.eqb_spec (trim note_) "") as [E | Hne]; [left; reflexivity|].
  right. exists canvas_, note_. repeat split; assumption.
Qed.

Lemma act_annotations (canvasRef : option Canvas) (a : Action) (s : State) :
  annotations (act canvasRef a s) = annotations s \/
  exists new,
    annotations (act canvasRef a s) = annotations s ++ [new] /\
    slice new = currentSlice s /\ type new = info /\ note new <> ""%string /\
    annotationMode s = true /\
    exists event, a = CanvasClick event.
Proof.
  destruct a; simpl; try (left; reflexivity).
  destruct (click_cases canvasRef event s)
    as [E | [canvas_ [note_ [_ [_ [Hm [Hn E]]]]]]]; rewrite E.
  - left. reflexivity.
  - right. eexists. split; [reflexivity|]. simpl.
    repeat split; try assumption. exists event. reflexivity.
Qed.

(** X22: the stored annotations.  An action never removes or changes a
    stored annotation: it leaves the list as it is or (a click in
    annotation mode) appends one annotation, placed on the current
    slice.  In every state the user can reach, every stored annotation
    has type "info", a note that is not empty, and a slice between 0 and
    totalSlices - 1. *)
Theorem X22_annotations_only_grow :
  (forall (canvasRef : option Canvas) (a : Action) (s : State),
      exists extra : list Annotation,
        annotations (act canvasRef a s) = annotations s ++ extra /\
        (List.length extra <= 1)%nat /\
        Forall (fun new => slice new = currentSlice s) extra) /\
  (forall s : State,
      reachable s ->
      Forall (fun a => type a = info /\ note a <> ""%string /\
                       0 <= slice a <= totalSlices - 1)
             (annotations s)).
Proof.
  split.
  - intros canvasRef a s.
    destruct (act_annotations canvasRef a s) as [E | [new [E [Hs _]]]].
    + exists []. rewrite app_nil_r. repeat split; auto.
    + exists [new]. repeat split; auto.
  - intros s Hr.
    induction Hr as [ | s Hr IH | s Hr IH | s Hr IH | s Hr IH | s Hr IH
                     | s Hr IH | s Hr IH | s Hr IH | s Hr IH | s Hr IH
                     | s canvasRef event Hr IH | s a Hr IH Hin ];
      try exact IH.
    + constructor.
    + destruct (act_annotations canvasRef (CanvasClick event) s)
        as [E | [new [E [Hs [Ht [Hn _]]]]]]; simpl in E; rewrite E.
      * exact IH.
      * apply Forall_app. split; [exact IH|].
        constructor; [|constructor].
        destruct (MedicalSliceViewerFacts.reachable_invariant s Hr)
          as [Hrange _].
        rewrite Hs. repeat split; try assumption; apply Hrange.
Qed.

(** X22 at a click in annotation mode with a padded note. *)
Lemma X22_witness :
  Forall (fun a => type a = info /\ note a <> ""%string /\
                   0 <= slice a <= totalSlices - 1)
    (annotations
       (handleCanvasClick (Some canvas_400)
          {| clientX := 120; clientY := 80; rect_left := 20; rect_top := 40;
             prompted := Some "  lesion "%string |}
          (toggleAnnotationMode (nextSlice initial)))).
Proof.
  apply (proj2 X22_annotations_only_grow).
  apply reach_click. apply reach_toggleAnnotationMode.
  apply reach_nextSlice. apply reach_initial.
Defined.

(** ** The redraw *)

Section Frames.

Variables Math_sin Math_cos : float -> float.

Lemma forEach_keeps_dash {A} (l : list A) (body : A -> Paint) :
  (forall a k, lineDash (body a k) = lineDash k) ->
  forall k, lineDash (forEach l body k) = lineDash k.
Proof.
  intros Hbody. unfold forEach.
  induction l as [|a l IH]; intros k; simpl; [reflexivity|].
  rewrite IH. apply Hbody.
Qed.

Ltac run_dash :=
  cbv beta iota zeta delta
    [seq call assign_fillStyle assign_strokeStyle assign_lineWidth
     call_setLineDash log skip when forEach fold_left drawVessel
     ctx_canvas calls fillStyle strokeStyle lineWidth lineDash];
  reflexivity.

Lemma drawAnnotation_keeps_dash (a : Annotation) (k : Ctx) :
  lineDash (drawAnnotation a k) = lineDash k.
Proof. destruct k. unfold drawAnnotation. run_dash. Qed.

(** X23: a redraw leaves the line pattern solid.  If the context has no
    dash pattern before a redraw, it has none after it, whatever the
    state: the contour layer sets its pattern and clears it again, and
    no other layer touches it. *)
Theorem X23_redraw_restores_solid_lines :
  forall (s : State) (k : Ctx),
    lineDash k = [] ->
    lineDash (paintSlice Math_sin Math_cos s k) = [].
Proof.
  intros s k H. unfold paintSlice.
  assert (D : forall k0, lineDash k0 = [] ->
                lineDash (when (showAnnotations s) (drawAnnotations s) k0) = []).
  { intros k0 H0. destruct (showAnnotations s); [|exact H0].
    unfold when, drawAnnotations.
    rewrite forEach_keeps_dash; [exact H0 | apply drawAnnotation_keeps_dash]. }
  unfold seq. apply D.
  destruct k as [c fs ss lw ld l]. simpl in H. subst ld.
  destruct (contours (overlays s)); destruct (vessels (overlays s));
    destruct (ventricles (overlays s));
    unfold drawContours, drawVessels, drawVentricles, drawBrainSlice;
    try (destruct ((3 <=? currentSlice s) && (currentSlice s <=? 9));
         destruct ((4 <=? currentSlice s) && (currentSlice s <=? 8)));
    run_dash.
Qed.

Lemma frame_lengths (c : Canvas) (z : float) (n : Z) :
  List.length (background_calls c) = 2%nat /\
  List.length (tissue_calls Math_sin c z n) = 12%nat /\
  List.length (ventricle_calls c z n)
    = (3 + (if ((3 <=? n) && (n <=? 9))%Z then 8 else 0)
         + (if ((4 <=? n) && (n <=? 8))%Z then 4 else 0))%nat /\
  List.length (vessel_calls Math_sin Math_cos c z) = 26%nat /\
  List.length (contour_calls c z) = 7%nat.
Proof.
  unfold ventricle_calls.
  destruct ((3 <=? n) && (n <=? 9)); destruct ((4 <=? n) && (n <=? 8));
    repeat split.
Qed.

Lemma markers_length (c : Canvas) (l : list Annotation) :
  List.length (flat_map (marker_calls c) l) = (9 * List.length l)%nat.
Proof.
  induction l as [|a l IH]; [reflexivity|].
  cbn [flat_map]. rewrite length_app, IH. simpl List.length. lia.
Qed.

(** X24: the number of calls of one redraw.  A redraw on a canvas with
    a 2D context makes 14 calls for background and tissue, then, per
    enabled overlay, 3, 11 or 15 for the ventricles (none, the lateral
    pair on slices 3..9, and the third ventricle on slices 4..8), 26 for
    the vessels and 7 for the contours, then 9 per annotation of the
    current slice when annotations are shown. *)
Theorem X24_calls_per_redraw :
  forall (s : State) (k : Ctx),
    has_2d_context (ctx_canvas k) = true ->
    exists k' : Ctx,
      drawSlice Math_sin Math_cos s (Some k) = Some k' /\
      List.length (calls k')
      = (List.length (calls k) + 14
         + (if ventricles (overlays s)
            then 3 + (if ((3 <=? currentSlice s) && (currentSlice s <=? 9))%Z
                      then 8 else 0)
                   + (if ((4 <=? currentSlice s) && (currentSlice s <=? 8))%Z
                      then 4 else 0)
            else 0)
         + (if vessels (overlays s) then 26 else 0)
         + (if contours (overlays s) then 7 else 0)
         + (if showAnnotations s
            then 9 * List.length
                       (filter (fun a => (slice a =? currentSlice s)%Z)
                          (annotations s))
            else 0))%nat.
Proof.
  intros s k Hctx. unfold drawSlice. rewrite Hctx.
  exists (paintSlice Math_sin Math_cos s k). split; [reflexivity|].
  destruct (MedicalSliceViewerFacts.paintSlice_emits Math_sin Math_cos s k)
    as [_ Hl].
  rewrite Hl. unfold frame. rewrite !length_app.
  destruct (frame_lengths (ctx_canvas k) (zoom s) (currentSlice s))
    as [L1 [L2 [L3 [L4 L5]]]].
  rewrite L1, L2.
  destruct (ventricles (overlays s)); destruct (vessels (overlays s));
    destruct (contours (overlays s)); destruct (showAnnotations s);
    rewrite ?L3, ?L4, ?L5, ?markers_length; simpl List.length; lia.
Qed.

End Frames.

(** X23 on the fresh context of the 400 by 400 canvas. *)
Lemma X23_witness :
  lineDash (paintSlice series_sin series_cos (nextSlice initial) fresh_context)
    = [].
Proof.
  apply (X23_redraw_restores_solid_lines series_sin series_cos).
  reflexivity.
Defined.

(** X24 on the fresh context, in the initial state: 2 + 12 + 3 + 26 + 7
    calls. *)
Lemma X24_witness :
  exists k' : Ctx,
    drawSlice series_sin series_cos initial (Some fresh_context) = Some k' /\
    List.length (calls k')
    = (List.length (calls fresh_context) + 14
       + (if ventricles (overlays initial)
          then 3 + (if ((3 <=? currentSlice initial)
                        && (currentSlice initial <=? 9))%Z
                    then 8 else 0)
                 + (if ((4 <=? currentSlice initial)
                        && (currentSlice initial <=? 8))%Z
                    then 4 else 0)
          else 0)
       + (if vessels (overlays initial) then 26 else 0)
       + (if contours (overlays initial) then 7 else 0)
       + (if showAnnotations initial
          then 9 * List.length
                     (filter (fun a => (slice a =? currentSlice initial)%Z)
                        (annotations initial))
          else 0))%nat.
Proof.
  apply (X24_calls_per_redraw series_sin series_cos initial fresh_context).
  reflexivity.
Defined.

(** ** The effect that redraws *)

Lemma zoom_levels_same (z : float) :
  In z zoom_levels -> PrimFloat.Leibniz.eqb z z = true.
Proof.
  intros H. unfold zoom_levels in H. simpl in H.
  repeat (destruct H as [<- | H]; [vm_compute; reflexivity | ]).
  contradiction.
Qed.

Lemma filter_snoc {A} (p : A -> bool) (l : list A) (v : A) :
  filter p (l ++ [v]) = filter p l ++ (if p v then [v] else []).
Proof. rewrite filter_app. reflexivity. Qed.

(** X25: a new annotation is not drawn until something else changes.
    The redraw effect depends on slice, zoom, annotation visibility and
    overlays, not on the annotation list: in every state the user can
    reach, a click on the canvas leaves the canvas exactly as it was,
    also when it stores an annotation; with annotations shown, the
    frame the new state calls for is the frame of the old state followed
    by the marker of the new annotation, which is therefore missing from
    the canvas. *)
Theorem X25_new_annotation_is_not_drawn :
  forall (Math_sin Math_cos : float -> float) (m : Mounted) (event : Click),
    reachable (state m) ->
    let m' := dispatch Math_sin Math_cos (CanvasClick event) m in
    canvas m' = canvas m /\
    (forall new : Annotation,
        annotations (state m') = annotations (state m) ++ [new] ->
        showAnnotations (state m) = true ->
        forall c : Canvas,
          frame Math_sin Math_cos c (currentSlice (state m'))
            (zoom (state m')) (overlays (state m'))
            (showAnnotations (state m')) (annotations (state m'))
          = frame Math_sin Math_cos c (currentSlice (state m))
              (zoom (state m)) (overlays (state m))
              (showAnnotations (state m)) (annotations (state m))
            ++ marker_calls c new).
Proof.
  intros Math_sin Math_cos m event Hr. cbv zeta.
  destruct (MedicalSliceViewerFacts.reachable_invariant _ Hr) as [_ [Hz _]].
  unfold dispatch. cbn [state canvas act].
  set (ref := option_map ctx_canvas (canvas m)).
  destruct (click_cases ref event (state m))
    as [E | [canvas_ [note_ [_ [_ [_ [_ E]]]]]]]; rewrite E.
  - unfold deps_changed. cbn [new_overlays_object].
    rewrite Z.eqb_refl, (zoom_levels_same _ Hz), Bool.eqb_reflx. simpl.
    split; [reflexivity|].
    intros new Hnew. exfalso.
    apply (f_equal (@List.length Annotation)) in Hnew.
    rewrite length_app in Hnew. simpl in Hnew. lia.
  - unfold deps_changed, setAnnotations.
    cbn [new_overlays_object currentSlice zoom showAnnotations overlays
         annotations].
    rewrite Z.eqb_refl, (zoom_levels_same _ Hz), Bool.eqb_reflx. simpl.
    split; [reflexivity|].
    intros new Hnew Hshow c.
    apply app_inj_tail in Hnew. destruct Hnew as [_ <-].
    unfold frame. rewrite Hshow, filter_snoc. cbn [slice].
    rewrite Z.eqb_refl, flat_map_app. cbn [flat_map].
    rewrite app_nil_r, <- !app_assoc. reflexivity.
Qed.

(** X25 at a click in annotation mode on the mounted 400 by 400 canvas. *)
Lemma X25_witness :
  canvas (dispatch series_sin series_cos
            (CanvasClick {| clientX := 120; clientY := 80; rect_left := 20;
                            rect_top := 40;
                            prompted := Some "lesion"%string |})
            (dispatch series_sin series_cos ToggleAnnotationMode
               (mount series_sin series_cos (Some fresh_context))))
  = canvas (dispatch series_sin series_cos ToggleAnnotationMode
              (mount series_sin series_cos (Some fresh_context))).
Proof.
  apply (X25_new_annotation_is_not_drawn series_sin series_cos
           (dispatch series_sin series_cos ToggleAnnotationMode
              (mount series_sin series_cos (Some fresh_context)))).
  simpl. apply reach_toggleAnnotationMode. apply reach_initial.
Defined.

End MedicalSliceViewerMoreFacts.

(* ================================================================= *)
(** * Facts about the multi-model analysis *)

Module AIMultiModalAnalysisFacts.

Import Js ScanController ScanControllerRest AIMultiModalAnalysis.
Local Open Scope string_scope.

(** ** Which models run *)

(** The checkbox events of a session, applied in order. *)
Lemma onChange_get (model model' : Model) (checked : bool) (o : Obj bool) :
  obj_get (onChange model checked o) (model_id model')
  = if model_id model =? model_id model' then Some checked
    else obj_get o (model_id model').
Proof. apply ScanControllerMoreFacts.obj_get_set. Qed.

Lemma events_agree (events : list (Model * bool)) :
  forall o1 o2 : Obj bool,
    (forall model, In model aiModels ->
                   obj_get o1 (model_id model) = obj_get o2 (model_id model)) ->
    forall model, In model aiModels ->
      obj_get (fold_left (fun o e => onChange (fst e) (snd e) o) events o1)
              (model_id model)
      = obj_get (fold_left (fun o e => onChange (fst e) (snd e) o) events o2)
                (model_id model).
Proof.
  induction events as [|[m c] rest IH]; intros o1 o2 H model Hin; simpl.
  - apply H. exact Hin.
  - apply IH; [|exact Hin].
    intros model' Hin'. rewrite !onChange_get.
    rewrite (H model' Hin'). reflexivity.
Qed.

Lemma filter_ext_in' {A} (p q : A -> bool) (l : list A) :
  (forall a, In a l -> p a = q a) -> filter p l = filter q l.
Proof.
  induction l as [|h t IH]; intros H; simpl; [reflexivity|].
  rewrite (H h (or_introl eq_refl)), IH; [reflexivity|].
  intros a Ha. apply H. right. exact Ha.
Qed.

(** X26: which models are analysed.  The five flags the selection
    starts with (deepMind, ibmWatson, ...) are never read, since the
    models are looked up by other names (deepmind, watson, ...): with
    the selection as it starts no model is selected and an analysis
    produces no result; a model is selected exactly when its checkbox
    was last set to checked; and after any checkbox events the selected
    models are the same as if the selection had started empty. *)
Theorem X26_initial_flags_are_never_read :
  selectedModelsList initial_selectedModels = [] /\
  (forall (clock : nat -> Readings) (g : Rng),
      results_ (fst (startMultiModalAnalysis clock initial g)) = [] /\
      getConsensusAnalysis
        (results_ (fst (startMultiModalAnalysis clock initial g))) = None) /\
  (forall (model : Model) (checked : bool) (o : Obj bool),
      is_selected (onChange model checked o) model = checked) /\
  (forall (events : list (Model * bool)),
      selectedModelsList
        (fold_left (fun o e => onChange (fst e) (snd e) o) events
           initial_selectedModels)
      = selectedModelsList
          (fold_left (fun o e => onChange (fst e) (snd e) o) events [])).
Proof.
  split; [reflexivity|]. split; [|split].
  - intros clock g. split; reflexivity.
  - intros model checked o. unfold is_selected.
    rewrite onChange_get, String.eqb_refl. reflexivity.
  - intros events. unfold selectedModelsList.
    apply filter_ext_in'. intros model Hin. unfold is_selected.
    rewrite (events_agree events initial_selectedModels [] ); [reflexivity| |exact Hin].
    intros model' Hin'. simpl in Hin'.
    destruct Hin' as [<- | [<- | [<- | [<- | [<- | []]]]]]; reflexivity.
Qed.

(** ** What an analysis leaves *)

Lemma progress_loop (f : Z -> float) (l : list Z) :
  forall s : State,
    let s' := fold_left (fun s0 step => setProgress (f step) s0) l s in
    results_ s' = results_ s /\ isAnalyzing s' = isAnalyzing s /\
    selectedModels s' = selectedModels s /\ currentModel s' = currentModel s /\
    progress s' = match rev l with [] => progress s | step :: _ => f step end.
Proof.
  induction l as [|step rest IH]; intros s; cbv zeta.
  - repeat split.
  - cbn [fold_left]. destruct (IH (setProgress (f step) s)) as [Hr [Ha [Hs [Hc Hp]]]].
    rewrite Hr, Ha, Hs, Hc, Hp. repeat split.
    cbn [rev]. destruct (rev rest) as [|x xs]; reflexivity.
Qed.

Lemma simulate_results (clock : Readings) (model : Model) (index total : Z)
    (s : State) (g : Rng) :
  exists result,
    results_ (fst (simulateAIAnalysis clock model index total s g))
      = (results_ s ++ [result])%list /\
    modelName result = model_name model /\
    processingTime result = (endTime clock - startTime clock)%Z /\
    progress (fst (simulateAIAnalysis clock model index total s g))
      = (number_of_Z (index * 100 + 100) / number_of_Z total)%float /\
    isAnalyzing (fst (simulateAIAnalysis clock model index total s g))
      = isAnalyzing s /\
    selectedModels (fst (simulateAIAnalysis clock model index total s g))
      = selectedModels s.
Proof.
  unfold simulateAIAnalysis, bind, ret.
  destruct (Math_random g) as [c g1].
  destruct (generateDiagnosis (specialty model) g1) as [d g2].
  destruct (generateRiskLevel g2) as [l g3].
  destruct (generateFindings (specialty model) g3) as [f g4].
  destruct (generateRecommendations (specialty model) g4) as [r g5].
  destruct (progress_loop
              (fun step => (number_of_Z (index * 100 + step) / number_of_Z total)%float)
              steps s) as [Hr [Ha [Hs [_ Hp]]]].
  eexists. cbn [fst]. unfold setResults.
  cbn [results_ progress isAnalyzing selectedModels modelName processingTime].
  rewrite Hr, Ha, Hs, Hp. repeat split.
Qed.

Lemma analyse_results (clock : nat -> Readings) (todo : list Model) :
  forall (i : nat) (total : Z) (s : State) (g : Rng),
    let s' := fst (analyse clock i todo total s g) in
    map modelName (results_ s')
      = (map modelName (results_ s) ++ map model_name todo)%list /\
    isAnalyzing s' = isAnalyzing s /\
    selectedModels s' = selectedModels s /\
    progress s'
      = match todo with
        | [] => progress s
        | _ :: _ =>
            (number_of_Z (Z.of_nat (i + List.length todo - 1) * 100 + 100)
             / number_of_Z total)%float
        end.
Proof.
  induction todo as [|model rest IH]; intros i total s g; cbv zeta.
  - simpl. rewrite app_nil_r. repeat split.
  - cbn [analyse]. unfold bind.
    destruct (simulate_results (clock i) model (Z.of_nat i) total
                (setCurrentModel (model_name model) s) g)
      as [result [Er [En [_ [Ep [Ea Es]]]]]].
    destruct (simulateAIAnalysis (clock i) model (Z.of_nat i) total
                (setCurrentModel (model_name model) s) g) as [s1 g1].
    cbn [fst] in Er, Ep, Ea, Es.
    destruct (IH (S i) total s1 g1) as [Hr [Ha [Hs Hp]]].
    rewrite Hr, Er, Ha, Ea, Hs, Es, Hp.
    rewrite map_app. cbn [map]. rewrite En, <- app_assoc.
    repeat split.
    destruct rest as [|m' rest'].
    + rewrite Ep. do 2 f_equal. cbn [Datatypes.length]. lia.
    + do 2 f_equal. cbn [Datatypes.length]. lia.
Qed.

(** X27: what an analysis leaves behind.  It produces one result per
    selected model, in the order of the model list and under the
    model's name, replacing earlier results; when it ends the component
    is no longer analysing, shows no current model, and the progress is
    exactly 100 if a model ran and 0 if none did. *)
Theorem X27_one_result_per_selected_model :
  forall (clock : nat -> Readings) (s : State) (g : Rng),
    let s' := fst (startMultiModalAnalysis clock s g) in
    map modelName (results_ s')
      = map model_name (selectedModelsList (selectedModels s)) /\
    isAnalyzing s' = false /\ currentModel s' = "" /\
    selectedModels s' = selectedModels s /\
    progress s'
      = match selectedModelsList (selectedModels s) with
        | [] => 0%float
        | _ :: _ => 100%float
        end.
Proof.
  intros clock s g. cbv zeta. unfold startMultiModalAnalysis, bind, ret.
  set (selected := selectedModelsList (selectedModels s)).
  destruct (analyse_results clock selected 0
              (Z.of_nat (List.length selected))
              (setResults (fun _ => [])
                 (setProgress 0 (setIsAnalyzing true s))) g)
    as [Hr [_ [Hs Hp]]].
  destruct (analyse clock 0 selected _ _ g) as [s1 g1].
  cbn [fst] in *. simpl in Hr, Hs.
  repeat split; try assumption.
  cbn [progress setCurrentModel setIsAnalyzing]. rewrite Hp.
  assert (Hlen : (List.length selected <= 5)%nat).
  { subst selected. unfold selectedModelsList.
    apply (Nat.le_trans _ _ _ (filter_length_le _ _)). apply Nat.le_refl. }
  clearbody selected.
  destruct selected as [|m1 [|m2 [|m3 [|m4 [|m5 [|m6 rest]]]]]];
    try (vm_compute; reflexivity).
  cbn [Datatypes.length] in Hlen. lia.
Qed.

(** ** The consensus *)

Local Open Scope Z_scope.

Lemma RiskLevel_eqb_eq (a b : RiskLevel) : RiskLevel_eqb a b = true <-> a = b.
Proof. destruct a, b; simpl; split; congruence. Qed.

Lemma RiskLevel_eqb_refl (a : RiskLevel) : RiskLevel_eqb a a = true.
Proof. destruct a; reflexivity. Qed.

Lemma count_of_set_count (counts : Counts) (l l' : RiskLevel) (n : Z) :
  count_of (set_count counts l n) l'
  = if RiskLevel_eqb l l' then Some n else count_of counts l'.
Proof.
  induction counts as [|[k m] rest IH]; simpl.
  - reflexivity.
  - destruct k, l, l'; simpl; try reflexivity; rewrite IH; reflexivity.
Qed.

Lemma set_count_keys (counts : Counts) (l : RiskLevel) (n : Z) :
  map fst (set_count counts l n)
  = match count_of counts l with
    | Some _ => map fst counts
    | None => (map fst counts ++ [l])%list
    end.
Proof.
  induction counts as [|[k m] rest IH]; simpl.
  - reflexivity.
  - destruct (RiskLevel_eqb k l) eqn:Ekl; simpl; [reflexivity|].
    rewrite IH. destruct (count_of rest l); reflexivity.
Qed.

Lemma count_of_none (counts : Counts) (l : RiskLevel) :
  count_of counts l = None -> ~ In l (map fst counts).
Proof.
  induction counts as [|[k m] rest IH]; simpl; intros H; [tauto|].
  destruct (RiskLevel_eqb k l) eqn:Ekl; [discriminate|].
  intros [-> | Hin].
  - rewrite RiskLevel_eqb_refl in Ekl. discriminate.
  - exact (IH H Hin).
Qed.

Lemma count_of_some_in (counts : Counts) (l : RiskLevel) (n : Z) :
  count_of counts l = Some n -> In (l, n) counts.
Proof.
  induction counts as [|[k m] rest IH]; simpl; intros H; [discriminate|].
  destruct (RiskLevel_eqb k l) eqn:Ekl.
  - apply RiskLevel_eqb_eq in Ekl. left. congruence.
  - right. exact (IH H).
Qed.

Lemma in_count_of (counts : Counts) (e : RiskLevel * Z) :
  NoDup (map fst counts) -> In e counts ->
  count_of counts (fst e) = Some (snd e).
Proof.
  induction counts as [|[k m] rest IH]; simpl; intros N H; [tauto|].
  inversion N as [|? ? Hk N']; subst.
  destruct H as [<- | Hin].
  - simpl. rewrite RiskLevel_eqb_refl. reflexivity.
  - destruct (RiskLevel_eqb k (fst e)) eqn:Eke.
    + apply RiskLevel_eqb_eq in Eke. subst k. exfalso. apply Hk.
      apply in_map. exact Hin.
    + exact (IH N' Hin).
Qed.

Lemma NoDup_add_last {A} (l : list A) (v : A) :
  NoDup l -> ~ In v l -> NoDup (l ++ [v]).
Proof.
  induction l as [|h t IH]; intros N H; simpl.
  - constructor; [tauto|constructor].
  - inversion N as [|? ? Hh N']; subst. constructor.
    + rewrite in_app_iff. intros [Hin | [-> | []]]; [tauto|].
      apply H. left. reflexivity.
    + apply IH; [exact N'|]. intros Hin. apply H. right. exact Hin.
Qed.

Lemma votes_snoc (l : RiskLevel) (rs : list AIAnalysisResult)
    (r : AIAnalysisResult) :
  Notions.votes l (rs ++ [r])
  = Notions.votes l rs + (if RiskLevel_eqb (riskLevel r) l then 1 else 0).
Proof.
  unfold Notions.votes. rewrite filter_app, length_app. cbn [filter].
  destruct (RiskLevel_eqb (riskLevel r) l); cbn [Datatypes.length]; lia.
Qed.

Lemma votes_nonneg (l : RiskLevel) (rs : list AIAnalysisResult) :
  0 <= Notions.votes l rs.
Proof. unfold Notions.votes. lia. Qed.

Lemma count_one_counted (acc : Counts) (done : list AIAnalysisResult)
    (r : AIAnalysisResult) :
  Notions.counted acc done -> Notions.counted (count_one acc r) (done ++ [r]).
Proof.
  intros [N H]. unfold count_one.
  assert (Hold : match count_of acc (riskLevel r) with
                 | Some n => if n =? 0 then 0 else n
                 | None => 0
                 end = Notions.votes (riskLevel r) done).
  { rewrite H. destruct (Notions.votes (riskLevel r) done =? 0) eqn:E.
    - apply Z.eqb_eq in E. lia.
    - rewrite E. reflexivity. }
  rewrite Hold. split.
  - rewrite set_count_keys.
    destruct (count_of acc (riskLevel r)) eqn:E; [exact N|].
    apply NoDup_add_last; [exact N|].
    apply count_of_none. exact E.
  - intros l. rewrite count_of_set_count, votes_snoc.
    pose proof (votes_nonneg l done) as Hl.
    destruct (RiskLevel_eqb (riskLevel r) l) eqn:E.
    + apply RiskLevel_eqb_eq in E. subst l.
      destruct (Notions.votes (riskLevel r) done + 1 =? 0) eqn:E0;
        [apply Z.eqb_eq in E0; lia|reflexivity].
    + rewrite Z.add_0_r. apply H.
Qed.

Lemma riskCounts_counted (rs : list AIAnalysisResult) :
  Notions.counted (riskCounts rs) rs.
Proof.
  unfold riskCounts.
  assert (G : forall todo acc done,
             Notions.counted acc done ->
             Notions.counted (fold_left count_one todo acc) (done ++ todo)).
  { induction todo as [|r todo IH]; intros acc done H; simpl.
    - rewrite app_nil_r. exact H.
    - replace (done ++ r :: todo)%list with ((done ++ [r]) ++ todo)%list
        by (rewrite <- app_assoc; reflexivity).
      apply IH. apply count_one_counted. exact H. }
  apply (G rs [] []). split; [constructor|]. intros l. reflexivity.
Qed.

(** The reduction over the entries keeps the entry with the largest
    count. *)
Lemma more_counted_max (counts : Counts) (others : list (RiskLevel * Z)) :
  forall first : RiskLevel * Z,
    (forall e, In e (first :: others) ->
               count_of counts (fst e) = Some (snd e)) ->
    In (fold_left (more_counted counts) others first) (first :: others) /\
    forall e, In e (first :: others) ->
              snd e <= snd (fold_left (more_counted counts) others first).
Proof.
  induction others as [|b others IH]; intros a H; cbn [fold_left].
  - split; [left; reflexivity|]. intros e [<- | []]. lia.
  - assert (Hm : more_counted counts a b = (if snd b <? snd a then a else b)).
    { unfold more_counted.
      rewrite (H a (or_introl eq_refl)), (H b (or_intror (or_introl eq_refl))).
      reflexivity. }
    destruct (IH (more_counted counts a b)) as [Hin Hmax].
    { intros e [<- | Hin].
      - rewrite Hm. destruct (snd b <? snd a); apply H; simpl; auto.
      - apply H. simpl. auto. }
    rewrite Hm in Hin, Hmax |- *.
    destruct (snd b <? snd a) eqn:E.
    + apply Z.ltb_lt in E. split.
      * destruct Hin as [Hin | Hin]; [rewrite <- Hin|]; simpl; auto.
      * intros e He. pose proof (Hmax _ (or_introl eq_refl)) as Hfirst.
        destruct He as [<- | [<- | He]]; [exact Hfirst|lia|].
        apply Hmax. right. exact He.
    + apply Z.ltb_ge in E. split.
      * destruct Hin as [Hin | Hin]; [rewrite <- Hin|]; simpl; auto.
      * intros e He. pose proof (Hmax _ (or_introl eq_refl)) as Hfirst.
        destruct He as [<- | [<- | He]]; [lia|exact Hfirst|].
        apply Hmax. right. exact He.
Qed.

Lemma fold_max (l : list Z) :
  forall m : Z,
    In (fold_left Z.max l m) (m :: l) /\
    forall x, In x (m :: l) -> x <= fold_left Z.max l m.
Proof.
  induction l as [|y l IH]; intros m; cbn [fold_left].
  - split; [left; reflexivity|]. intros x [<- | []]. lia.
  - destruct (IH (Z.max m y)) as [Hin Hmax]. split.
    + destruct Hin as [Hin | Hin]; [|simpl; auto].
      rewrite <- Hin. destruct (Z.max_spec m y) as [[_ ->] | [_ ->]]; simpl; auto.
    + intros x Hx. pose proof (Hmax _ (or_introl eq_refl)) as Hfirst.
      destruct Hx as [<- | [<- | Hx]]; [lia|lia|].
      apply Hmax. right. exact Hx.
Qed.

(** X28: the consensus.  There is none without results.  With at least
    one result there is one: its risk level is a level that most
    results give (no level is given by more results), at least one
    result gives it, and the agreement is the number of results that
    give it, divided by the number of results, times 100. *)
Theorem X28_consensus_is_a_most_frequent_level :
  getConsensusAnalysis [] = None /\
  forall (r : AIAnalysisResult) (rs : list AIAnalysisResult),
    exists c,
      getConsensusAnalysis (r :: rs) = Some c /\
      0 < Notions.votes (consensusRisk c) (r :: rs) /\
      (forall l, Notions.votes l (r :: rs)
                 <= Notions.votes (consensusRisk c) (r :: rs)) /\
      agreement c
      = (number_of_Z (Notions.votes (consensusRisk c) (r :: rs))
         / number_of_Z (Z.of_nat (List.length (r :: rs))) * 100)%float.
Proof.
  split; [reflexivity|]. intros r rs.
  destruct (riskCounts_counted (r :: rs)) as [N H].
  unfold getConsensusAnalysis.
  destruct (riskCounts (r :: rs)) as [|first others] eqn:Ecounts.
  - exfalso. specialize (H (riskLevel r)). simpl in H.
    unfold Notions.votes in H. cbn [filter] in H.
    rewrite RiskLevel_eqb_refl in H. cbn [Datatypes.length] in H.
    destruct (Z.of_nat (S _) =? 0) eqn:E in H; [|discriminate].
    apply Z.eqb_eq in E. lia.
  - set (counts := first :: others) in *.
    assert (Hall : forall e, In e counts ->
                             count_of counts (fst e) = Some (snd e)).
    { intros e He. apply in_count_of; assumption. }
    destruct (more_counted_max counts others first Hall) as [Hin Hmax].
    set (best := fold_left (more_counted counts) others first) in *.
    assert (Hbest : snd best = Notions.votes (fst best) (r :: rs) /\
                    0 < Notions.votes (fst best) (r :: rs)).
    { pose proof (Hall best Hin) as Hb. rewrite H in Hb.
      pose proof (votes_nonneg (fst best) (r :: rs)).
      destruct (Notions.votes (fst best) (r :: rs) =? 0) eqn:E;
        [discriminate|].
      apply Z.eqb_neq in E. split; [congruence|lia]. }
    destruct Hbest as [Hbest Hpos].
    eexists. split; [reflexivity|]. cbn [consensusRisk agreement].
    split; [exact Hpos|]. split.
    + intros l. pose proof (votes_nonneg l (r :: rs)) as Hl.
      pose proof (H l) as Hc.
      destruct (Notions.votes l (r :: rs) =? 0) eqn:E.
      * apply Z.eqb_eq in E. lia.
      * apply count_of_some_in in Hc.
        specialize (Hmax _ Hc). simpl in Hmax. lia.
    + do 3 f_equal.
      destruct (fold_max (map snd counts) (snd first)) as [Min Mmax].
      rewrite <- Hbest.
      apply Z.le_antisymm.
      * destruct Min as [Min | Min].
        -- rewrite <- Min. apply (Hmax first). left. reflexivity.
        -- apply in_map_iff in Min. destruct Min as [e [<- He]].
           apply Hmax. exact He.
      * apply Mmax. right. apply in_map. exact Hin.
Qed.

End AIMultiModalAnalysisFacts.
